(** * Nemotron-NAS (DeciLM) model adapter: topology and weight loading

    A shallow embedding of [python/sglang/srt/models/nemotron_nas.py]:
    the intermediate-size rounding helpers, the per-layer construction of
    [DeciLMDecoderLayer], the residual flow of its [forward], the stacked
    [DeciModel] with its pipeline-rank boundaries, and the checkpoint name
    dispatch of [load_weights].

    Python integers are [Z] ([//] and [%] are floor division and modulo,
    which is what [Z.div] and [Z.modulo] compute), Python floats are
    binary64 values of [spec_float], strings are [string], dictionaries are
    [gmap string _], sets of names are [gset string], and a raised exception
    is the [Raise] case of [result]. *)

From Stdlib Require Import ZArith String Ascii List Lia Bool.
From Stdlib Require Import DecimalString DecimalZ.
From Stdlib Require Import SpecFloat.
From stdpp Require Import base option list gmap strings.

Local Open Scope string_scope.
Local Open Scope Z_scope.

(** ** Exceptions and the error monad *)

Inductive exn : Type :=
| ZeroDivisionError
| OverflowError
| ValueError
| TypeError
| IndexError
| KeyError (key : string)
| AttributeError (attr : string)
| AssertionError.

Inductive result (A : Type) : Type :=
| Ok (a : A)
| Raise (e : exn).

Arguments Ok {A} a.
Arguments Raise {A} e.

Global Instance result_ret : MRet result := fun A a => Ok a.

Global Instance result_bind : MBind result := fun A B k m =>
  match m with
  | Ok a => k a
  | Raise e => Raise e
  end.

(** ** Python numbers *)

Module Py.

(** [a // b] and [a % b] on integers. *)
Definition floordiv (a b : Z) : result Z :=
  if b =? 0 then Raise ZeroDivisionError else Ok (a / b).

Definition mod_ (a b : Z) : result Z :=
  if b =? 0 then Raise ZeroDivisionError else Ok (a mod b).

(** binary64 *)
Definition prec : Z := 53.
Definition emax : Z := 1024.

Definition fmul : spec_float -> spec_float -> spec_float := SFmul prec emax.
Definition fdiv : spec_float -> spec_float -> spec_float := SFdiv prec emax.

(** The correctly rounded double [m * 2^e]. *)
Definition double (m e : Z) : spec_float := binary_normalize prec emax m e false.

(** Implicit [int -> float] conversion of a mixed operation; an integer
    beyond the range of a double raises [OverflowError]. *)
Definition float_of_int (z : Z) : result spec_float :=
  match double z 0 with
  | S754_infinity _ => Raise OverflowError
  | f => Ok f
  end.

(** [float / float], with Python's check of the divisor. *)
Definition truediv (x y : spec_float) : result spec_float :=
  match y with
  | S754_zero _ => Raise ZeroDivisionError
  | _ => Ok (fdiv x y)
  end.

(** [int(x)] on a float: truncation toward zero. *)
Definition int_of_float (x : spec_float) : result Z :=
  match x with
  | S754_zero _ => Ok 0
  | S754_infinity _ => Raise OverflowError
  | S754_nan => Raise ValueError
  | S754_finite s m e =>
      let a := match e with
               | Zneg p => Z.pos m / 2 ^ Z.pos p
               | _ => Z.pos m * 2 ^ e
               end in
      Ok (if s then - a else a)
  end.

End Py.

(** ** Python strings and sequences *)

Module Str.

(** [sub in s] *)
Fixpoint contains (sub s : string) : bool :=
  String.prefix sub s
  || match s with
     | EmptyString => false
     | String _ s' => contains sub s'
     end.

(** [s.endswith(suffix)] *)
Definition endswith (s suffix : string) : bool :=
  let n := String.length s in
  let m := String.length suffix in
  (m <=? n)%nat && String.eqb (String.substring (n - m) m s) suffix.

(** Left-to-right scan of [s.replace(old, new)] for a non-empty [old];
    [skip] counts the characters of a match still to be dropped. *)
Fixpoint replace_scan (old new : string) (skip : nat) (s : string) : string :=
  match s with
  | EmptyString => EmptyString
  | String c s' =>
      match skip with
      | S k => replace_scan old new k s'
      | O =>
          if String.prefix old s
          then new +:+ replace_scan old new (String.length old - 1) s'
          else String c (replace_scan old new 0 s')
      end
  end.

Fixpoint intersperse (new s : string) : string :=
  match s with
  | EmptyString => new
  | String c s' => new +:+ String c (intersperse new s')
  end.

(** [s.replace(old, new)]: every non-overlapping occurrence, leftmost
    first; an empty [old] matches between all characters. *)
Definition replace (s old new : string) : string :=
  match old with
  | EmptyString => intersperse new s
  | _ => replace_scan old new 0 s
  end.

(** The last occurrence of the character [sep] splits [s] in two. *)
Fixpoint rpartition (sep : ascii) (s : string) : option (string * string) :=
  match s with
  | EmptyString => None
  | String c s' =>
      match rpartition sep s' with
      | Some (h, t) => Some (String c h, t)
      | None => if Ascii.eqb c sep then Some (EmptyString, s') else None
      end
  end.

(** [s.rsplit(sep, 1)] for a one-character separator. *)
Definition rsplit1 (s : string) (sep : ascii) : list string :=
  match rpartition sep s with
  | Some (h, t) => [h; t]
  | None => [s]
  end.

(** [str(i)] for an integer. *)
Definition of_int (i : Z) : string :=
  DecimalString.NilZero.string_of_int (Z.to_int i).

(** [int(s)] for the decimal literals [[+-]?[0-9]+]; anything else is a
    [ValueError]. *)
Definition to_nat_literal (s : string) : result Z :=
  match DecimalString.NilZero.uint_of_string s with
  | Some d => Ok (Z.of_uint d)
  | None => Raise ValueError
  end.

Definition to_int (s : string) : result Z :=
  match s with
  | String "-"%char s' => n ← to_nat_literal s'; Ok (- n)
  | String "+"%char s' => to_nat_literal s'
  | _ => to_nat_literal s
  end.

End Str.

(** [l[i]] on a list, negative indices counting from the end. *)
Definition getitem {A : Type} (l : list A) (i : Z) : result A :=
  let n := Z.of_nat (length l) in
  let j := if i <? 0 then i + n else i in
  if (0 <=? j) && (j <? n)
  then match l !! Z.to_nat j with
       | Some x => Ok x
       | None => Raise IndexError
       end
  else Raise IndexError.

(** [d[k]] on a dictionary. *)
Definition dict_get {V : Type} (d : gmap string V) (k : string) : result V :=
  match d !! k with
  | Some v => Ok v
  | None => Raise (KeyError k)
  end.

(** A [for] loop whose body updates the loop variables [s] or raises. *)
Fixpoint for_each {A S : Type} (body : S -> A -> result S) (xs : list A) (s : S)
  : result S :=
  match xs with
  | [] => Ok s
  | x :: xs' => s' ← body s x; for_each body xs' s'
  end.

(** The states a loop goes through: [states] starts at [s0], ends at
    [s], and the body takes each state to the next, one element of [xs]
    after the other. *)
Definition threaded {A S : Type} (body : S -> A -> result S) (xs : list A)
    (s0 s : S) (states : list S) : Prop :=
  length states = Datatypes.S (length xs)
  /\ states !! 0%nat = Some s0
  /\ states !! length xs = Some s
  /\ forall (i : nat) (x : A),
       xs !! i = Some x ->
       exists a b, states !! i = Some a
                   /\ states !! Datatypes.S i = Some b
                   /\ body a x = Ok b.

(** A list comprehension whose element expression may raise. *)
Fixpoint comprehension {A B : Type} (f : A -> result B) (xs : list A)
  : result (list B) :=
  match xs with
  | [] => Ok []
  | x :: xs' => y ← f x; ys ← comprehension f xs'; Ok (y :: ys)
  end.

(** [range(n)] *)
Definition range (n : Z) : list Z := seqZ 0 n.

(** ** The rounding helpers *)

(** [_find_multiple(n, k)] *)
Definition _find_multiple (n k : Z) : result Z :=
  r ← Py.mod_ n k;
  if r =? 0 then Ok n
  else
    r' ← Py.mod_ n k;
    Ok (n + k - r').

(** The float expression [2 * ffn_mult * n_embd / 3] followed by [int]. *)
Definition ffn_raw_size (ffn_mult : spec_float) (n_embd : Z) : result Z :=
  two ← Py.float_of_int 2;
  let a := Py.fmul two ffn_mult in
  n ← Py.float_of_int n_embd;
  let b := Py.fmul a n in
  three ← Py.float_of_int 3;
  c ← Py.truediv b three;
  Py.int_of_float c.

(** [_ffn_mult_to_intermediate_size(ffn_mult, n_embd)] *)
Definition _ffn_mult_to_intermediate_size (ffn_mult : spec_float) (n_embd : Z)
  : result Z :=
  intermediate_size ← ffn_raw_size ffn_mult n_embd;
  _find_multiple intermediate_size 256.

(** [r] is the least multiple of [k] that is at least [n]. *)
Definition least_multiple_ge (k n r : Z) : Prop :=
  (k | r) /\ n <= r /\ forall m, (k | m) -> n <= m -> r <= m.

(** ** Configuration *)

(** Values of the loosely typed configuration attributes. *)
Inductive pyval : Type :=
| PNone
| PBool (b : bool)
| PInt (z : Z)
| PFloat (f : spec_float)
| PStr (s : string).

(** [block_config.attention]; [n_heads_in_group] is [None] in the
    checkpoints' configuration where the block is a no-op. *)
Record AttentionConfig : Type := {
  attention_no_op : bool;
  n_heads_in_group : option Z
}.

(** [block_config.ffn] *)
Record FFNConfig : Type := {
  ffn_no_op : bool;
  ffn_mult : option spec_float
}.

Record BlockConfig : Type := {
  attention : AttentionConfig;
  ffn : FFNConfig
}.

(** The attributes of [LlamaConfig] the model reads. Those read through
    [getattr(config, name, default)] or [hasattr] are [None] when absent. *)
Record LlamaConfig : Type := {
  hidden_size : Z;
  num_attention_heads : Z;
  num_hidden_layers : Z;
  rms_norm_eps : spec_float;
  hidden_act : string;
  vocab_size : Z;
  pad_token_id : option Z;
  tie_word_embeddings : bool;
  block_configs : list BlockConfig;
  rope_theta : option pyval;
  rope_scaling : option (gmap string pyval);
  original_max_position_embeddings : option Z;
  max_position_embeddings : option Z;
  rope_is_neox_style : option bool;
  attention_bias : option bool;
  bias : option bool;
  qkv_bias : option bool
}.

(** [QuantizationConfig], through the one method the model calls. *)
Record QuantizationConfig : Type := {
  get_cache_scale : string -> option string
}.

(** [get_pp_group()] *)
Record PPGroup : Type := {
  is_first_rank : bool;
  is_last_rank : bool
}.

(** ** Sub-modules, as the arguments they are constructed with *)

Record LlamaAttention : Type := {
  attn_config : LlamaConfig;
  attn_hidden_size : Z;
  num_heads : Z;
  num_kv_heads : Z;
  layer_id : Z;
  attn_rope_theta : pyval;
  attn_rope_scaling : option (gmap string pyval);
  attn_rope_is_neox_style : bool;
  attn_max_position_embeddings : Z;
  attn_quant_config : option QuantizationConfig;
  attn_prefix : string;
  attn_bias : bool
}.

Record RMSNorm : Type := {
  norm_hidden_size : Z;
  eps : spec_float
}.

Record LlamaMLP : Type := {
  mlp_hidden_size : Z;
  intermediate_size : Z;
  mlp_hidden_act : string;
  mlp_quant_config : option QuantizationConfig;
  mlp_prefix : string
}.

Record VocabParallelEmbedding : Type := {
  num_embeddings : Z;
  embedding_dim : Z;
  org_num_embeddings : Z;
  embed_quant_config : option QuantizationConfig
}.

(** A sub-module slot of a pipeline stage: the module, or the
    [PPMissingLayer()] placeholder. *)
Inductive slot (M : Type) : Type :=
| Present (m : M)
| PPMissingLayer.

Arguments Present {M} m.
Arguments PPMissingLayer {M}.

(** [DeciLMDecoderLayer]: the attributes [__init__] sets. An attribute
    that was not set is [None]; reading it raises [AttributeError]. *)
Record DeciLMDecoderLayer : Type := {
  _is_no_op_attention : bool;
  _is_no_op_ffn : bool;
  layer_hidden_size : Z;
  self_attn : option LlamaAttention;
  input_layernorm : option RMSNorm;
  mlp : option LlamaMLP;
  post_attention_layernorm : option RMSNorm
}.

Record DeciModel : Type := {
  config : LlamaConfig;
  quant_config : option QuantizationConfig;
  padding_idx : option Z;
  model_vocab_size : Z;
  org_vocab_size : Z;
  embed_tokens : slot VocabParallelEmbedding;
  layers : list DeciLMDecoderLayer;
  norm : slot RMSNorm;
  intermediate_keys : list string * Z
}.

Definition attr {A : Type} (name : string) (a : option A) : result A :=
  match a with
  | Some x => Ok x
  | None => Raise (AttributeError name)
  end.

(** An operand that must be a number: [None] raises [TypeError]. *)
Definition number {A : Type} (a : option A) : result A :=
  match a with
  | Some x => Ok x
  | None => Raise TypeError
  end.

(** ** [DeciLMDecoderLayer.__init__] *)

Section LayerInit.

(** [add_prefix(name, prefix)] of [sglang.srt.utils]. *)
Variable add_prefix : string -> string -> string.

Definition DeciLMDecoderLayer_init
    (config : LlamaConfig) (layer_idx : Z)
    (quant_config : option QuantizationConfig) (prefix : string)
  : result DeciLMDecoderLayer :=
  block_config ← getitem (block_configs config) layer_idx;
  let is_no_op_attention := attention_no_op (attention block_config) in
  let is_no_op_ffn := ffn_no_op (ffn block_config) in
  let rope_theta := default (PInt 10000) (rope_theta config) in
  (* the entry is written into the dictionary of the configuration; every
     layer writes the same value *)
  let rope_scaling :=
    match rope_scaling config, original_max_position_embeddings config with
    | Some d, Some n =>
        if n =? 0 then Some d
        else Some (<["original_max_position_embeddings" := PInt n]> d)
    | rs, _ => rs
    end in
  let max_position_embeddings :=
    default 8192 (max_position_embeddings config) in
  let rope_is_neox_style := default true (rope_is_neox_style config) in
  let attention_bias :=
    default false (attention_bias config) || default false (bias config) in
  let bias_o_proj := attention_bias in
  let attention_bias :=
    match qkv_bias config with
    | Some b => b
    | None => attention_bias
    end in
  '(self_attn, input_layernorm) ←
    (if negb is_no_op_attention then
       group ← number (n_heads_in_group (attention block_config));
       num_kv_heads ← Py.floordiv (num_attention_heads config) group;
       Ok (Some {| attn_config := config;
                   attn_hidden_size := hidden_size config;
                   num_heads := num_attention_heads config;
                   num_kv_heads := num_kv_heads;
                   layer_id := layer_idx;
                   attn_rope_theta := rope_theta;
                   attn_rope_scaling := rope_scaling;
                   attn_rope_is_neox_style := rope_is_neox_style;
                   attn_max_position_embeddings := max_position_embeddings;
                   attn_quant_config := quant_config;
                   attn_prefix := add_prefix "self_attn" prefix;
                   attn_bias := attention_bias |},
           Some {| norm_hidden_size := hidden_size config;
                   eps := rms_norm_eps config |})
     else Ok (None, None));
  '(mlp, post_attention_layernorm) ←
    (if negb is_no_op_ffn then
       ffn_mult ← number (ffn_mult (ffn block_config));
       intermediate_size ←
         _ffn_mult_to_intermediate_size ffn_mult (hidden_size config);
       Ok (Some {| mlp_hidden_size := hidden_size config;
                   intermediate_size := intermediate_size;
                   mlp_hidden_act := hidden_act config;
                   mlp_quant_config := quant_config;
                   mlp_prefix := add_prefix "mlp" prefix |},
           Some {| norm_hidden_size := hidden_size config;
                   eps := rms_norm_eps config |})
     else Ok (None, None));
  Ok {| _is_no_op_attention := is_no_op_attention;
        _is_no_op_ffn := is_no_op_ffn;
        layer_hidden_size := hidden_size config;
        self_attn := self_attn;
        input_layernorm := input_layernorm;
        mlp := mlp;
        post_attention_layernorm := post_attention_layernorm |}.

End LayerInit.

(** A block configuration from which the layer can be built: an active
    attention has a non-zero group size, an active feed-forward has a
    multiplier whose size expression has an integer value. *)
Definition usable_block (config : LlamaConfig) (bc : BlockConfig) : Prop :=
  (attention_no_op (attention bc) = false ->
   exists g, n_heads_in_group (attention bc) = Some g /\ g <> 0)
  /\ (ffn_no_op (ffn bc) = false ->
      exists f i, ffn_mult (ffn bc) = Some f
                  /\ ffn_raw_size f (hidden_size config) = Ok i).

(** ** The surrounding engine

    The tensor library and the engine's layer library are collaborators:
    the model only calls them. They are the operations of a [Runtime]. *)

Class Runtime : Type := {
  Tensor : Type;
  Positions : Type;
  Param : Type;
  WeightLoader : Type;
  (** [add_prefix(name, prefix)] *)
  add_prefix : string -> string -> string;
  (** [embed_tokens(input_ids)] *)
  embedding_forward :
    slot VocabParallelEmbedding -> option Tensor -> result Tensor;
  (** [norm(x)] *)
  rmsnorm_forward : RMSNorm -> Tensor -> result Tensor;
  (** [y, r = norm(x, residual)]: the call and the unpacking of its value
      into two tensors *)
  rmsnorm_forward_residual :
    slot RMSNorm -> Tensor -> option Tensor -> result (Tensor * Tensor);
  (** [self_attn(positions=, hidden_states=, forward_batch=)] *)
  attention_forward :
    LlamaAttention -> Positions -> Tensor ->
    option (gmap string (option Tensor)) -> result Tensor;
  (** [mlp(x)] *)
  mlp_forward : LlamaMLP -> Tensor -> result Tensor;
  (** [t.dim()] and [t[0]] *)
  tensor_dim : Tensor -> Z;
  tensor_first : Tensor -> result Tensor;
  (** [dict(self.named_parameters())] *)
  named_parameters : DeciModel -> gmap string Param;
  (** the [weight_loader] attribute of a parameter, when it has one *)
  weight_loader : Param -> option WeightLoader;
  default_weight_loader : WeightLoader;
  (** [maybe_remap_kv_scale_name(name, params_dict)] *)
  maybe_remap_kv_scale_name : string -> gmap string Param -> option string;
  (** [is_pp_missing_parameter(name, model)] *)
  is_pp_missing_parameter : string -> DeciModel -> bool
}.

(** [IntermediateTensors]: a dictionary of tensors by name. The residual
    the model stores in it is [None] until a layer has produced one. *)
Abbreviation IntermediateTensors := (gmap string (option Tensor)).

Section Model.

Context `{RT : Runtime}.

(** *** [DeciLMDecoderLayer.forward] *)

Definition DeciLMDecoderLayer_forward
    (self : DeciLMDecoderLayer) (positions : Positions)
    (hidden_states : Tensor)
    (intermediate_tensors : option IntermediateTensors)
    (residual : option Tensor)
  : result (Tensor * option Tensor) :=
  '(hidden_states, residual) ←
    (if _is_no_op_attention self then Ok (hidden_states, residual)
     else
       '(hidden_states, residual) ←
         match residual with
         | None =>
             let residual := hidden_states in
             ln ← attr "input_layernorm" (input_layernorm self);
             hidden_states ← rmsnorm_forward ln hidden_states;
             Ok (hidden_states, residual)
         | Some residual =>
             ln ← attr "input_layernorm" (input_layernorm self);
             rmsnorm_forward_residual (Present ln) hidden_states
               (Some residual)
         end;
       sa ← attr "self_attn" (self_attn self);
       hidden_states ←
         attention_forward sa positions hidden_states intermediate_tensors;
       Ok (hidden_states, Some residual));
  if negb (_is_no_op_ffn self) then
    ln ← attr "post_attention_layernorm" (post_attention_layernorm self);
    '(hidden_states, residual) ←
      rmsnorm_forward_residual (Present ln) hidden_states residual;
    m ← attr "mlp" (mlp self);
    hidden_states ← mlp_forward m hidden_states;
    Ok (hidden_states, Some residual)
  else Ok (hidden_states, residual).

(** *** [DeciModel.__init__] *)

(** Modelled from the spec: [make_layers] of [sglang.srt.utils], whose
    source is not at hand. The stacked model "instantiates N decoder layers":
    the layer function is called once for each index of
    [range(num_hidden_layers)], in order, with the index and the prefix
    of that index, and the layers are kept in that order. *)
Definition make_layers
    (num_hidden_layers : Z)
    (layer_fn : Z -> string -> result DeciLMDecoderLayer)
    (prefix : string)
  : result (list DeciLMDecoderLayer) :=
  comprehension
    (fun idx => layer_fn idx (add_prefix (Str.of_int idx) prefix))
    (range num_hidden_layers).

Definition get_layer
    (config : LlamaConfig) (quant_config : option QuantizationConfig)
    (idx : Z) (prefix : string)
  : result DeciLMDecoderLayer :=
  suffix ← getitem (Str.rsplit1 prefix "."%char) 1;
  layer_idx ← Str.to_int suffix;
  DeciLMDecoderLayer_init add_prefix config idx quant_config prefix.

Definition DeciModel_init
    (pp : PPGroup) (config : LlamaConfig)
    (quant_config : option QuantizationConfig) (prefix : string)
  : result DeciModel :=
  let lora_vocab := 0 in
  let vocab_size' := vocab_size config + lora_vocab in
  let embed_tokens :=
    if is_first_rank pp || (tie_word_embeddings config && is_last_rank pp)
    then Present {| num_embeddings := vocab_size';
                    embedding_dim := hidden_size config;
                    org_num_embeddings := vocab_size config;
                    embed_quant_config := quant_config |}
    else PPMissingLayer in
  layers ← make_layers (num_hidden_layers config)
              (get_layer config quant_config)
              (add_prefix "layers" prefix);
  let norm :=
    if is_last_rank pp
    then Present {| norm_hidden_size := hidden_size config;
                    eps := rms_norm_eps config |}
    else PPMissingLayer in
  Ok {| config := config;
        quant_config := quant_config;
        padding_idx := pad_token_id config;
        model_vocab_size := vocab_size';
        org_vocab_size := vocab_size config;
        embed_tokens := embed_tokens;
        layers := layers;
        norm := norm;
        intermediate_keys :=
          (["hidden_states"; "residual"], hidden_size config) |}.

(** *** [DeciModel.forward] *)

Definition get_input_embeddings (self : DeciModel) (input_ids : option Tensor)
  : result Tensor :=
  embedding_forward (embed_tokens self) input_ids.

(** What [forward] returns: a tensor, or [IntermediateTensors]. *)
Inductive forward_output : Type :=
| OutTensor (t : Tensor)
| OutIntermediate (tensors : IntermediateTensors).

(** A tensor read from [IntermediateTensors]; the hidden states are a
    tensor there, never [None]. *)
Definition tensor_of (v : option Tensor) : result Tensor :=
  match v with
  | Some t => Ok t
  | None => Raise TypeError
  end.

(** The hidden states and residual the layers start from. *)
Definition initial_states
    (pp : PPGroup) (self : DeciModel)
    (input_ids : option Tensor)
    (intermediate_tensors : option IntermediateTensors)
    (inputs_embeds : option Tensor)
  : result (Tensor * option Tensor) :=
  if is_first_rank pp then
    hidden_states ←
      match inputs_embeds with
      | Some e => Ok e
      | None => get_input_embeddings self input_ids
      end;
    Ok (hidden_states, None)
  else
    match intermediate_tensors with
    | None => Raise AssertionError
    | Some tensors =>
        hs ← dict_get tensors "hidden_states";
        hidden_states ← tensor_of hs;
        residual ← dict_get tensors "residual";
        Ok (hidden_states, residual)
    end.

(** The loop variables: [hidden_states], [residual], [kv_cache_index]. *)
Definition loop_state : Type := Tensor * option Tensor * Z.

(** One iteration of [for i in range(len(self.layers))]. *)
Definition layer_step
    (self : DeciModel) (positions : Positions)
    (intermediate_tensors : option IntermediateTensors)
    (st : loop_state) (i : Z)
  : result loop_state :=
  let '(hidden_states, residual, kv_cache_index) := st in
  layer ← getitem (layers self) i;
  if negb (_is_no_op_attention layer) then
    '(hidden_states, residual) ←
      DeciLMDecoderLayer_forward layer positions hidden_states
        intermediate_tensors residual;
    Ok (hidden_states, residual, kv_cache_index + 1)
  else
    '(hidden_states, residual) ←
      DeciLMDecoderLayer_forward layer positions hidden_states
        intermediate_tensors residual;
    Ok (hidden_states, residual, kv_cache_index).

(** A layer applied to the pair of hidden states and residual. *)
Definition apply_layer
    (positions : Positions)
    (intermediate_tensors : option IntermediateTensors)
    (s : Tensor * option Tensor) (layer : DeciLMDecoderLayer)
  : result (Tensor * option Tensor) :=
  DeciLMDecoderLayer_forward layer positions s.1 intermediate_tensors s.2.

(** The layers of the model applied in list order, from a given pair of
    hidden states and residual. *)
Definition run_layers
    (self : DeciModel) (positions : Positions)
    (intermediate_tensors : option IntermediateTensors)
    (hidden_states : Tensor) (residual : option Tensor)
  : result (Tensor * option Tensor) :=
  for_each (apply_layer positions intermediate_tensors) (layers self)
    (hidden_states, residual).

(** The end of [forward], after the loop. *)
Definition final_output
    (pp : PPGroup) (self : DeciModel)
    (hidden_states : Tensor) (residual : option Tensor)
  : result forward_output :=
  if negb (is_last_rank pp) then
    Ok (OutIntermediate
          (<["residual" := residual]>
             (<["hidden_states" := Some hidden_states]> ∅)))
  else
    '(hidden_states, _) ←
      rmsnorm_forward_residual (norm self) hidden_states residual;
    Ok (OutTensor hidden_states).

Definition DeciModel_forward
    (pp : PPGroup) (self : DeciModel)
    (input_ids : option Tensor) (positions : Positions)
    (intermediate_tensors : option IntermediateTensors)
    (inputs_embeds : option Tensor)
  : result forward_output :=
  '(hidden_states, residual) ←
    initial_states pp self input_ids intermediate_tensors inputs_embeds;
  let kv_cache_index := 0 in
  '(hidden_states, residual, kv_cache_index) ←
    for_each (layer_step self positions intermediate_tensors)
      (range (Z.of_nat (length (layers self))))
      (hidden_states, residual, kv_cache_index);
  final_output pp self hidden_states residual.

(** *** [DeciModel.load_weights] *)

(** A shard id of the stacked mapping: ["q"], ["k"], ["v"], [0] or [1]. *)
Inductive shard_id : Type :=
| ShardName (s : string)
| ShardIndex (i : Z).

(** (param_name, shard_name, shard_id) *)
Definition stacked_params_mapping : list (string * string * shard_id) :=
  [ (".qkv_proj", ".q_proj", ShardName "q");
    (".qkv_proj", ".k_proj", ShardName "k");
    (".qkv_proj", ".v_proj", ShardName "v");
    (".gate_up_proj", ".gate_proj", ShardIndex 0);
    (".gate_up_proj", ".up_proj", ShardIndex 1) ].

(** One call [weight_loader(param, loaded_weight[, shard_id])], with the
    key of [param] in [params_dict]. The loaders belong to the engine's
    layers; what a call does to the parameter lies outside the model, which
    is observed through the calls it makes. *)
Record loader_call : Type := {
  call_name : string;
  call_param : Param;
  call_loader : WeightLoader;
  call_weight : Tensor;
  call_shard : option shard_id
}.

(** What the function has done so far: the set [loaded_params] and the
    weight-loader calls, oldest first. *)
Record load_state : Type := {
  loaded_params : gset string;
  calls : list loader_call
}.

Definition dispatch (st : load_state) (c : loader_call) (name : string)
  : load_state :=
  {| loaded_params := loaded_params st ∪ {[ name ]};
     calls := calls st ++ [c] |}.

(** [self.quant_config is not None and
     (scale_name := self.quant_config.get_cache_scale(name))]:
    the scale name when the condition is true. An empty name is false. *)
Definition cache_scale_name (self : DeciModel) (name : string)
  : option string :=
  match quant_config self with
  | None => None
  | Some qc =>
      match get_cache_scale qc name with
      | Some scale_name =>
          if String.eqb scale_name "" then None else Some scale_name
      | None => None
      end
  end.

(** [name.endswith(".bias") and name not in params_dict] *)
Definition extra_bias (params_dict : gmap string Param) (name : string)
  : bool :=
  Str.endswith name ".bias"
  && match params_dict !! name with Some _ => false | None => true end.

(** How the loop over [stacked_params_mapping] ends: at its [break],
    after a call, or exhausted, which runs its [else] clause. Both carry
    the value of [name] at that point. *)
Inductive loop_exit : Type :=
| Break (name : string) (c : loader_call)
| Exhausted (name : string).

Fixpoint stacked_loop
    (self : DeciModel) (params_dict : gmap string Param)
    (mapping : list (string * string * shard_id))
    (name : string) (loaded_weight : Tensor)
  : result loop_exit :=
  match mapping with
  | [] => Ok (Exhausted name)
  | (param_name, weight_name, shard) :: rest =>
      if negb (Str.contains weight_name name) then
        stacked_loop self params_dict rest name loaded_weight
      else
        let name := Str.replace name weight_name param_name in
        if extra_bias params_dict name then
          stacked_loop self params_dict rest name loaded_weight
        else if is_pp_missing_parameter name self then
          stacked_loop self params_dict rest name loaded_weight
        else
          param ← dict_get params_dict name;
          loader ← attr "weight_loader" (weight_loader param);
          Ok (Break name {| call_name := name;
                            call_param := param;
                            call_loader := loader;
                            call_weight := loaded_weight;
                            call_shard := Some shard |})
  end.

(** The body of [for name, loaded_weight in weights]. A [continue]
    leaves the state as it was. *)
Definition load_entry
    (self : DeciModel) (params_dict : gmap string Param)
    (st : load_state) (entry : string * Tensor)
  : result load_state :=
  let '(name, loaded_weight) := entry in
  if Str.contains "rotary_emb.inv_freq" name then Ok st
  else if Str.contains "rotary_emb.cos_cached" name
          || Str.contains "rotary_emb.sin_cached" name then Ok st
  else
    match cache_scale_name self name with
    | Some scale_name =>
        param ← dict_get params_dict scale_name;
        let loader := default default_weight_loader (weight_loader param) in
        loaded_weight ←
          (if tensor_dim loaded_weight =? 0 then Ok loaded_weight
           else tensor_first loaded_weight);
        Ok (dispatch st {| call_name := scale_name;
                           call_param := param;
                           call_loader := loader;
                           call_weight := loaded_weight;
                           call_shard := None |} scale_name)
    | None =>
        let remapped :=
          if Str.contains "scale" name
          then maybe_remap_kv_scale_name name params_dict
          else Some name in
        match remapped with
        | None => Ok st
        | Some name =>
            exit ← stacked_loop self params_dict stacked_params_mapping
                      name loaded_weight;
            match exit with
            | Break name c => Ok (dispatch st c name)
            | Exhausted name =>
                if extra_bias params_dict name then Ok st
                else if is_pp_missing_parameter name self then Ok st
                else
                  param ← dict_get params_dict name;
                  let loader :=
                    default default_weight_loader (weight_loader param) in
                  Ok (dispatch st {| call_name := name;
                                     call_param := param;
                                     call_loader := loader;
                                     call_weight := loaded_weight;
                                     call_shard := None |} name)
            end
        end
    end.

(** The three rotary-embedding names that are skipped first. *)
Definition rotary_name (name : string) : bool :=
  Str.contains "rotary_emb.inv_freq" name
  || Str.contains "rotary_emb.cos_cached" name
  || Str.contains "rotary_emb.sin_cached" name.

(** The name with which an entry enters the loop over
    [stacked_params_mapping], if it gets there: it is not a rotary name,
    not a kv-cache scale of the quantization configuration, and a name
    containing ["scale"] is the one [maybe_remap_kv_scale_name] returns. *)
Definition mapping_input
    (self : DeciModel) (params_dict : gmap string Param) (name : string)
  : option string :=
  if rotary_name name then None
  else
    match cache_scale_name self name with
    | Some _ => None
    | None =>
        if Str.contains "scale" name
        then maybe_remap_kv_scale_name name params_dict
        else Some name
    end.

(** The value of [name] when the loop over the mapping is left. *)
Definition exit_name (e : loop_exit) : string :=
  match e with
  | Break name _ => name
  | Exhausted name => name
  end.

(** The set of loaded names is the set of the names of the calls made,
    and each call is on the parameter of its name. *)
Definition names_are_calls (params_dict : gmap string Param) (st : load_state)
  : Prop :=
  loaded_params st = list_to_set (call_name <$> calls st)
  /\ Forall (fun c => params_dict !! call_name c = Some (call_param c))
       (calls st).

Definition empty_load_state : load_state :=
  {| loaded_params := ∅; calls := [] |}.

(** [load_weights] with the calls it makes; the function returns the
    set. *)
Definition DeciModel_load_weights_run
    (self : DeciModel) (weights : list (string * Tensor))
  : result load_state :=
  let params_dict := named_parameters self in
  for_each (load_entry self params_dict) weights empty_load_state.

Definition DeciModel_load_weights
    (self : DeciModel) (weights : list (string * Tensor))
  : result (gset string) :=
  st ← DeciModel_load_weights_run self weights;
  Ok (loaded_params st).

(** *** [DeciLMForCausalLM] *)

(** The class attribute [mistral_mapping]. *)
Definition mistral_mapping : list (string * string) :=
  [ ("layers", "model.layers");
    ("attention", "self_attn");
    ("wq", "q_proj");
    ("wk", "k_proj");
    ("wv", "v_proj");
    ("wo", "o_proj");
    ("attention_norm", "input_layernorm");
    ("feed_forward", "mlp");
    ("w1", "gate_proj");
    ("w2", "down_proj");
    ("w3", "up_proj");
    ("ffn_norm", "post_attention_layernorm");
    ("tok_embeddings", "model.embed_tokens");
    ("output", "lm_head");
    ("norm", "model.norm") ].

(** The attributes of [DeciLMForCausalLM] that [load_weights] reads. *)
Record DeciLMForCausalLM : Type := {
  lm_config : LlamaConfig;
  model : DeciModel
}.

Section CausalLM.

(** [AutoWeightsLoader(module, skip_prefixes=...).load_weights(weights)]
    of [sglang.srt.utils]. *)
Variable AutoWeightsLoader_load_weights :
  DeciLMForCausalLM -> option (list string) -> list (string * Tensor) ->
  result (gset string).

Definition DeciLMForCausalLM_load_weights
    (self : DeciLMForCausalLM) (weights : list (string * Tensor))
  : result (gset string) :=
  let skip_prefixes :=
    if tie_word_embeddings (lm_config self)
    then Some ["lm_head."] else None in
  AutoWeightsLoader_load_weights self skip_prefixes weights.

End CausalLM.

End Model.

(** ** A small engine and a three-layer model, for evaluation

    Tensors are integer scalars and vectors; the normalizations and the
    sub-modules are simple arithmetic, enough to tell the calls and their
    order apart. *)

Module Example.

Inductive tensor : Type :=
| Scalar (x : Z)
| Vector (xs : list Z).

Definition tmap (f : Z -> Z) (t : tensor) : tensor :=
  match t with
  | Scalar x => Scalar (f x)
  | Vector xs => Vector (map f xs)
  end.

Definition tadd (a b : tensor) : tensor :=
  match a, b with
  | Scalar x, Scalar y => Scalar (x + y)
  | Scalar x, Vector ys => Vector (map (Z.add x) ys)
  | Vector xs, Scalar y => Vector (map (fun x => x + y) xs)
  | Vector xs, Vector ys => Vector (zip_with Z.add xs ys)
  end.

Definition prefixed (name prefix : string) : string :=
  if String.eqb prefix "" then name else prefix +:+ "." +:+ name.

(** The parameters of a layer, each with the name of its own
    [weight_loader] when it has one. *)
Definition layer_parameters (i : nat) (layer : DeciLMDecoderLayer)
  : list (string * option string) :=
  let p := "layers." +:+ Str.of_int (Z.of_nat i) in
  (match self_attn layer with
   | Some _ =>
     [ (p +:+ ".self_attn.qkv_proj.weight", Some "qkv_loader");
       (p +:+ ".self_attn.o_proj.weight", Some "row_loader");
       (p +:+ ".self_attn.attn.k_scale", None);
       (p +:+ ".self_attn.attn.v_scale", None);
       (p +:+ ".input_layernorm.weight", None) ]
   | None => []
   end)
  ++ (match mlp layer with
      | Some _ =>
        [ (p +:+ ".mlp.gate_up_proj.weight", Some "merged_loader");
          (p +:+ ".mlp.down_proj.weight", Some "row_loader");
          (p +:+ ".post_attention_layernorm.weight", None) ]
      | None => []
      end).

Definition parameters (self : DeciModel) : gmap string (option string) :=
  list_to_map
    ((match embed_tokens self with
      | Present _ => [("embed_tokens.weight", Some "vocab_loader")]
      | PPMissingLayer => []
      end)
     ++ (match norm self with
         | Present _ => [("norm.weight", None)]
         | PPMissingLayer => []
         end)
     ++ concat (imap layer_parameters (layers self))).

Definition remap_kv_scale (name : string) (params : gmap string (option string))
  : option string :=
  if Str.endswith name ".k_scale" || Str.endswith name ".v_scale" then
    let name' :=
      Str.replace (Str.replace name ".k_proj.k_scale" ".attn.k_scale")
        ".v_proj.v_scale" ".attn.v_scale" in
    match params !! name' with
    | Some _ => Some name'
    | None => None
    end
  else Some name.

Definition pp_missing (name : string) (self : DeciModel) : bool :=
  match embed_tokens self, norm self with
  | PPMissingLayer, _ => String.prefix "embed_tokens." name
  | _, PPMissingLayer => String.prefix "norm." name
  | _, _ => false
  end.

#[export] Instance runtime : Runtime := {|
  Tensor := tensor;
  Positions := unit;
  Param := option string;
  WeightLoader := string;
  add_prefix := prefixed;
  embedding_forward := fun e ids =>
    match e, ids with
    | Present _, Some t => Ok (tmap (Z.mul 10) t)
    | _, _ => Raise TypeError
    end;
  rmsnorm_forward := fun _ x => Ok x;
  rmsnorm_forward_residual := fun n x r =>
    match n, r with
    | Present _, Some r => Ok (tadd x r, tadd x r)
    | _, _ => Raise ValueError
    end;
  attention_forward := fun a _ x _ => Ok (tmap (Z.add (layer_id a + 1)) x);
  mlp_forward := fun m x => Ok (tmap (Z.mul 2) x);
  tensor_dim := fun t => match t with Scalar _ => 0 | Vector _ => 1 end;
  tensor_first := fun t =>
    match t with
    | Vector (x :: _) => Ok (Scalar x)
    | _ => Raise IndexError
    end;
  named_parameters := parameters;
  weight_loader := fun p => p;
  default_weight_loader := "default_weight_loader";
  maybe_remap_kv_scale_name := remap_kv_scale;
  is_pp_missing_parameter := pp_missing
|}.

Definition block (attn_no_op : bool) (group : option Z)
    (ffn_no_op' : bool) (mult : option spec_float) : BlockConfig :=
  {| attention := {| attention_no_op := attn_no_op;
                     n_heads_in_group := group |};
     ffn := {| ffn_no_op := ffn_no_op'; ffn_mult := mult |} |}.

(** Three layers: a full one, one without attention, one empty. *)
Definition cfg : LlamaConfig :=
  {| hidden_size := 8192;
     num_attention_heads := 64;
     num_hidden_layers := 3;
     rms_norm_eps := Py.double 1 (-17);
     hidden_act := "silu";
     vocab_size := 128256;
     pad_token_id := None;
     tie_word_embeddings := false;
     block_configs :=
       [ block false (Some 8) false (Some (Py.double 21 (-3)));
         block true None false (Some (Py.double 5854679515581645 (-52)));
         block true None true None ];
     rope_theta := Some (PFloat (Py.double 500000 0));
     rope_scaling := None;
     original_max_position_embeddings := None;
     max_position_embeddings := Some 131072;
     rope_is_neox_style := None;
     attention_bias := Some false;
     bias := None;
     qkv_bias := None |}.

(** Quantization configuration whose kv-cache scales are the
    [output_scale] of the key and value projections. *)
Definition fp8 : QuantizationConfig :=
  {| get_cache_scale := fun name =>
       if Str.endswith name ".output_scale" && Str.contains ".k_proj" name
       then Some (Str.replace name ".k_proj.output_scale" ".attn.k_scale")
       else if Str.endswith name ".output_scale" && Str.contains ".v_proj" name
       then Some (Str.replace name ".v_proj.output_scale" ".attn.v_scale")
       else None |}.

Definition single : PPGroup := {| is_first_rank := true; is_last_rank := true |}.
Definition first : PPGroup := {| is_first_rank := true; is_last_rank := false |}.
Definition last_ : PPGroup := {| is_first_rank := false; is_last_rank := true |}.

(** The model of [cfg] on a given pipeline group, when it is built. *)
Definition build (pp : PPGroup) (qc : option QuantizationConfig)
  : result DeciModel :=
  DeciModel_init pp cfg qc "".

(** The model without layers, and the model of a build that returned. *)
Definition no_layers (pp : PPGroup) : DeciModel :=
  {| config := cfg;
     quant_config := None;
     padding_idx := None;
     model_vocab_size := vocab_size cfg;
     org_vocab_size := vocab_size cfg;
     embed_tokens := PPMissingLayer;
     layers := [];
     norm := PPMissingLayer;
     intermediate_keys := (["hidden_states"; "residual"], hidden_size cfg) |}.

Definition built (pp : PPGroup) (qc : option QuantizationConfig) : DeciModel :=
  match build pp qc with
  | Ok m => m
  | Raise _ => no_layers pp
  end.

(** The three-layer model on a single rank, without and with the FP8
    configuration, and on the last of several ranks. *)
Definition model : DeciModel := Eval vm_compute in built single None.
Definition model_fp8 : DeciModel := built single (Some fp8).
Definition model_last : DeciModel := Eval vm_compute in built last_ None.

(** A layer with neither attention nor feed-forward. *)
Definition empty_layer : DeciLMDecoderLayer :=
  {| _is_no_op_attention := true;
     _is_no_op_ffn := true;
     layer_hidden_size := hidden_size cfg;
     self_attn := None;
     input_layernorm := None;
     mlp := None;
     post_attention_layernorm := None |}.

End Example.

(** ** Further notions for the properties of the code *)

(** A float that is not below zero: a zero of either sign, a positive
    finite number, plus infinity, or a NaN. *)
Definition not_negative (f : spec_float) : Prop :=
  match f with
  | S754_finite true _ _ => False
  | S754_infinity true => False
  | _ => True
  end.

(** [r] is the greatest multiple of [k] that is at most [n]. *)
Definition greatest_multiple_le (k n r : Z) : Prop :=
  (k | r) /\ r <= n /\ forall m, (k | m) -> m <= n -> m <= r.

(** [add_prefix] joins a name to a non-empty prefix with a dot, and is the
    name alone under the empty prefix. *)
Definition joins_with_dot (add_prefix : string -> string -> string) : Prop :=
  forall name p,
    add_prefix name p = if String.eqb p "" then name else p +:+ "." +:+ name.

(** The arguments of an attention module that belong to the layer, not
    to the configuration, set to given values. *)
Definition with_layer_arguments
    (sa : LlamaAttention) (id kv_heads : Z) (prefix : string)
  : LlamaAttention :=
  {| attn_config := attn_config sa;
     attn_hidden_size := attn_hidden_size sa;
     num_heads := num_heads sa;
     num_kv_heads := kv_heads;
     layer_id := id;
     attn_rope_theta := attn_rope_theta sa;
     attn_rope_scaling := attn_rope_scaling sa;
     attn_rope_is_neox_style := attn_rope_is_neox_style sa;
     attn_max_position_embeddings := attn_max_position_embeddings sa;
     attn_quant_config := attn_quant_config sa;
     attn_prefix := prefix;
     attn_bias := attn_bias sa |}.

(** A layer whose two blocks are both no-ops. *)
Definition is_noop_layer (layer : DeciLMDecoderLayer) : bool :=
  _is_no_op_attention layer && _is_no_op_ffn layer.

(** The model with another list of layers, and with another embedding. *)
Definition with_layers (self : DeciModel) (ls : list DeciLMDecoderLayer)
  : DeciModel :=
  {| config := config self;
     quant_config := quant_config self;
     padding_idx := padding_idx self;
     model_vocab_size := model_vocab_size self;
     org_vocab_size := org_vocab_size self;
     embed_tokens := embed_tokens self;
     layers := ls;
     norm := norm self;
     intermediate_keys := intermediate_keys self |}.

Section LoadNotions.

Context `{RT : Runtime}.

(** What two runs of the loader have done, one after the other. *)
Definition merge_states (a b : load_state) : load_state :=
  {| loaded_params := loaded_params a ∪ loaded_params b;
     calls := calls a ++ calls b |}.

(** A call with a shard id is on a name that contains the fused name of
    a rule with that shard id. *)
Definition shard_targets_fused (c : loader_call) : Prop :=
  match call_shard c with
  | None => True
  | Some sh =>
      exists p wn,
        (p, wn, sh) ∈ stacked_params_mapping
        /\ Str.contains p (call_name c) = true
  end.

End LoadNotions.

(** ** [DeciLMForCausalLM]: construction, logits and sampling *)

Record ParallelLMHead : Type := {
  head_num_embeddings : Z;
  head_embedding_dim : Z;
  head_org_num_embeddings : Z;
  head_padding_size : Z;
  head_quant_config : option QuantizationConfig;
  head_prefix : string
}.

(** The attribute [lm_head]: the head, the value of
    [lm_head.tie_weights(embed_tokens)], or [PPMissingLayer()]. *)
Inductive head_module : Type :=
| Head (h : ParallelLMHead)
| TiedHead (h : ParallelLMHead) (e : slot VocabParallelEmbedding)
| HeadMissing.

(** [LogitsProcessor(a0, a1, a2)], by its positional arguments. *)
Record LogitsProcessor : Type := {
  processor_arg0 : Z;
  processor_arg1 : Z;
  processor_arg2 : spec_float
}.

Section CausalLMInit.

Context `{RT : Runtime}.

(** The attributes [__init__] sets besides [config] and [model], which
    [DeciLMForCausalLM] holds; [unpadded_vocab_size] and
    [logits_processor] are set on the last rank only. *)
Record CausalLM : Type := {
  core : DeciLMForCausalLM;
  unpadded_vocab_size : option Z;
  lm_head : head_module;
  logits_processor : option LogitsProcessor
}.

(** [DEFAULT_VOCAB_PADDING_SIZE] of
    [sglang.srt.layers.vocab_parallel_embedding]. *)
Variable DEFAULT_VOCAB_PADDING_SIZE : Z.

Definition _init_model
    (pp : PPGroup) (config : LlamaConfig)
    (quant_config : option QuantizationConfig) (prefix : string)
  : result DeciModel :=
  DeciModel_init pp config quant_config prefix.

(** [DeciLMForCausalLM.__init__]; [logit_scale] is the attribute of that
    name of the configuration, [None] when it has none. *)
Definition DeciLMForCausalLM_init
    (pp : PPGroup) (config : LlamaConfig) (logit_scale : option spec_float)
    (quant_config : option QuantizationConfig) (prefix : string)
  : result CausalLM :=
  model ← _init_model pp config quant_config (add_prefix prefix "model");
  let self := {| lm_config := config; model := model |} in
  if is_last_rank pp then
    let unpadded := vocab_size config in
    let head :=
      {| head_num_embeddings := unpadded;
         head_embedding_dim := hidden_size config;
         head_org_num_embeddings := vocab_size config;
         head_padding_size := DEFAULT_VOCAB_PADDING_SIZE;
         head_quant_config := quant_config;
         head_prefix := add_prefix prefix "lm_head" |} in
    let lm_head :=
      if tie_word_embeddings config
      then TiedHead head (embed_tokens model)
      else Head head in
    let logit_scale := default (Py.double 1 0) logit_scale in
    Ok {| core := self;
          unpadded_vocab_size := Some unpadded;
          lm_head := lm_head;
          logits_processor :=
            Some {| processor_arg0 := unpadded;
                    processor_arg1 := vocab_size config;
                    processor_arg2 := logit_scale |} |}
  else
    Ok {| core := self;
          unpadded_vocab_size := None;
          lm_head := HeadMissing;
          logits_processor := None |}.

Definition DeciLMForCausalLM_get_input_embeddings
    (self : CausalLM) (input_ids : option Tensor) : result Tensor :=
  get_input_embeddings (model (core self)) input_ids.

Definition DeciLMForCausalLM_forward
    (pp : PPGroup) (self : CausalLM)
    (input_ids : option Tensor) (positions : Positions)
    (intermediate_tensors : option IntermediateTensors)
    (inputs_embeds : option Tensor)
  : result forward_output :=
  DeciModel_forward pp (model (core self)) input_ids positions
    intermediate_tensors inputs_embeds.

(** [self.logits_processor(input_ids=, hidden_states=, lm_head=,
    logits_metadata=)] *)
Variable SamplingMetadata : Type.
Variable Logits : Type.
Variable logits_processor_forward :
  LogitsProcessor -> option Tensor -> Tensor -> head_module ->
  SamplingMetadata -> result Logits.

Definition compute_logits
    (self : CausalLM) (hidden_states : Tensor)
    (sampling_metadata : SamplingMetadata)
  : result Logits :=
  processor ← attr "logits_processor" (logits_processor self);
  logits_processor_forward processor None hidden_states (lm_head self)
    sampling_metadata.

End CausalLMInit.

Section Sampling.

Context `{RT : Runtime}.

(** [LogitsProcessorOutput], its attribute [next_token_logits], and the
    fields of the forward batch that [sample] hands to the sampler. *)
Variable LogitsOutput : Type.
Variable next_token_logits : LogitsOutput -> Tensor.
Variable Event Grammar LogprobNums TokenIds : Type.

(** The attributes of [sampling_info] that [_preprocess_logits] tests:
    [sampling_info_done] is an event or [None], [grammars] a list or
    [None]. *)
Record SamplingBatchInfo : Type := {
  sampling_info_done : option Event;
  grammars : option (list Grammar)
}.

Record ForwardBatch : Type := {
  sampling_info : SamplingBatchInfo;
  return_logprob : bool;
  top_logprobs_nums : LogprobNums;
  token_ids_logprobs : TokenIds
}.

(** What [sample] receives: one output, or a tuple of what it receives. *)
#[warnings="-register-all"] Inductive logits_output : Type :=
| Single (o : LogitsOutput)
| Many (values : list logits_output).

(** The calls on the collaborators, in the order they are made. *)
Inductive sample_event : Type :=
| Wait (e : Event)
| UpdateRegexVocabMask
| ApplyLogitsBias (logits : Tensor)
| Sampler (o : LogitsOutput) (info : SamplingBatchInfo) (logprob : bool)
    (nums : LogprobNums) (ids : TokenIds).

(** The value of the sampler's call, and of [torch.stack(_, axis=-1)]. *)
Variable sampler_forward :
  LogitsOutput -> SamplingBatchInfo -> bool -> LogprobNums -> TokenIds ->
  Tensor.
Variable torch_stack : list Tensor -> Tensor.

(** Truth value of a list or [None]. *)
Definition truthy {A : Type} (l : option (list A)) : bool :=
  match l with
  | Some (_ :: _) => true
  | _ => false
  end.

(** [_preprocess_logits], by the calls it makes. *)
Definition _preprocess_logits
    (o : LogitsOutput) (info : SamplingBatchInfo) : list sample_event :=
  ((match sampling_info_done info with
    | Some e => if truthy (grammars info) then [Wait e] else []
    | None => [UpdateRegexVocabMask]
    end)
   ++ [ApplyLogitsBias (next_token_logits o)])%list.

(** [sample]: its value and the calls it makes. *)
Fixpoint sample (l : logits_output) (forward_batch : ForwardBatch)
  : Tensor * list sample_event :=
  match l with
  | Many values =>
      let results := map (fun v => sample v forward_batch) values in
      (torch_stack (map fst results), concat (map snd results))
  | Single o =>
      let info := sampling_info forward_batch in
      let pre := _preprocess_logits o info in
      let next_token_ids :=
        sampler_forward o info (return_logprob forward_batch)
          (top_logprobs_nums forward_batch)
          (token_ids_logprobs forward_batch) in
      (next_token_ids,
       (pre ++ [Sampler o info (return_logprob forward_batch)
                  (top_logprobs_nums forward_batch)
                  (token_ids_logprobs forward_batch)])%list)
  end.

(** The outputs of a nest of tuples, left to right. *)
Fixpoint outputs (l : logits_output) : list LogitsOutput :=
  match l with
  | Single o => [o]
  | Many values => concat (map outputs values)
  end.

(** The calls [sample] makes for one output. *)
Definition output_events (forward_batch : ForwardBatch) (o : LogitsOutput)
  : list sample_event :=
  (_preprocess_logits o (sampling_info forward_batch)
   ++ [Sampler o (sampling_info forward_batch) (return_logprob forward_batch)
         (top_logprobs_nums forward_batch)
         (token_ids_logprobs forward_batch)])%list.

Definition is_wait (ev : sample_event) : bool :=
  match ev with Wait _ => true | _ => false end.

Definition is_update (ev : sample_event) : bool :=
  match ev with UpdateRegexVocabMask => true | _ => false end.

Definition is_bias (ev : sample_event) : bool :=
  match ev with ApplyLogitsBias _ => true | _ => false end.

Definition is_sampler (ev : sample_event) : bool :=
  match ev with Sampler _ _ _ _ _ => true | _ => false end.

(** How many of the calls are of a kind. *)
Definition count_events (kind : sample_event -> bool)
    (events : list sample_event) : nat :=
  length (List.filter kind events).

End Sampling.

(** ** Further models for evaluation *)

Module Cases.

(** A causal model with nothing but its core. *)
Definition headless (c : LlamaConfig) (m : DeciModel) : CausalLM :=
  {| core := {| lm_config := c; model := m |};
     unpadded_vocab_size := None;
     lm_head := HeadMissing;
     logits_processor := None |}.

Import Example.

Definition reconfigured (c : LlamaConfig) (layer_count : Z) (tied : bool)
    (blocks : list BlockConfig) : LlamaConfig :=
  {| hidden_size := hidden_size c;
     num_attention_heads := num_attention_heads c;
     num_hidden_layers := layer_count;
     rms_norm_eps := rms_norm_eps c;
     hidden_act := hidden_act c;
     vocab_size := vocab_size c;
     pad_token_id := pad_token_id c;
     tie_word_embeddings := tied;
     block_configs := blocks;
     rope_theta := rope_theta c;
     rope_scaling := rope_scaling c;
     original_max_position_embeddings := original_max_position_embeddings c;
     max_position_embeddings := max_position_embeddings c;
     rope_is_neox_style := rope_is_neox_style c;
     attention_bias := attention_bias c;
     bias := bias c;
     qkv_bias := qkv_bias c |}.

(** Four layers for the three block configurations of [cfg]; tied
    embeddings; two layers followed by a block configuration that no layer
    could be built from; and block configurations with a missing group
    size, a group size of zero and a missing multiplier. *)
Definition cfg_long : LlamaConfig :=
  reconfigured cfg 4 false (block_configs cfg).

Definition cfg_tied : LlamaConfig :=
  reconfigured cfg 3 true (block_configs cfg).

Definition cfg_short : LlamaConfig :=
  reconfigured cfg 2 false
    (take 2 (block_configs cfg) ++ [block false None false None]).

Definition cfg_broken : LlamaConfig :=
  reconfigured cfg 3 false
    [ block false None true None;
      block false (Some 0) true None;
      block true None false None ].

(** The engine of [Example] with parameters that have no [weight_loader]
    of their own. *)
Definition bare_runtime : Runtime :=
  {| Tensor := tensor;
     Positions := unit;
     Param := option string;
     WeightLoader := string;
     add_prefix := prefixed;
     embedding_forward := @embedding_forward runtime;
     rmsnorm_forward := @rmsnorm_forward runtime;
     rmsnorm_forward_residual := @rmsnorm_forward_residual runtime;
     attention_forward := @attention_forward runtime;
     mlp_forward := @mlp_forward runtime;
     tensor_dim := @tensor_dim runtime;
     tensor_first := @tensor_first runtime;
     named_parameters := fun self => (fun _ => None) <$> parameters self;
     weight_loader := fun p => p;
     default_weight_loader := "default_weight_loader";
     maybe_remap_kv_scale_name := remap_kv_scale;
     is_pp_missing_parameter := pp_missing |}.

(** The first layer of the three-layer model, and the model on the first
    of several ranks. *)
Definition full_layer : DeciLMDecoderLayer :=
  Eval vm_compute in
    match layers model with
    | l :: _ => l
    | [] => empty_layer
    end.

Definition model_first : DeciModel := Eval vm_compute in built first None.

(** Sampling with integers for the outputs, a sampler that wraps its
    output, and the sum for [torch.stack]. *)
Definition batch_of (done : option unit) (gs : option (list unit))
  : ForwardBatch unit unit unit unit :=
  {| sampling_info := {| sampling_info_done := done; grammars := gs |};
     return_logprob := false;
     top_logprobs_nums := tt;
     token_ids_logprobs := tt |}.

Definition sampler_example
    (o : Z) (_ : SamplingBatchInfo unit unit) (_ : bool) (_ _ : unit)
  : tensor :=
  Scalar (o + 1).

Definition stack_example (ts : list tensor) : tensor :=
  fold_right tadd (Scalar 0) ts.

(** A logits processor that hands the hidden states back. *)
Definition processor_example
    (_ : LogitsProcessor) (_ : option tensor) (h : tensor) (_ : head_module)
    (_ : unit) : result tensor :=
  Ok h.

(** [DeciLMForCausalLM] on a rank that is not the last, with tied
    embeddings on the last rank, and under a prefix. *)
Definition causal (pp : PPGroup) (c : LlamaConfig) (prefix : string)
  : CausalLM :=
  match DeciLMForCausalLM_init (RT := runtime) 64 pp c None None prefix with
  | Ok self => self
  | Raise _ => headless c (no_layers pp)
  end.

Definition causal_first : CausalLM := Eval vm_compute in causal first cfg "".

Definition causal_tied : CausalLM :=
  Eval vm_compute in causal last_ cfg_tied "".

Definition causal_named : CausalLM :=
  Eval vm_compute in causal single cfg "decilm".

End Cases.

(** ** Properties of the rounding helpers *)

Section Rounding.

Lemma find_multiple_unfold n k :
  k <> 0 ->
  _find_multiple n k = Ok (if n mod k =? 0 then n else n + k - n mod k).
Proof.
  intros Hk. unfold _find_multiple, Py.mod_.
  destruct (Z.eqb_spec k 0) as [->|_]; [done|]. cbn.
  destruct (n mod k =? 0); reflexivity.
Qed.

Lemma find_multiple_divides n k :
  k <> 0 -> (k | if n mod k =? 0 then n else n + k - n mod k).
Proof.
  intros Hk. destruct (Z.eqb_spec (n mod k) 0) as [E|_].
  - by apply Z.mod_divide.
  - exists (n / k + 1). pose proof (Z.div_mod n k Hk). lia.
Qed.

Lemma find_multiple_least n k :
  0 < k ->
  least_multiple_ge k n (if n mod k =? 0 then n else n + k - n mod k).
Proof.
  intros Hk. split; [apply find_multiple_divides; lia|].
  pose proof (Z.mod_pos_bound n k Hk) as Hb.
  pose proof (Z.div_mod n k ltac:(lia)) as Hd.
  destruct (Z.eqb_spec (n mod k) 0) as [E|E].
  - split; [lia|]. intros; lia.
  - split; [lia|]. intros m [q ->] Hm.
    assert (n / k < q) by nia. nia.
Qed.

End Rounding.

(** C1. [_ffn_mult_to_intermediate_size(ffn_mult, n_embd)] is the least
    multiple of 256 that is greater than or equal to
    [int(2 * ffn_mult * n_embd / 3)], hence divisible by 256; this holds at
    every float and hidden size at which that [int(...)] has a value, and
    where it has none (a NaN or infinite product, a hidden size beyond the
    doubles) the function raises what [int(...)] raises. *)
Theorem ffn_mult_to_intermediate_size_least_multiple
    (ffn_mult : spec_float) (n_embd : Z) :
  match ffn_raw_size ffn_mult n_embd with
  | Ok i =>
      exists r, _ffn_mult_to_intermediate_size ffn_mult n_embd = Ok r
                /\ least_multiple_ge 256 i r
                /\ (256 | r)
  | Raise e => _ffn_mult_to_intermediate_size ffn_mult n_embd = Raise e
  end.
Proof.
  unfold _ffn_mult_to_intermediate_size.
  destruct (ffn_raw_size ffn_mult n_embd) as [i|e]; [|reflexivity].
  change (Ok i ≫= _) with (_find_multiple i 256).
  rewrite find_multiple_unfold by lia.
  eexists; split; [reflexivity|].
  pose proof (find_multiple_least i 256 ltac:(lia)) as H.
  split; [exact H|apply H].
Qed.

(** C8. For positive [k] and non-negative [n], [_find_multiple(n, k)] is
    [n] when [k] divides [n], applying it twice is applying it once, and
    its value lies in [[n, n + k)]. *)
Theorem find_multiple_idempotent_conservative (n k : Z) :
  0 < k -> 0 <= n ->
  exists r, _find_multiple n k = Ok r
            /\ ((k | n) -> r = n)
            /\ _find_multiple r k = Ok r
            /\ n <= r < n + k.
Proof.
  intros Hk Hn. rewrite find_multiple_unfold by lia.
  eexists; split; [reflexivity|].
  pose proof (find_multiple_divides n k ltac:(lia)) as Hdiv.
  pose proof (Z.mod_pos_bound n k Hk) as Hb.
  split; [|split].
  - intros Hd. apply Z.mod_divide in Hd; [|lia]. by rewrite Hd.
  - rewrite find_multiple_unfold by lia.
    apply Z.mod_divide in Hdiv; [|lia]. by rewrite Hdiv.
  - destruct (Z.eqb_spec (n mod k) 0); lia.
Qed.

Lemma find_multiple_idempotent_conservative_witness :
  exists r, _find_multiple 1000 256 = Ok r
            /\ ((256 | 1000) -> r = 1000)
            /\ _find_multiple r 256 = Ok r
            /\ 1000 <= r < 1000 + 256.
Proof. apply (find_multiple_idempotent_conservative 1000 256); lia. Defined.

(** ** Decimal names of the layers *)

Lemma string_of_uint_no_dot (d : Decimal.uint) :
  Str.rpartition "." (DecimalString.NilEmpty.string_of_uint d) = None.
Proof. induction d; cbn; try rewrite IHd; reflexivity. Qed.

Lemma of_int_no_dot (i : Z) : Str.rpartition "." (Str.of_int i) = None.
Proof.
  unfold Str.of_int, DecimalString.NilZero.string_of_int,
    DecimalString.NilZero.string_of_uint.
  destruct (Z.to_int i) as [d|d].
  - destruct d; try apply string_of_uint_no_dot. reflexivity.
  - cbn. destruct d; cbn; rewrite ?string_of_uint_no_dot; reflexivity.
Qed.

Lemma rpartition_last (p d : string) :
  Str.rpartition "." d = None ->
  Str.rpartition "." (p +:+ "." +:+ d) = Some (p, d).
Proof.
  intros Hd. induction p as [|c p IH].
  - change (Str.rpartition "." (String "." d) = Some (EmptyString, d)).
    cbn. by rewrite Hd.
  - change (Str.rpartition "." (String c (p +:+ "." +:+ d))
            = Some (String c p, d)).
    cbn. by rewrite IH.
Qed.

Lemma to_nat_literal_to_uint (q : positive) :
  Str.to_nat_literal (DecimalString.NilZero.string_of_uint (Pos.to_uint q))
  = Ok (Z.pos q).
Proof.
  unfold Str.to_nat_literal.
  rewrite DecimalString.NilZero.usu by apply DecimalPos.Unsigned.to_uint_nonnil.
  unfold Z.of_uint. by rewrite DecimalPos.Unsigned.of_to.
Qed.

(** [int(str(i)) == i] *)
Lemma to_int_of_int (i : Z) : Str.to_int (Str.of_int i) = Ok i.
Proof.
  unfold Str.of_int. destruct i as [|q|q]; [reflexivity| |].
  - cbn [Z.to_int DecimalString.NilZero.string_of_int].
    pose proof (to_nat_literal_to_uint q) as H.
    unfold Str.to_int.
    destruct (DecimalString.NilZero.string_of_uint (Pos.to_uint q))
      as [|c s] eqn:Hs; [done|].
    assert (c <> "-"%char /\ c <> "+"%char) as [Hm Hp].
    { unfold DecimalString.NilZero.string_of_uint in Hs.
      destruct (Pos.to_uint q); cbn in Hs; injection Hs as <- _;
        split; discriminate. }
    destruct c as [[] [] [] [] [] [] [] []]; try exact H; congruence.
  - cbn [Z.to_int DecimalString.NilZero.string_of_int].
    unfold Str.to_int. by rewrite to_nat_literal_to_uint.
Qed.

(** ** The decoder layer: construction (C2) and residual flow (C5) *)

Lemma ffn_mult_to_intermediate_size_returns f n i :
  ffn_raw_size f n = Ok i ->
  _ffn_mult_to_intermediate_size f n
  = Ok (if i mod 256 =? 0 then i else i + 256 - i mod 256).
Proof.
  intros Hi. unfold _ffn_mult_to_intermediate_size. rewrite Hi.
  change (Ok i ≫= _) with (_find_multiple i 256).
  by rewrite find_multiple_unfold.
Qed.

(** The constructor returns a layer whenever the layer's block
    configuration exists and is usable. *)
Lemma DeciLMDecoderLayer_init_returns
    (pfx : string -> string -> string) config layer_idx qc prefix bc :
  getitem (block_configs config) layer_idx = Ok bc ->
  usable_block config bc ->
  exists layer,
    DeciLMDecoderLayer_init pfx config layer_idx qc prefix = Ok layer.
Proof.
  intros Hbc [Hattn Hffn]. unfold DeciLMDecoderLayer_init.
  rewrite Hbc. cbn.
  destruct (attention_no_op (attention bc)); cbn.
  - destruct (ffn_no_op (ffn bc)); cbn; [eauto|].
    destruct Hffn as (f & i & -> & Hi); [done|].
    cbn. rewrite (ffn_mult_to_intermediate_size_returns _ _ _ Hi). cbn. eauto.
  - destruct Hattn as (g & -> & Hg); [done|]. cbn.
    unfold Py.floordiv. destruct (Z.eqb_spec g 0); [done|]. cbn.
    destruct (ffn_no_op (ffn bc)); cbn; [eauto|].
    destruct Hffn as (f & i & -> & Hi); [done|].
    cbn. rewrite (ffn_mult_to_intermediate_size_returns _ _ _ Hi). cbn. eauto.
Qed.

(** C2. A constructed [DeciLMDecoderLayer] has a self-attention module
    and an input normalization exactly when [block_config.attention.no_op]
    is false, and a feed-forward module and a post-attention normalization
    exactly when [block_config.ffn.no_op] is false; an active attention has
    [config.num_attention_heads // n_heads_in_group] key-value heads, and an
    active feed-forward has the intermediate size that
    [_ffn_mult_to_intermediate_size] computes from [ffn_mult]. *)
Theorem decoder_layer_init_blocks
    (pfx : string -> string -> string) (config : LlamaConfig) (layer_idx : Z)
    (qc : option QuantizationConfig) (prefix : string)
    (layer : DeciLMDecoderLayer) :
  DeciLMDecoderLayer_init pfx config layer_idx qc prefix = Ok layer ->
  exists bc,
    getitem (block_configs config) layer_idx = Ok bc
    /\ (is_Some (self_attn layer) <-> attention_no_op (attention bc) = false)
    /\ (is_Some (input_layernorm layer)
        <-> attention_no_op (attention bc) = false)
    /\ (is_Some (mlp layer) <-> ffn_no_op (ffn bc) = false)
    /\ (is_Some (post_attention_layernorm layer)
        <-> ffn_no_op (ffn bc) = false)
    /\ (attention_no_op (attention bc) = false ->
        exists sa g,
          self_attn layer = Some sa
          /\ n_heads_in_group (attention bc) = Some g
          /\ g <> 0
          /\ num_kv_heads sa = num_attention_heads config / g)
    /\ (ffn_no_op (ffn bc) = false ->
        exists m f,
          mlp layer = Some m
          /\ ffn_mult (ffn bc) = Some f
          /\ _ffn_mult_to_intermediate_size f (hidden_size config)
             = Ok (intermediate_size m)).
Proof.
  unfold DeciLMDecoderLayer_init. intros H.
  destruct (getitem (block_configs config) layer_idx) as [bc|e] eqn:Hbc;
    [|discriminate].
  exists bc. split; [reflexivity|]. cbn in H.
  destruct (attention_no_op (attention bc)) eqn:Ha; cbn in H.
  - destruct (ffn_no_op (ffn bc)) eqn:Hf; cbn in H.
    + injection H as <-. cbn.
      repeat split; try (intros [? ?]; discriminate); discriminate.
    + destruct (ffn_mult (ffn bc)) as [f|] eqn:Hm; [|discriminate]. cbn in H.
      destruct (_ffn_mult_to_intermediate_size f (hidden_size config))
        as [sz|e] eqn:Hsz; [|discriminate].
      cbn in H. injection H as <-. cbn.
      repeat split; try (intros [? ?]; discriminate); try discriminate; eauto.
  - destruct (n_heads_in_group (attention bc)) as [g|] eqn:Hg;
      [|discriminate]. cbn in H.
    unfold Py.floordiv in H.
    destruct (Z.eqb_spec g 0) as [?|Hg0]; [discriminate|]. cbn in H.
    destruct (ffn_no_op (ffn bc)) eqn:Hf; cbn in H.
    + injection H as <-. cbn.
      repeat split; try (intros [? ?]; discriminate); try discriminate; eauto.
      intros _. eexists _, g. eauto.
    + destruct (ffn_mult (ffn bc)) as [f|] eqn:Hm; [|discriminate]. cbn in H.
      destruct (_ffn_mult_to_intermediate_size f (hidden_size config))
        as [sz|e] eqn:Hsz; [|discriminate].
      cbn in H. injection H as <-. cbn.
      repeat split; try (intros [? ?]; discriminate); try discriminate; eauto.
      intros _. eexists _, g. eauto.
Qed.

Section LayerForward.

Context `{RT : Runtime}.

(** C5. A layer whose attention block is a no-op hands the caller's
    hidden states and residual, unchanged, to the feed-forward sub-block
    (its normalization is called on exactly these two values); when the
    feed-forward block is a no-op as well, [forward] returns the pair it
    received. *)
Theorem noop_attention_layer_forward
    (self : DeciLMDecoderLayer) (positions : Positions)
    (hidden_states : Tensor)
    (intermediate_tensors : option IntermediateTensors)
    (residual : option Tensor) :
  _is_no_op_attention self = true ->
  (_is_no_op_ffn self = true ->
   DeciLMDecoderLayer_forward self positions hidden_states
     intermediate_tensors residual
   = Ok (hidden_states, residual))
  /\ (_is_no_op_ffn self = false ->
      DeciLMDecoderLayer_forward self positions hidden_states
        intermediate_tensors residual
      = (ln ← attr "post_attention_layernorm"
                (post_attention_layernorm self);
         '(h, r) ← rmsnorm_forward_residual (Present ln)
                     hidden_states residual;
         m ← attr "mlp" (mlp self);
         h' ← mlp_forward m h;
         Ok (h', Some r))).
Proof.
  intros Ha. unfold DeciLMDecoderLayer_forward. rewrite Ha. cbn.
  split; intros ->; reflexivity.
Qed.

End LayerForward.

(** ** Loops *)

Section Loops.

Context {A B S : Type}.

Lemma bind_ok_inv {X Y : Type} (m : result X) (k : X -> result Y) (y : Y) :
  m ≫= k = Ok y <-> exists x, m = Ok x /\ k x = Ok y.
Proof.
  destruct m as [x|e]; cbn; split.
  - eauto.
  - by intros (? & [= <-] & ?).
  - discriminate.
  - by intros (? & [=] & _).
Qed.

Lemma for_each_threaded (body : S -> A -> result S) (xs : list A) (s0 s : S) :
  for_each body xs s0 = Ok s <-> exists states, threaded body xs s0 s states.
Proof.
  revert s0. induction xs as [|x xs IH]; intros s0; cbn.
  - split.
    + intros [= <-]. exists [s0]. repeat split. intros i x Hx.
      by rewrite lookup_nil in Hx.
    + intros (states & _ & H0 & Hn & _). cbn in Hn. congruence.
  - rewrite bind_ok_inv. split.
    + intros (s1 & Hb & Hrest). apply IH in Hrest as (states & Hl & H0 & Hn & Hs).
      exists (s0 :: states). repeat split; cbn; [by rewrite Hl|done|].
      intros [|i] y Hy; cbn in *.
      * injection Hy as <-. eauto.
      * eauto.
    + intros (states & Hl & H0 & Hn & Hs).
      destruct states as [|a states]; [discriminate|].
      cbn in H0. injection H0 as ->.
      destruct (Hs 0%nat x eq_refl) as (a & s1 & Ha & Hb & Hbody).
      cbn in Ha. injection Ha as <-. cbn in Hb.
      exists s1. split; [done|]. apply IH. exists states.
      repeat split; [cbn in Hl; lia|done|done|].
      intros i y Hy. apply (Hs (Datatypes.S i) y Hy).
Qed.

(** A loop over the indices of a list that reads the element at each
    index is the loop over the elements. *)
Lemma for_each_indices (body : S -> A -> result S) (pre post : list A) (s0 : S) :
  for_each (fun s i => x ← getitem (pre ++ post) i; body s x)
    (seqZ (Z.of_nat (length pre)) (Z.of_nat (length post))) s0
  = for_each body post s0.
Proof.
  revert pre s0. induction post as [|x post IH]; intros pre s0; [done|].
  rewrite seqZ_cons by (cbn; lia). cbn [for_each].
  assert (getitem (pre ++ x :: post) (Z.of_nat (length pre)) = Ok x) as ->.
  { unfold getitem. rewrite length_app. cbn [length].
    destruct (Z.ltb_spec (Z.of_nat (length pre)) 0); [lia|].
    destruct (Z.leb_spec 0 (Z.of_nat (length pre))); [|lia].
    destruct (Z.ltb_spec (Z.of_nat (length pre))
                (Z.of_nat (length pre + Datatypes.S (length post)))); [|lia].
    cbn. rewrite Nat2Z.id, lookup_app_r by lia.
    by rewrite Nat.sub_diag. }
  cbn. destruct (body s0 x) as [s1|e]; [|done]. cbn.
  specialize (IH (pre ++ [x])%list s1).
  rewrite <- (assoc_L (++)) in IH. cbn in IH.
  rewrite length_app in IH. cbn in IH.
  replace (Z.succ (Z.of_nat (length pre)))
    with (Z.of_nat (length pre + 1)) by lia.
  replace (Z.pred (Z.of_nat (Datatypes.S (length post))))
    with (Z.of_nat (length post)) by lia.
  exact IH.
Qed.

(** A comprehension that returns has one element for each input, the
    value of the element expression there, in the same order. *)
Lemma comprehension_ok (f : A -> result B) (xs : list A) (ys : list B) :
  comprehension f xs = Ok ys ->
  length ys = length xs
  /\ forall (i : nat) (y : B),
       ys !! i = Some y -> exists x, xs !! i = Some x /\ f x = Ok y.
Proof.
  revert ys. induction xs as [|x xs IH]; intros ys; cbn.
  - intros [= <-]. split; [done|]. intros i y Hy.
    by rewrite lookup_nil in Hy.
  - rewrite bind_ok_inv. intros (y0 & Hy0 & H).
    apply bind_ok_inv in H as (ys' & Hys' & [= <-]).
    destruct (IH _ Hys') as [Hl Hi]. split; [cbn; lia|].
    intros [|i] y Hy; cbn in *.
    + injection Hy as <-. eauto.
    + eauto.
Qed.

End Loops.

(** ** The stacked model: pipeline boundaries (C3) and layer order (C7) *)

Section Forward.

Context `{RT : Runtime}.

Lemma for_each_ext {A S : Type} (f g : S -> A -> result S) (xs : list A) (s : S) :
  (forall s x, f s x = g s x) -> for_each f xs s = for_each g xs s.
Proof.
  intros Hfg. revert s. induction xs as [|x xs IH]; intros s; [done|].
  cbn. rewrite Hfg. destruct (g s x); cbn; auto.
Qed.

(** The loop of [forward] threads the pair through the layers; its
    counter [kv_cache_index] does not reach the result. *)
Lemma layer_loop_run_layers {X : Type}
    (self : DeciModel) (positions : Positions)
    (it : option IntermediateTensors) (h0 : Tensor) (r0 : option Tensor)
    (k0 : Z) (K : Tensor -> option Tensor -> result X) :
  (for_each (layer_step self positions it)
     (range (Z.of_nat (length (layers self)))) (h0, r0, k0)
   ≫= λ '(h, r, _), K h r)
  = (run_layers self positions it h0 r0 ≫= λ '(h, r), K h r).
Proof.
  unfold run_layers, range.
  rewrite (for_each_ext _
             (fun s i => layer ← getitem ([] ++ layers self) i;
                         let '(h, r, k) := s in
                         '(h', r') ← apply_layer positions it (h, r) layer;
                         Ok (h', r',
                             if negb (_is_no_op_attention layer)
                             then k + 1 else k))).
  2:{ intros [[h r] k] i. unfold layer_step. cbn.
      destruct (getitem (layers self) i) as [layer|e]; [|done]. cbn.
      unfold apply_layer. cbn.
      destruct (_is_no_op_attention layer); cbn;
        destruct (DeciLMDecoderLayer_forward layer positions h it r)
          as [[h' r']|e]; done. }
  change 0 with (Z.of_nat (length (@nil DeciLMDecoderLayer))).
  rewrite (for_each_indices
             (fun s layer =>
                let '(h, r, k) := s in
                '(h', r') ← apply_layer positions it (h, r) layer;
                Ok (h', r',
                    if negb (_is_no_op_attention layer) then k + 1 else k))).
  generalize (layers self) as ls. intros ls. revert h0 r0 k0.
  induction ls as [|layer ls IH]; intros h0 r0 k0; [done|].
  cbn [for_each].
  destruct (apply_layer positions it (h0, r0) layer) as [[h' r']|e]; [|done].
  cbn. apply IH.
Qed.

Lemma DeciModel_forward_decompose
    (pp : PPGroup) (self : DeciModel) (input_ids : option Tensor)
    (positions : Positions) (it : option IntermediateTensors)
    (inputs_embeds : option Tensor) :
  DeciModel_forward pp self input_ids positions it inputs_embeds
  = ('(h0, r0) ← initial_states pp self input_ids it inputs_embeds;
     '(h, r) ← run_layers self positions it h0 r0;
     final_output pp self h r).
Proof.
  unfold DeciModel_forward.
  destruct (initial_states pp self input_ids it inputs_embeds)
    as [[h0 r0]|e]; [|done].
  cbn. apply (layer_loop_run_layers self positions it h0 r0 0).
Qed.

Lemma DeciModel_init_inv
    (pp : PPGroup) (config : LlamaConfig)
    (qc : option QuantizationConfig) (prefix : string) (self : DeciModel) :
  DeciModel_init pp config qc prefix = Ok self ->
  make_layers (num_hidden_layers config) (get_layer config qc)
    (add_prefix "layers" prefix) = Ok (layers self)
  /\ embed_tokens self
     = (if is_first_rank pp || (tie_word_embeddings config && is_last_rank pp)
        then Present {| num_embeddings := vocab_size config + 0;
                        embedding_dim := hidden_size config;
                        org_num_embeddings := vocab_size config;
                        embed_quant_config := qc |}
        else PPMissingLayer)
  /\ norm self
     = (if is_last_rank pp
        then Present {| norm_hidden_size := hidden_size config;
                        eps := rms_norm_eps config |}
        else PPMissingLayer).
Proof.
  unfold DeciModel_init. intros H.
  apply bind_ok_inv in H as (ls & Hls & [= <-]). by cbn.
Qed.

Lemma getitem_in_range {A : Type} (l : list A) (i : Z) :
  0 <= i < Z.of_nat (length l) -> exists x, getitem l i = Ok x /\ x ∈ l.
Proof.
  intros Hi. unfold getitem.
  destruct (Z.ltb_spec i 0); [lia|].
  destruct (Z.leb_spec 0 i); [|lia].
  destruct (Z.ltb_spec i (Z.of_nat (length l))); [|lia]. cbn.
  destruct (l !! Z.to_nat i) as [x|] eqn:Hx.
  - exists x. split; [done|]. by eapply list_elem_of_lookup_2.
  - apply lookup_ge_None in Hx. lia.
Qed.

Lemma comprehension_returns {A B : Type} (f : A -> result B) (xs : list A) :
  Forall (fun x => exists y, f x = Ok y) xs ->
  exists ys, comprehension f xs = Ok ys.
Proof.
  induction 1 as [|x xs [y Hy] _ [ys Hys]]; cbn; [eauto|].
  rewrite Hy. cbn. rewrite Hys. cbn. eauto.
Qed.

(** With [add_prefix] joining a non-empty prefix and a name by a dot,
    the model of a configuration is built whenever the configuration has
    a usable block for each of its layers. *)
Lemma DeciModel_init_returns
    (pp : PPGroup) (config : LlamaConfig)
    (qc : option QuantizationConfig) (prefix : string) :
  (forall name p,
     add_prefix name p
     = if String.eqb p "" then name else p +:+ "." +:+ name) ->
  num_hidden_layers config <= Z.of_nat (length (block_configs config)) ->
  Forall (usable_block config) (block_configs config) ->
  exists self, DeciModel_init pp config qc prefix = Ok self.
Proof.
  intros Hpfx Hn Hblocks. unfold DeciModel_init, make_layers.
  set (layers_prefix := add_prefix "layers" prefix).
  assert (String.eqb layers_prefix "" = false) as Hne.
  { subst layers_prefix. rewrite Hpfx. destruct (String.eqb prefix "") eqn:E;
      [done|]. destruct prefix; [done|reflexivity]. }
  destruct (comprehension_returns
              (fun idx => get_layer config qc idx
                            (add_prefix (Str.of_int idx) layers_prefix))
              (range (num_hidden_layers config))) as [ls Hls].
  { apply Forall_forall. intros idx Hidx.
    apply elem_of_seqZ in Hidx. unfold get_layer.
    rewrite Hpfx, Hne. unfold Str.rsplit1.
    rewrite rpartition_last by apply of_int_no_dot.
    change (getitem [layers_prefix; Str.of_int idx] 1)
      with (@Ok string (Str.of_int idx)).
    cbn. rewrite to_int_of_int. cbn.
    destruct (getitem_in_range (block_configs config) idx) as (bc & Hbc & Hin);
      [lia|].
    rewrite Forall_forall in Hblocks.
    eapply DeciLMDecoderLayer_init_returns; eauto. }
  rewrite Hls. cbn. eauto.
Qed.

(** C3. [DeciModel.forward] at the pipeline boundaries. It returns [out]
    exactly when: the layers start from the embedding of [input_ids] (or
    from [inputs_embeds]) with residual [None] on the first rank, and from
    the entries ["hidden_states"] and ["residual"] of the supplied
    intermediate tensors on any other rank; the layers return a pair; and
    [out] is, on a rank that is not the last, an [IntermediateTensors]
    with exactly the keys ["hidden_states"] and ["residual"] holding that
    pair, where the model has no final normalization, and on the last rank
    the tensor that the final [RMSNorm] returns for that pair. Without
    intermediate tensors a rank other than the first fails its assertion. *)
Theorem forward_pipeline_ranks
    (pp : PPGroup) (config : LlamaConfig)
    (qc : option QuantizationConfig) (prefix : string) (self : DeciModel)
    (input_ids : option Tensor) (positions : Positions)
    (it : option IntermediateTensors) (inputs_embeds : option Tensor) :
  DeciModel_init pp config qc prefix = Ok self ->
  (forall out,
     DeciModel_forward pp self input_ids positions it inputs_embeds = Ok out
     <->
     exists h0 r0 h r,
       (if is_first_rank pp
        then r0 = None
             /\ match inputs_embeds with
                | Some e => h0 = e
                | None =>
                    exists emb, embed_tokens self = Present emb
                                /\ embedding_forward (Present emb) input_ids
                                   = Ok h0
                end
        else exists tensors,
               it = Some tensors
               /\ tensors !! "hidden_states" = Some (Some h0)
               /\ tensors !! "residual" = Some r0)
       /\ run_layers self positions it h0 r0 = Ok (h, r)
       /\ (if is_last_rank pp
           then exists n h' r',
                  norm self = Present n
                  /\ rmsnorm_forward_residual (Present n) h r = Ok (h', r')
                  /\ out = OutTensor h'
           else exists tensors,
                  norm self = PPMissingLayer
                  /\ out = OutIntermediate tensors
                  /\ dom tensors = {[ "hidden_states"; "residual" ]}
                  /\ tensors !! "hidden_states" = Some (Some h)
                  /\ tensors !! "residual" = Some r))
  /\ (is_first_rank pp = false -> it = None ->
      DeciModel_forward pp self input_ids positions it inputs_embeds
      = Raise AssertionError).
Proof.
  intros Hinit. apply DeciModel_init_inv in Hinit as (_ & Hemb & Hnorm).
  split.
  - intros out. rewrite DeciModel_forward_decompose.
    rewrite bind_ok_inv. split.
    + intros ([h0 r0] & Hstart & H).
      apply bind_ok_inv in H as ([h r] & Hrun & Hend).
      exists h0, r0, h, r. split; [|split; [done|]].
      * unfold initial_states in Hstart.
        destruct (is_first_rank pp) eqn:Hf.
        -- apply bind_ok_inv in Hstart as (x & Hx & [= <- <-]).
           split; [done|]. destruct inputs_embeds as [e|].
           ++ by injection Hx as <-.
           ++ unfold get_input_embeddings in Hx. rewrite Hemb in *.
              cbn in *. eauto.
        -- destruct it as [tensors|]; [|done]. exists tensors.
           split; [done|].
           apply bind_ok_inv in Hstart as (hs & Hhs & Hstart).
           apply bind_ok_inv in Hstart as (x & Hx & Hstart).
           apply bind_ok_inv in Hstart as (res & Hres & [= <- <-]).
           unfold dict_get in *.
           destruct (tensors !! "hidden_states") as [v|]; [|done].
           destruct (tensors !! "residual") as [w|]; [|done].
           injection Hhs as <-. injection Hres as <-.
           destruct v; [|done]. by injection Hx as <-.
      * unfold final_output in Hend. rewrite Hnorm in *.
        destruct (is_last_rank pp); cbn in Hend.
        -- apply bind_ok_inv in Hend as ([h' r'] & Hn & [= <-]). eauto 10.
        -- injection Hend as <-. eexists. split; [done|]. split; [done|].
           split; [|split].
           ++ rewrite !dom_insert_L, dom_empty_L. set_solver.
           ++ rewrite lookup_insert_ne by done. by rewrite lookup_insert_eq.
           ++ by rewrite lookup_insert_eq.
    + intros (h0 & r0 & h & r & Hstart & Hrun & Hend).
      exists (h0, r0). split.
      * unfold initial_states. destruct (is_first_rank pp).
        -- destruct Hstart as [-> Hstart]. destruct inputs_embeds as [e|].
           ++ by subst.
           ++ destruct Hstart as (emb & Hp & He).
              unfold get_input_embeddings. rewrite Hp, He. done.
        -- destruct Hstart as (tensors & -> & Hh & Hr).
           unfold dict_get. rewrite Hh, Hr. done.
      * cbn. rewrite Hrun. cbn. unfold final_output.
        destruct (is_last_rank pp); cbn.
        -- destruct Hend as (n & h' & r' & -> & Hn & ->). by rewrite Hn.
        -- destruct Hend as (tensors & _ & -> & Hd & Hh & Hr).
           do 2 f_equal. apply map_eq. intros k.
           destruct (decide (k = "residual")) as [->|Hk1];
             [by rewrite lookup_insert_eq|].
           rewrite lookup_insert_ne by done.
           destruct (decide (k = "hidden_states")) as [->|Hk2];
             [by rewrite lookup_insert_eq|].
           rewrite lookup_insert_ne by done. rewrite lookup_empty.
           symmetry. apply not_elem_of_dom. rewrite Hd.
           rewrite not_elem_of_union, !not_elem_of_singleton. done.
  - intros Hf ->. unfold DeciModel_forward, initial_states. by rewrite Hf.
Qed.

Lemma getitem_of_nat {A : Type} (l : list A) (i : nat) (x : A) :
  getitem l (Z.of_nat i) = Ok x -> l !! i = Some x.
Proof.
  unfold getitem. destruct (Z.ltb_spec (Z.of_nat i) 0); [lia|].
  destruct (_ && _); [|done]. rewrite Nat2Z.id.
  destruct (l !! i); [|done]. by intros [= <-].
Qed.

Lemma DeciLMDecoderLayer_init_flags
    (pfx : string -> string -> string) config layer_idx qc prefix layer :
  DeciLMDecoderLayer_init pfx config layer_idx qc prefix = Ok layer ->
  exists bc,
    getitem (block_configs config) layer_idx = Ok bc
    /\ _is_no_op_attention layer = attention_no_op (attention bc)
    /\ _is_no_op_ffn layer = ffn_no_op (ffn bc).
Proof.
  unfold DeciLMDecoderLayer_init. intros H.
  apply bind_ok_inv in H as (bc & Hbc & H). exists bc. split; [done|].
  apply bind_ok_inv in H as ([sa ln] & _ & H).
  apply bind_ok_inv in H as ([m pn] & _ & [= <-]). done.
Qed.

(** C7. A constructed [DeciModel] has [config.num_hidden_layers] decoder
    layers, the layer at index [i] built by [DeciLMDecoderLayer] for index
    [i] from [config.block_configs[i]]; and [forward] returns exactly when
    there is a sequence of pairs of hidden states and residual, one more
    than there are layers, that starts at the initial pair, where layer
    [i] takes pair [i] to pair [i + 1], and whose last pair is the one the
    end of [forward] is computed from: each layer is applied once, in
    increasing index order, on the pair the previous layer returned. *)
Theorem model_layers_built_and_applied_in_order
    (pp : PPGroup) (config : LlamaConfig)
    (qc : option QuantizationConfig) (prefix : string) (self : DeciModel) :
  DeciModel_init pp config qc prefix = Ok self ->
  length (layers self) = Z.to_nat (num_hidden_layers config)
  /\ (forall (i : nat) (layer : DeciLMDecoderLayer),
        layers self !! i = Some layer ->
        exists bc,
          block_configs config !! i = Some bc
          /\ DeciLMDecoderLayer_init add_prefix config (Z.of_nat i) qc
               (add_prefix (Str.of_int (Z.of_nat i))
                  (add_prefix "layers" prefix))
             = Ok layer
          /\ _is_no_op_attention layer = attention_no_op (attention bc)
          /\ _is_no_op_ffn layer = ffn_no_op (ffn bc))
  /\ (forall input_ids positions it inputs_embeds out,
        DeciModel_forward pp self input_ids positions it inputs_embeds
        = Ok out
        <->
        exists h0 r0 h r states,
          initial_states pp self input_ids it inputs_embeds = Ok (h0, r0)
          /\ threaded (apply_layer positions it) (layers self)
               (h0, r0) (h, r) states
          /\ final_output pp self h r = Ok out).
Proof.
  intros Hinit. apply DeciModel_init_inv in Hinit as (Hls & _ & _).
  unfold make_layers, range in Hls.
  apply comprehension_ok in Hls as [Hlen Hith].
  rewrite length_seqZ in Hlen. split; [done|]. split.
  - intros i layer Hi.
    destruct (Hith i layer Hi) as (idx & Hidx & Hget).
    apply lookup_seqZ in Hidx as [-> _]. rewrite Z.add_0_l in Hget.
    unfold get_layer in Hget.
    apply bind_ok_inv in Hget as (sfx & _ & Hget).
    apply bind_ok_inv in Hget as (n & _ & Hget).
    destruct (DeciLMDecoderLayer_init_flags _ _ _ _ _ _ Hget)
      as (bc & Hbc & Ha & Hf).
    exists bc. by apply getitem_of_nat in Hbc.
  - intros input_ids positions it inputs_embeds out.
    rewrite DeciModel_forward_decompose, bind_ok_inv. split.
    + intros ([h0 r0] & Hstart & H).
      apply bind_ok_inv in H as ([h r] & Hrun & Hend).
      apply for_each_threaded in Hrun as [states Hst]. eauto 10.
    + intros (h0 & r0 & h & r & states & Hstart & Hst & Hend).
      exists (h0, r0). split; [done|]. cbn.
      assert (run_layers self positions it h0 r0 = Ok (h, r)) as ->; [|done].
      apply for_each_threaded. eauto.
Qed.

End Forward.

(** ** Weight loading: dispatch (C4, C10), skipped entries (C9), and the
    unused Mistral table (C6) *)

Section LoadWeights.

Context `{RT : Runtime}.

Lemma load_entry_rotary self params st name w :
  rotary_name name = true -> load_entry self params st (name, w) = Ok st.
Proof.
  unfold rotary_name, load_entry. intros H.
  destruct (Str.contains "rotary_emb.inv_freq" name); [done|].
  cbn in H. by rewrite H.
Qed.

(** Past the three early exits, the entry goes through the mapping loop
    and then either is added with the call of the loop, or runs the
    [else] clause. *)
Lemma load_entry_mapping self params st name w name1 :
  mapping_input self params name = Some name1 ->
  load_entry self params st (name, w)
  = (exit ← stacked_loop self params stacked_params_mapping name1 w;
     match exit with
     | Break name' c => Ok (dispatch st c name')
     | Exhausted name' =>
         if extra_bias params name' then Ok st
         else if is_pp_missing_parameter name' self then Ok st
         else
           param ← dict_get params name';
           Ok (dispatch st {| call_name := name';
                              call_param := param;
                              call_loader :=
                                default default_weight_loader
                                  (weight_loader param);
                              call_weight := w;
                              call_shard := None |} name')
     end).
Proof.
  unfold mapping_input, rotary_name, load_entry. intros H.
  destruct (Str.contains "rotary_emb.inv_freq" name); [done|].
  cbn in H. destruct (_ || _); [done|].
  destruct (cache_scale_name self name); [done|].
  by rewrite H.
Qed.

(** When the loop over the mapping ends at its [break], the name it
    leaves has passed both guards and is a parameter with its own loader. *)
Lemma stacked_loop_break self params mapping name w name' c :
  stacked_loop self params mapping name w = Ok (Break name' c) ->
  extra_bias params name' = false
  /\ is_pp_missing_parameter name' self = false
  /\ params !! name' = Some (call_param c)
  /\ weight_loader (call_param c) = Some (call_loader c)
  /\ call_name c = name'
  /\ call_weight c = w
  /\ is_Some (call_shard c).
Proof.
  revert name. induction mapping as [|[[p wn] sh] rest IH]; intros name;
    cbn; [done|].
  destruct (Str.contains wn name); cbn; [|apply IH].
  set (name1 := Str.replace name wn p).
  destruct (extra_bias params name1) eqn:Hb; [apply IH|].
  destruct (is_pp_missing_parameter name1 self) eqn:Hpp; [apply IH|].
  unfold dict_get. destruct (params !! name1) as [param|] eqn:Hp; [|done]. cbn.
  destruct (weight_loader param) as [l|] eqn:Hl; [|done]. cbn.
  intros [= <- <-]. cbn. eauto 10.
Qed.

(** A name in which no shard name occurs leaves the loop as it entered. *)
Lemma stacked_loop_no_match self params mapping name w :
  Forall (fun rule => Str.contains rule.1.2 name = false) mapping ->
  stacked_loop self params mapping name w = Ok (Exhausted name).
Proof.
  induction 1 as [|[[p wn] sh] rest Hno _ IH]; cbn; [done|].
  cbn in Hno. by rewrite Hno.
Qed.

(** The rules before the first one whose shard name occurs in [name] are
    passed over; with that rule's substitution loadable, the loop ends
    there, whatever rules follow. *)
Lemma stacked_loop_first_match self params pre p wn sh post name w param l :
  Forall (fun rule => Str.contains rule.1.2 name = false) pre ->
  Str.contains wn name = true ->
  extra_bias params (Str.replace name wn p) = false ->
  is_pp_missing_parameter (Str.replace name wn p) self = false ->
  params !! Str.replace name wn p = Some param ->
  weight_loader param = Some l ->
  stacked_loop self params (pre ++ (p, wn, sh) :: post) name w
  = Ok (Break (Str.replace name wn p)
          {| call_name := Str.replace name wn p;
             call_param := param;
             call_loader := l;
             call_weight := w;
             call_shard := Some sh |}).
Proof.
  intros Hpre Hm Hb Hpp Hp Hl.
  induction Hpre as [|[[p0 w0] s0] pre Hno _ IH]; cbn.
  - rewrite Hm. cbn. rewrite Hb, Hpp. unfold dict_get. rewrite Hp. cbn.
    by rewrite Hl.
  - cbn in Hno. rewrite Hno. cbn. exact IH.
Qed.

Lemma for_each_invariant {A S : Type} (P : S -> Prop)
    (body : S -> A -> result S) (xs : list A) (s0 s : S) :
  (forall s x s', P s -> body s x = Ok s' -> P s') ->
  P s0 -> for_each body xs s0 = Ok s -> P s.
Proof.
  intros Hstep. revert s0. induction xs as [|x xs IH]; intros s0 H0; cbn.
  - by intros [= <-].
  - rewrite bind_ok_inv. intros (s1 & H1 & Hrest). eauto.
Qed.

Lemma dispatch_names_are_calls params st c :
  names_are_calls params st ->
  params !! call_name c = Some (call_param c) ->
  names_are_calls params (dispatch st c (call_name c)).
Proof.
  unfold names_are_calls, dispatch. cbn. intros [-> Hcalls] Hc. split.
  - rewrite fmap_app, list_to_set_app_L. cbn.
    by rewrite (right_id_L ∅ (∪)).
  - apply Forall_app. split; [done|]. by constructor.
Qed.

Lemma dict_get_ok {V : Type} (m : gmap string V) (k : string) (v : V) :
  dict_get m k = Ok v -> m !! k = Some v.
Proof. unfold dict_get. destruct (m !! k); [|done]. by intros [= <-]. Qed.

Lemma load_entry_names_are_calls self params st entry st' :
  names_are_calls params st -> load_entry self params st entry = Ok st' ->
  names_are_calls params st'.
Proof.
  intros Hst. destruct entry as [name w].
  destruct (rotary_name name) eqn:Hrot.
  { rewrite load_entry_rotary by done. by intros [= <-]. }
  destruct (mapping_input self params name) as [name1|] eqn:Hin.
  - rewrite (load_entry_mapping _ _ _ _ _ _ Hin), bind_ok_inv.
    intros ([name' c|name'] & Hloop & H).
    + injection H as <-.
      apply stacked_loop_break in Hloop as (_ & _ & Hp & _ & <- & _).
      by apply dispatch_names_are_calls.
    + destruct (extra_bias params name'); [by injection H as <-|].
      destruct (is_pp_missing_parameter name' self); [by injection H as <-|].
      apply bind_ok_inv in H as (param & Hp & [= <-]).
      apply dict_get_ok in Hp.
      by apply (dispatch_names_are_calls params st
                  {| call_name := name'; call_param := param |}).
  - unfold mapping_input in Hin. rewrite Hrot in Hin.
    unfold rotary_name in Hrot. unfold load_entry.
    destruct (Str.contains "rotary_emb.inv_freq" name); [done|].
    cbn in Hrot. rewrite Hrot.
    destruct (cache_scale_name self name) as [scale|].
    + rewrite bind_ok_inv. intros (param & Hp & H).
      apply dict_get_ok in Hp.
      apply bind_ok_inv in H as (w' & _ & [= <-]).
      by apply (dispatch_names_are_calls params st
                  {| call_name := scale; call_param := param |}).
    + rewrite Hin. by intros [= <-].
Qed.

(** C4, as the code has it. An entry that reaches the loop over
    [stacked_params_mapping] is matched against the rules in order; at the
    first rule whose shard name occurs in the entry's name, every
    occurrence of it is replaced by the fused name ([".q_proj"],
    [".k_proj"], [".v_proj"] by [".qkv_proj"], [".gate_proj"], [".up_proj"]
    by [".gate_up_proj"]). When the name so obtained is not an extra
    [".bias"] and not a parameter of another pipeline stage, the tensor is
    passed to the [weight_loader] of the parameter of that name with the
    rule's shard id (["q"], ["k"], ["v"], [0], [1]), the name is added to
    the loaded set, and no later rule is tried. *)
Theorem stacked_rule_dispatch
    (self : DeciModel) (st : load_state) (name : string) (w : Tensor)
    (name1 : string) (pre post : list (string * string * shard_id))
    (p wn : string) (sh : shard_id) (param : Param) (l : WeightLoader) :
  let params_dict := named_parameters self in
  let target := Str.replace name1 wn p in
  mapping_input self params_dict name = Some name1 ->
  stacked_params_mapping = (pre ++ (p, wn, sh) :: post)%list ->
  Forall (fun rule => Str.contains rule.1.2 name1 = false) pre ->
  Str.contains wn name1 = true ->
  extra_bias params_dict target = false ->
  is_pp_missing_parameter target self = false ->
  params_dict !! target = Some param ->
  weight_loader param = Some l ->
  exists st',
    load_entry self params_dict st (name, w) = Ok st'
    /\ calls st'
       = (calls st ++ [ {| call_name := target;
                           call_param := param;
                           call_loader := l;
                           call_weight := w;
                           call_shard := Some sh |} ])%list
    /\ loaded_params st' = loaded_params st ∪ {[ target ]}.
Proof.
  intros params_dict target Hin Hmap Hpre Hm Hb Hpp Hp Hl.
  rewrite (load_entry_mapping _ _ _ _ _ _ Hin), Hmap.
  rewrite (stacked_loop_first_match _ _ _ _ _ _ _ _ _ param l) by done.
  cbn. eexists. split; [reflexivity|]. done.
Qed.

(** C10. An entry that the quantization configuration identifies as a
    kv-cache scale is loaded into the parameter that [get_cache_scale]
    names, by that parameter's [weight_loader] or the default one, with
    the tensor itself when it has no dimension and its first element
    otherwise; the scale name is added to the loaded set, and this one
    call, without shard id, is all that happens for the entry. *)
Theorem kv_cache_scale_loaded
    (self : DeciModel) (st : load_state) (name : string) (w w' : Tensor)
    (qc : QuantizationConfig) (scale_name : string) (param : Param) :
  let params_dict := named_parameters self in
  rotary_name name = false ->
  quant_config self = Some qc ->
  get_cache_scale qc name = Some scale_name ->
  scale_name <> "" ->
  params_dict !! scale_name = Some param ->
  (tensor_dim w = 0 /\ w' = w) \/ (tensor_dim w <> 0 /\ tensor_first w = Ok w') ->
  exists st',
    load_entry self params_dict st (name, w) = Ok st'
    /\ calls st'
       = (calls st ++ [ {| call_name := scale_name;
                           call_param := param;
                           call_loader :=
                             default default_weight_loader (weight_loader param);
                           call_weight := w';
                           call_shard := None |} ])%list
    /\ loaded_params st' = loaded_params st ∪ {[ scale_name ]}.
Proof.
  intros params_dict Hrot Hqc Hscale Hne Hp Hw.
  unfold rotary_name in Hrot. unfold load_entry.
  destruct (Str.contains "rotary_emb.inv_freq" name); [done|].
  cbn in Hrot. rewrite Hrot.
  unfold cache_scale_name. rewrite Hqc, Hscale.
  destruct (String.eqb_spec scale_name ""); [done|].
  unfold dict_get. rewrite Hp. cbn.
  destruct Hw as [[Hd ->]|[Hd Hf]].
  - rewrite Hd. cbn. eexists. split; [reflexivity|]. done.
  - destruct (Z.eqb_spec (tensor_dim w) 0); [done|]. rewrite Hf. cbn.
    eexists. split; [reflexivity|]. done.
Qed.

(** C9. [load_weights] leaves its loaded set and its calls as they were
    at every entry whose name contains ["rotary_emb.inv_freq"],
    ["rotary_emb.cos_cached"] or ["rotary_emb.sin_cached"]; at every entry
    with ["scale"] in its name that [maybe_remap_kv_scale_name] maps to
    [None]; and at every entry whose name, as the loop over the stacked
    mapping leaves it, ends with [".bias"] without being a parameter, or
    is a parameter of another pipeline stage. (The last three are the
    entries that are not kv-cache scales of the quantization
    configuration, which are loaded before.) The set that is returned is
    the set of the names under which a weight loader was called, each call
    being on the parameter of that name. *)
Theorem load_weights_skips (self : DeciModel) :
  let params_dict := named_parameters self in
  (forall st name w,
     Str.contains "rotary_emb.inv_freq" name = true
     \/ Str.contains "rotary_emb.cos_cached" name = true
     \/ Str.contains "rotary_emb.sin_cached" name = true ->
     load_entry self params_dict st (name, w) = Ok st)
  /\ (forall st name w,
        rotary_name name = false ->
        cache_scale_name self name = None ->
        Str.contains "scale" name = true ->
        maybe_remap_kv_scale_name name params_dict = None ->
        load_entry self params_dict st (name, w) = Ok st)
  /\ (forall st name w name1 exit,
        mapping_input self params_dict name = Some name1 ->
        stacked_loop self params_dict stacked_params_mapping name1 w
        = Ok exit ->
        (Str.endswith (exit_name exit) ".bias" = true
         /\ params_dict !! exit_name exit = None)
        \/ is_pp_missing_parameter (exit_name exit) self = true ->
        load_entry self params_dict st (name, w) = Ok st)
  /\ (forall weights st,
        DeciModel_load_weights_run self weights = Ok st ->
        DeciModel_load_weights self weights = Ok (loaded_params st)
        /\ (forall n, n ∈ loaded_params st
                      <-> exists c, c ∈ calls st /\ call_name c = n)
        /\ (forall c, c ∈ calls st ->
                      params_dict !! call_name c = Some (call_param c))).
Proof.
  intros params_dict. split; [|split; [|split]].
  - intros st name w H. apply load_entry_rotary. unfold rotary_name.
    destruct H as [H|[H|H]]; rewrite H; cbn; by rewrite ?orb_true_r.
  - intros st name w Hrot Hqc Hs Hre.
    unfold rotary_name in Hrot. unfold load_entry.
    destruct (Str.contains "rotary_emb.inv_freq" name); [done|].
    cbn in Hrot. by rewrite Hrot, Hqc, Hs, Hre.
  - intros st name w name1 exit Hin Hloop Hskip.
    rewrite (load_entry_mapping _ _ _ _ _ _ Hin), Hloop. cbn.
    assert (extra_bias params_dict (exit_name exit) = true
            \/ is_pp_missing_parameter (exit_name exit) self = true) as Hs.
    { destruct Hskip as [[He Hn]|?]; [left|by right].
      unfold extra_bias. by rewrite He, Hn. }
    destruct exit as [name' c|name']; cbn in Hs.
    + apply stacked_loop_break in Hloop as (Hb & Hpp & _).
      destruct Hs; congruence.
    + destruct (extra_bias params_dict name'); [done|].
      destruct Hs as [?| ->]; done.
  - intros weights st Hrun. split.
    + unfold DeciModel_load_weights. by rewrite Hrun.
    + assert (names_are_calls params_dict st) as [Hst Hcalls].
      { unfold DeciModel_load_weights_run in Hrun.
        refine (for_each_invariant (names_are_calls params_dict)
                  _ _ _ _ _ _ Hrun).
        - intros s x s'. apply load_entry_names_are_calls.
        - split; [reflexivity|constructor]. }
      split.
      * intros n. rewrite Hst, elem_of_list_to_set, list_elem_of_fmap.
        split; intros (c & ? & ?); eauto.
      * by apply Forall_forall.
Qed.

End LoadWeights.

(** ** The theorems at the three-layer model *)

Section Evaluation.

Import Example.

Example replace_every_occurrence :
  Str.replace "a.q_proj.q_proj" ".q_proj" ".qkv_proj" = "a.qkv_proj.qkv_proj"
  /\ Str.replace "aaa" "aa" "b" = "ba"
  /\ Str.replace "abc" "" "-" = "-a-b-c-".
Proof. repeat split. Qed.

Example endswith_bias :
  Str.endswith "layers.0.mlp.down_proj.bias" ".bias" = true
  /\ Str.endswith "bias" ".bias" = false
  /\ Str.endswith "x.biases" ".bias" = false.
Proof. repeat split. Qed.

Example rsplit_layer_prefix :
  Str.rsplit1 "model.layers.12" "." = ["model.layers"; "12"]
  /\ Str.rsplit1 "layers" "." = ["layers"]
  /\ Str.to_int "12" = Ok 12
  /\ Str.to_int "" = Raise ValueError.
Proof. repeat split. Qed.

Example getitem_from_the_end :
  getitem [10; 20; 30] (-1) = Ok 30 /\ getitem [10; 20; 30] 3 = Raise IndexError.
Proof. repeat split. Qed.

Example ffn_size_llama : _ffn_mult_to_intermediate_size (Py.double 21 (-3)) 8192 = Ok 14336.
Proof. vm_compute. reflexivity. Qed.

Example ffn_size_rounded_up :
  ffn_raw_size (Py.double 5854679515581645 (-52)) 4096 = Ok 3549
  /\ _ffn_mult_to_intermediate_size (Py.double 5854679515581645 (-52)) 4096
     = Ok 3584.
Proof. split; vm_compute; reflexivity. Qed.

Example ffn_size_nan : _ffn_mult_to_intermediate_size S754_nan 4096 = Raise ValueError.
Proof. vm_compute. reflexivity. Qed.

Lemma build_single : DeciModel_init (RT := runtime) single cfg None "" = Ok model.
Proof. vm_compute. reflexivity. Qed.

Lemma build_last : DeciModel_init (RT := runtime) last_ cfg None "" = Ok model_last.
Proof. vm_compute. reflexivity. Qed.

Example forward_single :
  DeciModel_forward (RT := runtime) single model (Some (Scalar 1)) tt None None
  = Ok (OutTensor (Scalar 189)).
Proof. vm_compute. reflexivity. Qed.

Lemma decoder_layer_init_blocks_witness :
  exists layer sa,
    DeciLMDecoderLayer_init prefixed cfg 0 None "layers.0" = Ok layer
    /\ self_attn layer = Some sa
    /\ num_kv_heads sa = 64 / 8.
Proof.
  eexists.
  assert (DeciLMDecoderLayer_init prefixed cfg 0 None "layers.0" = Ok _) as H
    by (vm_compute; reflexivity).
  destruct (decoder_layer_init_blocks prefixed cfg 0 None "layers.0" _ H)
    as (bc & Hbc & _ & _ & _ & _ & Hattn & _).
  injection Hbc as <-.
  destruct (Hattn eq_refl) as (sa & g & Hsa & Hg & _ & Hkv).
  injection Hg as <-.
  exists sa. split; [exact H|]. split; [exact Hsa|exact Hkv].
Defined.

Lemma noop_attention_layer_forward_witness :
  DeciLMDecoderLayer_forward (RT := runtime) empty_layer tt (Scalar 5) None (Some (Scalar 3))
  = Ok (Scalar 5, Some (Scalar 3)).
Proof.
  apply (proj1 (noop_attention_layer_forward (RT := runtime) empty_layer tt (Scalar 5) None
                  (Some (Scalar 3)) eq_refl)).
  reflexivity.
Defined.

Lemma forward_pipeline_ranks_witness :
  DeciModel_forward (RT := runtime) last_ model_last None tt None None = Raise AssertionError.
Proof.
  apply (proj2 (forward_pipeline_ranks (RT := runtime) last_ cfg None "" model_last
                  None tt None None build_last)); reflexivity.
Defined.

Lemma model_layers_built_and_applied_in_order_witness :
  length (layers model) = 3%nat.
Proof.
  exact (proj1 (model_layers_built_and_applied_in_order (RT := runtime) single cfg None ""
                  model build_single)).
Defined.

Example load_fused_projections :
  DeciModel_load_weights (RT := runtime) model
    [ ("layers.0.self_attn.q_proj.weight", Vector [1; 2]);
      ("layers.0.self_attn.k_proj.weight", Vector [3]);
      ("layers.0.mlp.up_proj.weight", Vector [4]);
      ("layers.0.self_attn.rotary_emb.inv_freq", Vector [5]);
      ("norm.weight", Vector [6]) ]
  = Ok {[ "layers.0.self_attn.qkv_proj.weight";
          "layers.0.mlp.gate_up_proj.weight";
          "norm.weight" ]}.
Proof. vm_compute. reflexivity. Qed.

(** C4 as stated fails: the checkpoint of a GPTQ model carries a bias for
    the query projection that the model has no parameter for. The name
    contains [".q_proj"], and the entry is skipped: no weight loader is
    called and nothing is added to the loaded set. *)
Lemma extra_bias_of_q_proj_not_dispatched :
  Str.contains ".q_proj" "layers.0.self_attn.q_proj.bias" = true
  /\ DeciModel_load_weights_run (RT := runtime) model
       [ ("layers.0.self_attn.q_proj.bias", Vector [1; 2]) ]
     = Ok {| loaded_params := ∅; calls := [] |}.
Proof. split; vm_compute; reflexivity. Qed.

(** After a guard has passed over a rule, the later rules see the name
    that rule has rewritten: with a parameter of the doubly rewritten name,
    an entry naming both a query and a gate projection is loaded by the
    fourth rule. *)
Example later_rule_after_guard :
  exists st',
    load_entry (RT := runtime) model
      {[ "x.qkv_proj.gate_up_proj.bias" := Some "merged_loader" ]}
      empty_load_state ("x.q_proj.gate_proj.bias", Vector [1])
    = Ok st'
    /\ (call_name <$> calls st') = ["x.qkv_proj.gate_up_proj.bias"]
    /\ (call_shard <$> calls st') = [Some (ShardIndex 0)].
Proof. eexists. split; [vm_compute; reflexivity|]. split; reflexivity. Qed.

Lemma stacked_rule_dispatch_witness :
  exists st',
    load_entry (RT := runtime) model (named_parameters model) empty_load_state
      ("layers.0.self_attn.k_proj.weight", Vector [3])
    = Ok st'
    /\ calls st'
       = [ {| call_name := "layers.0.self_attn.qkv_proj.weight";
              call_param := Some "qkv_loader";
              call_loader := "qkv_loader";
              call_weight := Vector [3];
              call_shard := Some (ShardName "k") |} ]
    /\ loaded_params st' = ∅ ∪ {[ "layers.0.self_attn.qkv_proj.weight" ]}.
Proof.
  apply (stacked_rule_dispatch (RT := runtime) model empty_load_state
           "layers.0.self_attn.k_proj.weight" (Vector [3])
           "layers.0.self_attn.k_proj.weight"
           [ (".qkv_proj", ".q_proj", ShardName "q") ]
           [ (".qkv_proj", ".v_proj", ShardName "v");
             (".gate_up_proj", ".gate_proj", ShardIndex 0);
             (".gate_up_proj", ".up_proj", ShardIndex 1) ]
           ".qkv_proj" ".k_proj" (ShardName "k")
           (Some "qkv_loader") "qkv_loader").
  - vm_compute. reflexivity.
  - reflexivity.
  - repeat constructor.
  - vm_compute. reflexivity.
  - vm_compute. reflexivity.
  - vm_compute. reflexivity.
  - vm_compute. reflexivity.
  - reflexivity.
Defined.

Lemma kv_cache_scale_loaded_witness :
  exists st',
    load_entry (RT := runtime) model_fp8 (named_parameters model_fp8)
      empty_load_state
      ("layers.0.self_attn.k_proj.output_scale", Vector [7; 8])
    = Ok st'
    /\ calls st'
       = [ {| call_name := "layers.0.self_attn.attn.k_scale";
              call_param := None;
              call_loader := "default_weight_loader";
              call_weight := Scalar 7;
              call_shard := None |} ]
    /\ loaded_params st' = ∅ ∪ {[ "layers.0.self_attn.attn.k_scale" ]}.
Proof.
  apply (kv_cache_scale_loaded (RT := runtime) model_fp8 empty_load_state
           "layers.0.self_attn.k_proj.output_scale"
           (Vector [7; 8]) (Scalar 7) fp8
           "layers.0.self_attn.attn.k_scale" None).
  - vm_compute. reflexivity.
  - vm_compute. reflexivity.
  - vm_compute. reflexivity.
  - discriminate.
  - vm_compute. reflexivity.
  - right. split; [discriminate|reflexivity].
Defined.

Lemma load_weights_skips_witness :
  load_entry (RT := runtime) model (named_parameters model) empty_load_state
    ("layers.0.self_attn.rotary_emb.inv_freq", Vector [5])
  = Ok empty_load_state
  /\ load_entry (RT := runtime) model (named_parameters model) empty_load_state
       ("layers.0.self_attn.q_proj.bias", Vector [1; 2])
     = Ok empty_load_state
  /\ load_entry (RT := runtime) model_last (named_parameters model_last)
       empty_load_state ("embed_tokens.weight", Vector [1; 2])
     = Ok empty_load_state.
Proof.
  split; [|split].
  - apply (proj1 (load_weights_skips (RT := runtime) model)).
    left. vm_compute. reflexivity.
  - apply (proj1 (proj2 (proj2 (load_weights_skips (RT := runtime) model)))
             empty_load_state _ (Vector [1; 2])
             "layers.0.self_attn.q_proj.bias"
             (Exhausted "layers.0.self_attn.qkv_proj.bias")).
    + vm_compute. reflexivity.
    + vm_compute. reflexivity.
    + left. split; vm_compute; reflexivity.
  - apply (proj1 (proj2 (proj2 (load_weights_skips (RT := runtime) model_last)))
             empty_load_state _ (Vector [1; 2])
             "embed_tokens.weight" (Exhausted "embed_tokens.weight")).
    + vm_compute. reflexivity.
    + vm_compute. reflexivity.
    + right. vm_compute. reflexivity.
Defined.

(** C6 at a Mistral-style checkpoint entry. [DeciLMForCausalLM.load_weights]
    hands the entries it receives to the [AutoWeightsLoader] as they are,
    and [DeciModel.load_weights] looks the name up as it is: the key
    ["wq"] is not rewritten to ["q_proj"], the lookup of the unchanged
    name fails, and [mistral_mapping] is consulted nowhere. The same
    tensor under its module-tree name is loaded. *)
Theorem mistral_names_not_remapped :
  (forall (L : DeciLMForCausalLM -> option (list string) ->
               list (string * tensor) -> result (gset string))
          (self : DeciLMForCausalLM) (weights : list (string * tensor)),
     DeciLMForCausalLM_load_weights (RT := runtime) L self weights
     = L self (if tie_word_embeddings (lm_config self)
               then Some ["lm_head."] else None)
         weights)
  /\ DeciModel_load_weights (RT := runtime) model
       [ ("layers.0.attention.wq.weight", Vector [1; 2]) ]
     = Raise (KeyError "layers.0.attention.wq.weight")
  /\ DeciModel_load_weights (RT := runtime) model
       [ ("layers.0.self_attn.q_proj.weight", Vector [1; 2]) ]
     = Ok {[ "layers.0.self_attn.qkv_proj.weight" ]}.
Proof.
  split; [reflexivity|]. split; vm_compute; reflexivity.
Qed.

End Evaluation.

(** ** Further properties of the rounding helpers *)

Section RoundingEdges.

(** X1. For every integer [n], negative ones included, and every positive
    [k], [_find_multiple(n, k)] returns the least multiple of [k] that is
    at least [n]. *)
Theorem find_multiple_least_multiple (n k : Z) :
  0 < k ->
  exists r, _find_multiple n k = Ok r /\ least_multiple_ge k n r.
Proof.
  intros Hk. rewrite find_multiple_unfold by lia.
  eexists. split; [reflexivity|]. by apply find_multiple_least.
Qed.

Lemma find_multiple_least_multiple_witness :
  exists r, _find_multiple (-3549) 256 = Ok r
            /\ least_multiple_ge 256 (-3549) r.
Proof. apply (find_multiple_least_multiple (-3549) 256). lia. Defined.

(** X2. [_find_multiple(n, k)] raises [ZeroDivisionError] when [k] is
    zero; for every other [k], of either sign, it returns a multiple of [k]
    that differs from [n] by less than the magnitude of [k]. *)
Theorem find_multiple_zero_or_multiple (n k : Z) :
  (k = 0 -> _find_multiple n k = Raise ZeroDivisionError)
  /\ (k <> 0 ->
      exists r, _find_multiple n k = Ok r
                /\ (k | r)
                /\ Z.abs (r - n) < Z.abs k).
Proof.
  split.
  - intros ->. reflexivity.
  - intros Hk. rewrite find_multiple_unfold by done.
    eexists. split; [reflexivity|]. split; [by apply find_multiple_divides|].
    destruct (Z.eqb_spec (n mod k) 0); [lia|].
    destruct (Z.lt_ge_cases 0 k) as [Hpos|Hneg].
    + pose proof (Z.mod_pos_bound n k Hpos). lia.
    + pose proof (Z.mod_neg_bound n k ltac:(lia)). lia.
Qed.

Lemma find_multiple_zero_or_multiple_witness :
  _find_multiple 5 0 = Raise ZeroDivisionError
  /\ exists r, _find_multiple 5 (-4) = Ok r
               /\ (-4 | r) /\ Z.abs (r - 5) < Z.abs (-4).
Proof.
  split.
  - by apply (find_multiple_zero_or_multiple 5 0).
  - by apply (find_multiple_zero_or_multiple 5 (-4)).
Defined.

(** X3. With a negative [k] the helper rounds down: [_find_multiple(n, k)]
    is the greatest multiple of [k] that is at most [n]. *)
Theorem find_multiple_negative_rounds_down (n k : Z) :
  k < 0 ->
  exists r, _find_multiple n k = Ok r /\ greatest_multiple_le k n r.
Proof.
  intros Hk. rewrite find_multiple_unfold by lia.
  eexists. split; [reflexivity|].
  split; [apply find_multiple_divides; lia|].
  pose proof (Z.mod_neg_bound n k Hk) as Hb.
  pose proof (Z.div_mod n k ltac:(lia)) as Hd.
  destruct (Z.eqb_spec (n mod k) 0) as [E|E].
  - split; [lia|]. intros; lia.
  - split; [lia|]. intros m [q ->] Hm.
    assert (n / k < q) by nia. nia.
Qed.

Lemma find_multiple_negative_rounds_down_witness :
  exists r, _find_multiple 5 (-4) = Ok r /\ greatest_multiple_le (-4) 5 r.
Proof. apply (find_multiple_negative_rounds_down 5 (-4)). lia. Defined.

(** X4. For a positive [k], [_find_multiple] is monotone in [n]. *)
Theorem find_multiple_monotone (n m k r r' : Z) :
  0 < k -> n <= m ->
  _find_multiple n k = Ok r -> _find_multiple m k = Ok r' ->
  r <= r'.
Proof.
  intros Hk Hnm Hr Hr'.
  rewrite find_multiple_unfold in Hr, Hr' by lia.
  injection Hr as <-. injection Hr' as <-.
  destruct (find_multiple_least n k Hk) as (_ & _ & Hleast).
  destruct (find_multiple_least m k Hk) as (Hd & Hge & _).
  apply Hleast; [done|lia].
Qed.

Lemma find_multiple_monotone_witness : 3584 <= 3840.
Proof.
  apply (find_multiple_monotone 3549 3585 256 3584 3840);
    [lia|lia|reflexivity|reflexivity].
Defined.

Lemma float_of_two : Py.float_of_int 2 = Ok (S754_finite false 4503599627370496 (-51)).
Proof. vm_compute. reflexivity. Qed.

Lemma float_of_three : Py.float_of_int 3 = Ok (S754_finite false 6755399441055744 (-51)).
Proof. vm_compute. reflexivity. Qed.

(** Rounding keeps the sign it is given. *)
Lemma binary_round_aux_sign (s : bool) (m e : Z) (l : location) :
  match binary_round_aux Py.prec Py.emax s m e l with
  | S754_zero s' | S754_infinity s' | S754_finite s' _ _ => s' = s
  | S754_nan => True
  end.
Proof.
  unfold binary_round_aux.
  destruct (shr_fexp Py.prec Py.emax m e l) as [mrs e'].
  destruct (shr_fexp Py.prec Py.emax _ e' loc_Exact) as [mrs' e''].
  destruct (shr_m mrs'); [done| |done].
  by destruct (_ <=? _).
Qed.

Lemma binary_round_aux_not_negative (m e : Z) (l : location) :
  not_negative (binary_round_aux Py.prec Py.emax false m e l).
Proof.
  pose proof (binary_round_aux_sign false m e l) as H.
  destruct (binary_round_aux _ _ _ _ _ _) as [|[]|  |[]]; cbn; done.
Qed.

Lemma float_of_int_not_negative (z : Z) (f : spec_float) :
  0 <= z -> Py.float_of_int z = Ok f -> not_negative f.
Proof.
  intros Hz. unfold Py.float_of_int, Py.double, binary_normalize.
  destruct z as [|p|p]; [|  |lia].
  - by intros [= <-].
  - unfold binary_round.
    destruct (shl_align _ _ _) as [mz ez].
    pose proof (binary_round_aux_not_negative (Z.pos mz) ez loc_Exact) as H.
    destruct (binary_round_aux _ _ _ _ _ _); intros [= <-]; done.
Qed.

Lemma fmul_not_negative (a b : spec_float) :
  not_negative a -> not_negative b -> not_negative (Py.fmul a b).
Proof.
  unfold Py.fmul, SFmul.
  destruct a as [sa|[]| |[] ma ea], b as [sb|[]| |[] mb eb]; cbn; try done.
  intros _ _. apply binary_round_aux_not_negative.
Qed.

Lemma fdiv_positive_not_negative (a : spec_float) (m : positive) (e : Z) :
  not_negative a -> not_negative (Py.fdiv a (S754_finite false m e)).
Proof.
  unfold Py.fdiv, SFdiv.
  destruct a as [sa|[]| |[] ma ea]; cbn; try done.
  intros _. destruct (SFdiv_core_binary _ _ _ _ _ _) as [[mz ez] lz].
  apply binary_round_aux_not_negative.
Qed.

Lemma int_of_float_not_negative (c : spec_float) (i : Z) :
  not_negative c -> Py.int_of_float c = Ok i -> 0 <= i.
Proof.
  destruct c as [s|s| |[] m e]; cbn; try done.
  - by intros _ [= <-].
  - intros _ [= <-]. destruct e as [|p|p].
    + lia.
    + pose proof (Z.pow_pos_nonneg 2 (Z.pos p)). nia.
    + apply Z.div_pos; [lia|]. apply Z.pow_pos_nonneg; lia.
Qed.

Lemma ffn_raw_size_unfold (ffn_mult : spec_float) (n_embd : Z) :
  ffn_raw_size ffn_mult n_embd
  = (nf ← Py.float_of_int n_embd;
     Py.int_of_float
       (Py.fdiv
          (Py.fmul
             (Py.fmul (S754_finite false 4503599627370496 (-51)) ffn_mult) nf)
          (S754_finite false 6755399441055744 (-51)))).
Proof.
  unfold ffn_raw_size. rewrite float_of_two, float_of_three. reflexivity.
Qed.

(** X5. For a multiplier that is not negative and a hidden size that is
    not negative, every size the function returns is a multiple of 256
    that is not negative. *)
Theorem ffn_mult_to_intermediate_size_not_negative
    (ffn_mult : spec_float) (n_embd r : Z) :
  not_negative ffn_mult -> 0 <= n_embd ->
  _ffn_mult_to_intermediate_size ffn_mult n_embd = Ok r ->
  0 <= r /\ (256 | r).
Proof.
  intros Hf Hn. unfold _ffn_mult_to_intermediate_size.
  rewrite bind_ok_inv. intros (i & Hi & Hr).
  assert (0 <= i) as Hi0.
  { rewrite ffn_raw_size_unfold in Hi.
    apply bind_ok_inv in Hi as (nf & Hnf & Hi).
    eapply int_of_float_not_negative; [|exact Hi].
    apply fdiv_positive_not_negative, fmul_not_negative.
    - by apply fmul_not_negative.
    - by eapply float_of_int_not_negative. }
  rewrite find_multiple_unfold in Hr by lia. injection Hr as <-.
  split; [|by apply find_multiple_divides].
  destruct (find_multiple_least i 256 ltac:(lia)) as (_ & Hge & _). lia.
Qed.

Lemma ffn_mult_to_intermediate_size_not_negative_witness :
  0 <= 3584 /\ (256 | 3584).
Proof.
  apply (ffn_mult_to_intermediate_size_not_negative
           (Py.double 5854679515581645 (-52)) 4096 3584).
  - vm_compute. exact I.
  - lia.
  - vm_compute. reflexivity.
Defined.

(** X6. A multiplier that is a NaN or an infinity never yields a size:
    whatever the hidden size, the function raises [ValueError] or
    [OverflowError]. *)
Theorem ffn_mult_not_finite_raises (ffn_mult : spec_float) (n_embd : Z) :
  ffn_mult = S754_nan \/ (exists s, ffn_mult = S754_infinity s) ->
  _ffn_mult_to_intermediate_size ffn_mult n_embd = Raise ValueError
  \/ _ffn_mult_to_intermediate_size ffn_mult n_embd = Raise OverflowError.
Proof.
  intros Hf. unfold _ffn_mult_to_intermediate_size.
  rewrite ffn_raw_size_unfold.
  destruct (Py.float_of_int n_embd) as [nf|e] eqn:Hn; cbn.
  - destruct Hf as [->|[s ->]].
    + left. reflexivity.
    + destruct nf as [sn|sn| |sn mn en]; cbn; auto.
  - unfold Py.float_of_int in Hn.
    destruct (Py.double n_embd 0); try discriminate.
    injection Hn as <-. by right.
Qed.

Lemma ffn_mult_not_finite_raises_witness :
  _ffn_mult_to_intermediate_size (S754_infinity false) 8192 = Raise ValueError
  \/ _ffn_mult_to_intermediate_size (S754_infinity false) 8192
     = Raise OverflowError.
Proof.
  apply (ffn_mult_not_finite_raises (S754_infinity false) 8192).
  right. by exists false.
Defined.

End RoundingEdges.

(** ** Further properties of the constructors *)

Section Construction.

Context `{RT : Runtime}.

Lemma DeciLMDecoderLayer_init_usable
    (pfx : string -> string -> string) config layer_idx qc prefix layer :
  DeciLMDecoderLayer_init pfx config layer_idx qc prefix = Ok layer ->
  exists bc,
    getitem (block_configs config) layer_idx = Ok bc
    /\ usable_block config bc.
Proof.
  unfold DeciLMDecoderLayer_init. intros H.
  apply bind_ok_inv in H as (bc & Hbc & H). exists bc. split; [done|].
  apply bind_ok_inv in H as ([sa ln] & Hattn & H).
  apply bind_ok_inv in H as ([m pn] & Hffn & _).
  split.
  - intros Ha. rewrite Ha in Hattn. cbn in Hattn.
    apply bind_ok_inv in Hattn as (g & Hg & Hattn).
    apply bind_ok_inv in Hattn as (kv & Hkv & _).
    exists g. unfold number in Hg.
    destruct (n_heads_in_group (attention bc)); [|done].
    injection Hg as ->. split; [done|].
    intros ->. discriminate.
  - intros Hf. rewrite Hf in Hffn. cbn in Hffn.
    apply bind_ok_inv in Hffn as (f & Hm & Hffn).
    apply bind_ok_inv in Hffn as (sz & Hsz & _).
    unfold number in Hm. destruct (ffn_mult (ffn bc)); [|done].
    injection Hm as ->. unfold _ffn_mult_to_intermediate_size in Hsz.
    apply bind_ok_inv in Hsz as (i & Hi & _). eauto.
Qed.

(** X7. [DeciLMDecoderLayer.__init__] returns a layer exactly when
    [config.block_configs[layer_idx]] exists, an active attention block has
    a group size that is a non-zero number, and an active feed-forward
    block has a multiplier for which [int(2 * ffn_mult * hidden_size / 3)]
    has a value. *)
Theorem decoder_layer_init_returns_iff
    (pfx : string -> string -> string) (config : LlamaConfig) (layer_idx : Z)
    (qc : option QuantizationConfig) (prefix : string) :
  (exists layer,
     DeciLMDecoderLayer_init pfx config layer_idx qc prefix = Ok layer)
  <-> exists bc,
        getitem (block_configs config) layer_idx = Ok bc
        /\ usable_block config bc.
Proof.
  split.
  - intros [layer H]. by eapply DeciLMDecoderLayer_init_usable.
  - intros (bc & Hbc & Hu). by eapply DeciLMDecoderLayer_init_returns.
Qed.

Lemma getitem_out_of_range {A : Type} (l : list A) (i : Z) :
  i < - Z.of_nat (length l) \/ Z.of_nat (length l) <= i ->
  getitem l i = Raise IndexError.
Proof.
  intros Hi. unfold getitem.
  destruct (Z.ltb_spec i 0).
  - destruct (Z.leb_spec 0 (i + Z.of_nat (length l))); [lia|done].
  - destruct (Z.leb_spec 0 i); [|lia].
    destruct (Z.ltb_spec i (Z.of_nat (length l))); [lia|done].
Qed.

(** X8. What the constructor raises: [IndexError] for a layer index
    outside the block configurations; for an active attention block,
    [TypeError] when [n_heads_in_group] is [None] and [ZeroDivisionError]
    when it is zero; and, the attention block being in order, [TypeError]
    for an active feed-forward block whose [ffn_mult] is [None]. *)
Theorem decoder_layer_init_raises
    (pfx : string -> string -> string) (config : LlamaConfig) (layer_idx : Z)
    (qc : option QuantizationConfig) (prefix : string) :
  (layer_idx < - Z.of_nat (length (block_configs config))
   \/ Z.of_nat (length (block_configs config)) <= layer_idx ->
   DeciLMDecoderLayer_init pfx config layer_idx qc prefix = Raise IndexError)
  /\ (forall bc,
        getitem (block_configs config) layer_idx = Ok bc ->
        attention_no_op (attention bc) = false ->
        (n_heads_in_group (attention bc) = None ->
         DeciLMDecoderLayer_init pfx config layer_idx qc prefix
         = Raise TypeError)
        /\ (n_heads_in_group (attention bc) = Some 0 ->
            DeciLMDecoderLayer_init pfx config layer_idx qc prefix
            = Raise ZeroDivisionError))
  /\ (forall bc,
        getitem (block_configs config) layer_idx = Ok bc ->
        (attention_no_op (attention bc) = false ->
         exists g, n_heads_in_group (attention bc) = Some g /\ g <> 0) ->
        ffn_no_op (ffn bc) = false ->
        ffn_mult (ffn bc) = None ->
        DeciLMDecoderLayer_init pfx config layer_idx qc prefix
        = Raise TypeError).
Proof.
  split; [|split].
  - intros Hi. unfold DeciLMDecoderLayer_init.
    by rewrite getitem_out_of_range.
  - intros bc Hbc Ha. unfold DeciLMDecoderLayer_init. rewrite Hbc. cbn.
    rewrite Ha. cbn. split; intros ->; reflexivity.
  - intros bc Hbc Hattn Hf Hm. unfold DeciLMDecoderLayer_init.
    rewrite Hbc. cbn. rewrite Hf, Hm. cbn.
    destruct (attention_no_op (attention bc)); cbn; [done|].
    destruct Hattn as (g & -> & Hg); [done|]. cbn.
    unfold Py.floordiv. by destruct (Z.eqb_spec g 0).
Qed.

Lemma comprehension_first_raise {A B : Type} (f : A -> result B)
    (pre post : list A) (x : A) (e : exn) :
  Forall (fun a => exists y, f a = Ok y) pre ->
  f x = Raise e ->
  comprehension f (pre ++ x :: post) = Raise e.
Proof.
  intros Hpre Hx. induction Hpre as [|a pre [y Hy] _ IH]; cbn.
  - by rewrite Hx.
  - rewrite Hy. cbn. by rewrite IH.
Qed.

(** The layer function of [DeciModel] at the prefix [make_layers] gives
    it: the index parsed back from the prefix is discarded, and what is
    left is the layer constructor. *)
Lemma get_layer_at_index config qc (idx : Z) (layers_prefix : string) :
  joins_with_dot add_prefix ->
  String.eqb layers_prefix "" = false ->
  get_layer config qc idx (add_prefix (Str.of_int idx) layers_prefix)
  = DeciLMDecoderLayer_init add_prefix config idx qc
      (add_prefix (Str.of_int idx) layers_prefix).
Proof.
  intros Hpfx Hne. unfold get_layer. rewrite Hpfx, Hne.
  unfold Str.rsplit1. rewrite rpartition_last by apply of_int_no_dot.
  change (getitem [layers_prefix; Str.of_int idx] 1)
    with (@Ok string (Str.of_int idx)).
  cbn. by rewrite to_int_of_int.
Qed.

Lemma layers_prefix_not_empty (prefix : string) :
  joins_with_dot add_prefix ->
  String.eqb (add_prefix "layers" prefix) "" = false.
Proof.
  intros Hpfx. rewrite Hpfx. destruct (String.eqb prefix "") eqn:E; [done|].
  destruct prefix; [done|reflexivity].
Qed.

(** X9. With [add_prefix] joining by a dot, [DeciModel.__init__] returns a
    model exactly when the configuration has at least [num_hidden_layers]
    block configurations and the first [num_hidden_layers] of them are
    usable; block configurations beyond the layers are not looked at. *)
Theorem model_init_returns_iff
    (pp : PPGroup) (config : LlamaConfig)
    (qc : option QuantizationConfig) (prefix : string) :
  joins_with_dot add_prefix ->
  (exists self, DeciModel_init pp config qc prefix = Ok self)
  <-> num_hidden_layers config <= Z.of_nat (length (block_configs config))
      /\ Forall (usable_block config)
           (take (Z.to_nat (num_hidden_layers config)) (block_configs config)).
Proof.
  intros Hpfx. pose proof (layers_prefix_not_empty prefix Hpfx) as Hne.
  split.
  - intros [self Hinit]. apply DeciModel_init_inv in Hinit as (Hls & _ & _).
    unfold make_layers, range in Hls.
    apply comprehension_ok in Hls as [Hlen Hith].
    rewrite length_seqZ in Hlen.
    assert (forall i : nat,
              (i < Z.to_nat (num_hidden_layers config))%nat ->
              exists bc, block_configs config !! i = Some bc
                         /\ usable_block config bc) as Hblocks.
    { intros i Hi.
      destruct (lookup_lt_is_Some_2 (layers self) i) as [layer Hlayer];
        [lia|].
      destruct (Hith i layer Hlayer) as (idx & Hidx & Hget).
      apply lookup_seqZ in Hidx as [-> _]. rewrite Z.add_0_l in Hget.
      rewrite get_layer_at_index in Hget by done.
      apply DeciLMDecoderLayer_init_usable in Hget as (bc & Hbc & Hu).
      apply getitem_of_nat in Hbc. eauto. }
    split.
    + destruct (Z.to_nat (num_hidden_layers config)) as [|n] eqn:Hn; [lia|].
      destruct (Hblocks n ltac:(lia)) as (bc & Hbc & _).
      apply lookup_lt_Some in Hbc. lia.
    + apply Forall_lookup. intros i bc Hi.
      apply lookup_take_Some in Hi as [Hi Hlt].
      destruct (Hblocks i Hlt) as (bc' & Hbc' & Hu). congruence.
  - intros [Hn Hblocks]. unfold DeciModel_init, make_layers.
    destruct (comprehension_returns
                (fun idx => get_layer config qc idx
                              (add_prefix (Str.of_int idx)
                                 (add_prefix "layers" prefix)))
                (range (num_hidden_layers config))) as [ls Hls].
    { apply Forall_forall. intros idx Hidx.
      apply elem_of_seqZ in Hidx. rewrite get_layer_at_index by done.
      destruct (getitem_in_range (block_configs config) idx)
        as (bc & Hbc & _); [lia|].
      eapply DeciLMDecoderLayer_init_returns; [exact Hbc|].
      rewrite Forall_lookup in Hblocks.
      apply (Hblocks (Z.to_nat idx)). apply lookup_take_Some. split; [|lia].
      replace idx with (Z.of_nat (Z.to_nat idx)) in Hbc by lia.
      by apply getitem_of_nat. }
    rewrite Hls. cbn. eauto.
Qed.

(** X10. With more layers than block configurations, all of them usable,
    the constructor raises the [IndexError] of the first layer without a
    block configuration. *)
Theorem model_init_too_many_layers
    (pp : PPGroup) (config : LlamaConfig)
    (qc : option QuantizationConfig) (prefix : string) :
  joins_with_dot add_prefix ->
  Z.of_nat (length (block_configs config)) < num_hidden_layers config ->
  Forall (usable_block config) (block_configs config) ->
  DeciModel_init pp config qc prefix = Raise IndexError.
Proof.
  intros Hpfx Hn Hblocks.
  pose proof (layers_prefix_not_empty prefix Hpfx) as Hne.
  unfold DeciModel_init, make_layers, range.
  set (len := Z.of_nat (length (block_configs config))) in *.
  replace (num_hidden_layers config)
    with (len + (num_hidden_layers config - len)) by lia.
  rewrite seqZ_app by lia.
  rewrite (seqZ_cons (0 + len)) by lia.
  rewrite (comprehension_first_raise _ _ _ _ IndexError); [done| |].
  - apply Forall_forall. intros idx Hidx.
    apply elem_of_seqZ in Hidx. rewrite get_layer_at_index by done.
    destruct (getitem_in_range (block_configs config) idx)
      as (bc & Hbc & Hin); [lia|].
    rewrite Forall_forall in Hblocks.
    eapply DeciLMDecoderLayer_init_returns; eauto.
  - rewrite get_layer_at_index by done.
    unfold DeciLMDecoderLayer_init.
    rewrite getitem_out_of_range by lia. done.
Qed.

Lemma DeciLMDecoderLayer_init_attention
    (pfx : string -> string -> string) config layer_idx qc prefix layer sa :
  DeciLMDecoderLayer_init pfx config layer_idx qc prefix = Ok layer ->
  self_attn layer = Some sa ->
  exists template,
    sa = with_layer_arguments template layer_idx (num_kv_heads sa)
           (pfx "self_attn" prefix)
    /\ template
       = with_layer_arguments
           {| attn_config := config;
              attn_hidden_size := hidden_size config;
              num_heads := num_attention_heads config;
              num_kv_heads := 0;
              layer_id := 0;
              attn_rope_theta := default (PInt 10000) (rope_theta config);
              attn_rope_scaling :=
                match rope_scaling config,
                      original_max_position_embeddings config with
                | Some d, Some n =>
                    if n =? 0 then Some d
                    else Some (<["original_max_position_embeddings"
                                 := PInt n]> d)
                | rs, _ => rs
                end;
              attn_rope_is_neox_style :=
                default true (rope_is_neox_style config);
              attn_max_position_embeddings :=
                default 8192 (max_position_embeddings config);
              attn_quant_config := qc;
              attn_prefix := "";
              attn_bias :=
                match qkv_bias config with
                | Some b => b
                | None => default false (attention_bias config)
                          || default false (bias config)
                end |} 0 0 "".
Proof.
  unfold DeciLMDecoderLayer_init. intros H Hsa.
  apply bind_ok_inv in H as (bc & Hbc & H).
  apply bind_ok_inv in H as ([sa' ln] & Hattn & H).
  apply bind_ok_inv in H as ([m pn] & Hffn & [= <-]).
  cbn in Hsa. subst sa'.
  destruct (attention_no_op (attention bc)); cbn in Hattn; [done|].
  apply bind_ok_inv in Hattn as (g & Hg & Hattn).
  apply bind_ok_inv in Hattn as (kv & Hkv & [= <- _]).
  eexists. split; [|reflexivity]. reflexivity.
Qed.

(** X11. In a constructed model the attention module of the layer at
    position [i] carries [i] as its [layer_id] and the prefix of layer [i],
    layers without attention taking up their index as well; and any two
    attention modules of the model differ in nothing but their layer id,
    prefix and number of key-value heads. *)
Theorem model_attention_layer_arguments
    (pp : PPGroup) (config : LlamaConfig)
    (qc : option QuantizationConfig) (prefix : string) (self : DeciModel) :
  DeciModel_init pp config qc prefix = Ok self ->
  forall (i j : nat) (li lj : DeciLMDecoderLayer) (si sj : LlamaAttention),
    layers self !! i = Some li -> self_attn li = Some si ->
    layers self !! j = Some lj -> self_attn lj = Some sj ->
    layer_id si = Z.of_nat i
    /\ attn_prefix si
       = add_prefix "self_attn"
           (add_prefix (Str.of_int (Z.of_nat i)) (add_prefix "layers" prefix))
    /\ sj = with_layer_arguments si (layer_id sj) (num_kv_heads sj)
              (attn_prefix sj).
Proof.
  intros Hinit i j li lj si sj Hi Hsi Hj Hsj.
  apply DeciModel_init_inv in Hinit as (Hls & _ & _).
  unfold make_layers, range in Hls.
  apply comprehension_ok in Hls as [_ Hith].
  destruct (Hith i li Hi) as (idx & Hidx & Hgi).
  apply lookup_seqZ in Hidx as [-> _]. rewrite Z.add_0_l in Hgi.
  destruct (Hith j lj Hj) as (idx & Hidx & Hgj).
  apply lookup_seqZ in Hidx as [-> _]. rewrite Z.add_0_l in Hgj.
  unfold get_layer in Hgi, Hgj.
  apply bind_ok_inv in Hgi as (? & _ & Hgi).
  apply bind_ok_inv in Hgi as (? & _ & Hgi).
  apply bind_ok_inv in Hgj as (? & _ & Hgj).
  apply bind_ok_inv in Hgj as (? & _ & Hgj).
  destruct (DeciLMDecoderLayer_init_attention _ _ _ _ _ _ _ Hgi Hsi)
    as (ti & Ei & Eti).
  destruct (DeciLMDecoderLayer_init_attention _ _ _ _ _ _ _ Hgj Hsj)
    as (tj & Ej & Etj).
  rewrite Ei, Ej, Eti, Etj. cbn. done.
Qed.

End Construction.

(** ** Further properties of the forward passes *)

Section ForwardEdges.

Context `{RT : Runtime}.

Lemma DeciLMDecoderLayer_init_attributes
    (pfx : string -> string -> string) config layer_idx qc prefix layer :
  DeciLMDecoderLayer_init pfx config layer_idx qc prefix = Ok layer ->
  (_is_no_op_attention layer = false ->
   is_Some (self_attn layer) /\ is_Some (input_layernorm layer))
  /\ (_is_no_op_ffn layer = false ->
      is_Some (mlp layer) /\ is_Some (post_attention_layernorm layer)).
Proof.
  unfold DeciLMDecoderLayer_init. intros H.
  apply bind_ok_inv in H as (bc & Hbc & H).
  apply bind_ok_inv in H as ([sa ln] & Hattn & H).
  apply bind_ok_inv in H as ([m pn] & Hffn & [= <-]). cbn.
  split; intros Hflag.
  - rewrite Hflag in Hattn. cbn in Hattn.
    apply bind_ok_inv in Hattn as (g & _ & Hattn).
    apply bind_ok_inv in Hattn as (kv & _ & [= <- <-]). eauto.
  - rewrite Hflag in Hffn. cbn in Hffn.
    apply bind_ok_inv in Hffn as (f & _ & Hffn).
    apply bind_ok_inv in Hffn as (sz & _ & [= <- <-]). eauto.
Qed.

(** X12. On a layer that [__init__] has built, [forward] reads no
    attribute that is missing: where the engine's normalization, attention
    and feed-forward calls return, [forward] returns. (A layer whose only
    active block is the feed-forward needs a residual to hand to its
    normalization.) *)
Theorem constructed_layer_forward_returns
    (pfx : string -> string -> string) (config : LlamaConfig) (layer_idx : Z)
    (qc : option QuantizationConfig) (prefix : string)
    (layer : DeciLMDecoderLayer) (positions : Positions)
    (hidden_states : Tensor)
    (intermediate_tensors : option IntermediateTensors)
    (residual : option Tensor) :
  DeciLMDecoderLayer_init pfx config layer_idx qc prefix = Ok layer ->
  (forall n x, exists y, rmsnorm_forward n x = Ok y) ->
  (forall n x r, exists y,
     rmsnorm_forward_residual (Present n) x (Some r) = Ok y) ->
  (forall a p x t, exists y, attention_forward a p x t = Ok y) ->
  (forall m x, exists y, mlp_forward m x = Ok y) ->
  (_is_no_op_attention layer = true -> _is_no_op_ffn layer = false ->
   is_Some residual) ->
  exists out,
    DeciLMDecoderLayer_forward layer positions hidden_states
      intermediate_tensors residual = Ok out.
Proof.
  intros Hinit Hn1 Hn2 Hat Hml Hres.
  apply DeciLMDecoderLayer_init_attributes in Hinit as [Ha Hf].
  unfold DeciLMDecoderLayer_forward.
  destruct (_is_no_op_attention layer) eqn:Ea; cbn.
  - destruct (_is_no_op_ffn layer) eqn:Ef; cbn; [eauto|].
    destruct (Hf eq_refl) as [[m ->] [pn ->]].
    destruct (Hres eq_refl eq_refl) as [r ->]. cbn.
    destruct (Hn2 pn hidden_states r) as [[h' r'] ->]. cbn.
    destruct (Hml m h') as [h'' ->]. cbn. eauto.
  - destruct (Ha eq_refl) as [[sa ->] [ln ->]].
    assert (exists h1 r1,
              match residual with
              | Some r0 =>
                  attr "input_layernorm" (Some ln) ≫= λ ln0,
                    rmsnorm_forward_residual (Present ln0) hidden_states
                      (Some r0)
              | None =>
                  attr "input_layernorm" (Some ln) ≫= λ ln0,
                    rmsnorm_forward ln0 hidden_states ≫= λ h,
                      Ok (h, hidden_states)
              end = Ok (h1, r1)) as (h1 & r1 & ->).
    { destruct residual as [r0|]; cbn.
      - destruct (Hn2 ln hidden_states r0) as [[h1 r1] ->]. eauto.
      - destruct (Hn1 ln hidden_states) as [h1 ->]. cbn. eauto. }
    cbn. destruct (Hat sa positions h1 intermediate_tensors) as [h2 ->]. cbn.
    destruct (_is_no_op_ffn layer) eqn:Ef; cbn; [eauto|].
    destruct (Hf eq_refl) as [[m ->] [pn ->]]. cbn.
    destruct (Hn2 pn h2 r1) as [[h3 r3] ->]. cbn.
    destruct (Hml m h3) as [h4 ->]. cbn. eauto.
Qed.

(** X13. Whenever a layer with an active block returns, the residual it
    returns is a tensor, never [None]; and when attention is its only
    active block and no residual came in, that residual is the hidden
    states the layer received. *)
Theorem active_layer_returns_residual
    (self : DeciLMDecoderLayer) (positions : Positions)
    (hidden_states : Tensor)
    (intermediate_tensors : option IntermediateTensors)
    (residual : option Tensor) (h' : Tensor) (r' : option Tensor) :
  _is_no_op_attention self = false \/ _is_no_op_ffn self = false ->
  DeciLMDecoderLayer_forward self positions hidden_states
    intermediate_tensors residual = Ok (h', r') ->
  is_Some r'
  /\ (_is_no_op_attention self = false -> _is_no_op_ffn self = true ->
      residual = None -> r' = Some hidden_states).
Proof.
  intros Hactive. unfold DeciLMDecoderLayer_forward.
  rewrite bind_ok_inv. intros ([h1 r1] & Hattn & Hffn).
  destruct (_is_no_op_ffn self) eqn:Ef; cbn in Hffn.
  - injection Hffn as <- <-.
    destruct Hactive as [Ea|?]; [|done]. rewrite Ea in Hattn.
    apply bind_ok_inv in Hattn as ([h2 r2] & Hnorm & Hattn).
    apply bind_ok_inv in Hattn as (sa & _ & Hattn).
    apply bind_ok_inv in Hattn as (h3 & _ & [= <- <-]).
    split; [eauto|]. intros _ _ ->.
    apply bind_ok_inv in Hnorm as (ln & _ & Hnorm).
    apply bind_ok_inv in Hnorm as (h4 & _ & [= <- <-]). done.
  - apply bind_ok_inv in Hffn as (ln & _ & Hffn).
    apply bind_ok_inv in Hffn as ([h2 r2] & _ & Hffn).
    apply bind_ok_inv in Hffn as (m & _ & Hffn).
    apply bind_ok_inv in Hffn as (h3 & _ & [= <- <-]).
    split; [eauto|]. intros _ [=].
Qed.

Lemma apply_noop_layer positions it (s : Tensor * option Tensor) layer :
  is_noop_layer layer = true -> apply_layer positions it s layer = Ok s.
Proof.
  unfold is_noop_layer. intros [Ha Hf]%andb_prop.
  unfold apply_layer, DeciLMDecoderLayer_forward. rewrite Ha, Hf.
  by destruct s.
Qed.

Lemma for_each_skip_neutral {A S : Type} (body : S -> A -> result S)
    (neutral : A -> bool) (xs : list A) (s : S) :
  (forall s x, neutral x = true -> body s x = Ok s) ->
  for_each body (filter (fun x => neutral x = false) xs) s
  = for_each body xs s.
Proof.
  intros Hneutral. revert s. induction xs as [|x xs IH]; intros s; [done|].
  rewrite filter_cons. destruct (neutral x) eqn:Hx.
  - rewrite decide_False by done. cbn. rewrite Hneutral by done. cbn.
    apply IH.
  - rewrite decide_True by done. cbn. destruct (body s x); cbn; auto.
Qed.

(** X14. Layers whose two blocks are both no-ops are transparent in the
    stack: [forward] of a model is [forward] of the model without them. *)
Theorem forward_without_noop_layers
    (pp : PPGroup) (self : DeciModel) (input_ids : option Tensor)
    (positions : Positions) (it : option IntermediateTensors)
    (inputs_embeds : option Tensor) :
  DeciModel_forward pp self input_ids positions it inputs_embeds
  = DeciModel_forward pp
      (with_layers self
         (filter (fun l => is_noop_layer l = false) (layers self)))
      input_ids positions it inputs_embeds.
Proof.
  rewrite !DeciModel_forward_decompose.
  change (initial_states pp (with_layers self _) input_ids it inputs_embeds)
    with (initial_states pp self input_ids it inputs_embeds).
  destruct (initial_states pp self input_ids it inputs_embeds)
    as [[h0 r0]|e]; [|done].
  cbn. unfold run_layers. cbn [layers with_layers].
  rewrite (for_each_skip_neutral _ is_noop_layer).
  - reflexivity.
  - intros s x. apply apply_noop_layer.
Qed.

(** X15. The hand-over between pipeline stages is lossless. When a stage
    that is not the last returns, it returns intermediate tensors, and a
    stage that is not the first, given these tensors, runs its layers from
    exactly the pair of hidden states and residual the previous stage's
    layers ended with, whatever its [input_ids] and [inputs_embeds]. *)
Theorem pipeline_handover
    (pp1 pp2 : PPGroup) (self1 self2 : DeciModel)
    (input_ids ids2 : option Tensor) (positions pos2 : Positions)
    (it : option IntermediateTensors) (inputs_embeds embeds2 : option Tensor)
    (out : forward_output) :
  is_last_rank pp1 = false -> is_first_rank pp2 = false ->
  DeciModel_forward pp1 self1 input_ids positions it inputs_embeds = Ok out ->
  exists tensors h0 r0 h r,
    out = OutIntermediate tensors
    /\ initial_states pp1 self1 input_ids it inputs_embeds = Ok (h0, r0)
    /\ run_layers self1 positions it h0 r0 = Ok (h, r)
    /\ DeciModel_forward pp2 self2 ids2 pos2 (Some tensors) embeds2
       = ('(h', r') ← run_layers self2 pos2 (Some tensors) h r;
          final_output pp2 self2 h' r').
Proof.
  intros Hlast Hfirst. rewrite DeciModel_forward_decompose, bind_ok_inv.
  intros ([h0 r0] & Hstart & H).
  apply bind_ok_inv in H as ([h r] & Hrun & Hend).
  unfold final_output in Hend. rewrite Hlast in Hend. cbn in Hend.
  injection Hend as <-.
  eexists _, h0, r0, h, r. split; [reflexivity|]. split; [done|].
  split; [done|].
  rewrite DeciModel_forward_decompose. unfold initial_states at 1.
  rewrite Hfirst. unfold dict_get.
  rewrite (lookup_insert_ne _ "residual" "hidden_states") by done.
  rewrite !lookup_insert_eq. reflexivity.
Qed.

End ForwardEdges.

(** ** Further properties of weight loading *)

Section LoadEdges.

Context `{RT : Runtime}.

Lemma for_each_app {A S : Type} (body : S -> A -> result S)
    (xs ys : list A) (s : S) :
  for_each body (xs ++ ys) s = (s' ← for_each body xs s; for_each body ys s').
Proof.
  revert s. induction xs as [|x xs IH]; intros s; [done|].
  cbn. destruct (body s x); cbn; auto.
Qed.

Lemma merge_states_empty_r st : merge_states st empty_load_state = st.
Proof.
  destruct st as [l c]. unfold merge_states. cbn.
  by rewrite (right_id_L ∅ (∪)), app_nil_r.
Qed.

Lemma merge_states_dispatch st c n :
  merge_states st (dispatch empty_load_state c n) = dispatch st c n.
Proof.
  unfold merge_states, dispatch. cbn. by rewrite (left_id_L ∅ (∪)).
Qed.

Lemma merge_states_assoc a b c :
  merge_states (merge_states a b) c = merge_states a (merge_states b c).
Proof.
  unfold merge_states. cbn. by rewrite (assoc_L (∪)), (assoc_L (++)).
Qed.

(** What an entry does is the same from every state. *)
Lemma load_entry_merge self params st entry :
  load_entry self params st entry
  = (d ← load_entry self params empty_load_state entry;
     Ok (merge_states st d)).
Proof.
  destruct entry as [name w].
  destruct (rotary_name name) eqn:Hrot.
  { rewrite !load_entry_rotary by done. cbn.
    by rewrite merge_states_empty_r. }
  destruct (mapping_input self params name) as [name1|] eqn:Hin.
  - rewrite !(load_entry_mapping _ _ _ _ _ _ Hin).
    destruct (stacked_loop self params stacked_params_mapping name1 w)
      as [[name' c|name']|e]; cbn; [by rewrite merge_states_dispatch| |done].
    destruct (extra_bias params name');
      [cbn; by rewrite merge_states_empty_r|].
    destruct (is_pp_missing_parameter name' self);
      [cbn; by rewrite merge_states_empty_r|].
    destruct (dict_get params name'); cbn; [|done].
    by rewrite merge_states_dispatch.
  - unfold mapping_input in Hin. rewrite Hrot in Hin.
    unfold rotary_name in Hrot. unfold load_entry.
    destruct (Str.contains "rotary_emb.inv_freq" name); [done|].
    cbn in Hrot. rewrite Hrot.
    destruct (cache_scale_name self name) as [scale|].
    + destruct (dict_get params scale); cbn; [|done].
      destruct (if tensor_dim w =? 0 then Ok w else tensor_first w); cbn;
        [|done].
      by rewrite merge_states_dispatch.
    + rewrite Hin. cbn. by rewrite merge_states_empty_r.
Qed.

Lemma load_run_from self params ws st :
  for_each (load_entry self params) ws st
  = (d ← for_each (load_entry self params) ws empty_load_state;
     Ok (merge_states st d)).
Proof.
  revert st. induction ws as [|e ws IH]; intros st.
  - cbn. by rewrite merge_states_empty_r.
  - cbn [for_each]. rewrite (load_entry_merge _ _ st).
    destruct (load_entry self params empty_load_state e) as [d1|err];
      [|done].
    cbn. rewrite (IH (merge_states st d1)), (IH d1).
    destruct (for_each (load_entry self params) ws empty_load_state);
      cbn; [|done].
    by rewrite merge_states_assoc.
Qed.

(** X16. Loading a checkpoint in two parts is loading it at once: the
    run over [ws1 ++ ws2] makes the calls of the run over [ws1] followed by
    those of the run over [ws2], its loaded set is the union of theirs, and
    it raises what the first failing part raises. *)
Theorem load_weights_concatenation
    (self : DeciModel) (ws1 ws2 : list (string * Tensor)) :
  DeciModel_load_weights_run self (ws1 ++ ws2)
  = (st1 ← DeciModel_load_weights_run self ws1;
     st2 ← DeciModel_load_weights_run self ws2;
     Ok {| loaded_params := loaded_params st1 ∪ loaded_params st2;
           calls := calls st1 ++ calls st2 |}).
Proof.
  unfold DeciModel_load_weights_run. rewrite for_each_app.
  destruct (for_each _ ws1 empty_load_state) as [st1|e]; [|done].
  cbn. by rewrite load_run_from.
Qed.

Lemma load_weights_cons self e ws :
  DeciModel_load_weights self (e :: ws)
  = (d ← load_entry self (named_parameters self) empty_load_state e;
     s ← DeciModel_load_weights self ws;
     Ok (loaded_params d ∪ s)).
Proof.
  unfold DeciModel_load_weights, DeciModel_load_weights_run.
  cbn [for_each].
  destruct (load_entry self (named_parameters self) empty_load_state e)
    as [d|err]; [|done].
  cbn. rewrite load_run_from.
  by destruct (for_each _ ws empty_load_state).
Qed.

(** X17. The set [load_weights] returns does not depend on the order of
    the checkpoint entries: if it returns for a list of entries, it
    returns the same set for every permutation of the list. *)
Theorem load_weights_order_independent
    (self : DeciModel) (ws ws' : list (string * Tensor)) (s : gset string) :
  ws ≡ₚ ws' ->
  DeciModel_load_weights self ws = Ok s ->
  DeciModel_load_weights self ws' = Ok s.
Proof.
  intros Hperm. revert s.
  induction Hperm as [|e ws ws' _ IH|e1 e2 ws|ws ws' ws'' _ IH1 _ IH2];
    intros s.
  - done.
  - rewrite !load_weights_cons, !bind_ok_inv.
    intros (d & Hd & H). apply bind_ok_inv in H as (s' & Hs' & [= <-]).
    exists d. split; [done|]. by rewrite (IH s' Hs').
  - rewrite !load_weights_cons, bind_ok_inv.
    intros (d2 & Hd2 & H). apply bind_ok_inv in H as (s1 & Hs1 & [= <-]).
    apply bind_ok_inv in Hs1 as (d1 & Hd1 & Hs1).
    apply bind_ok_inv in Hs1 as (s' & Hs' & [= <-]).
    rewrite Hd1, Hd2, Hs'. cbn. f_equal.
    rewrite !(assoc_L (∪)). f_equal. apply (comm_L (∪)).
  - eauto.
Qed.

Lemma append_cons (c : ascii) (s t : string) :
  String c s +:+ t = String c (s +:+ t).
Proof. reflexivity. Qed.

Lemma prefix_append (p rest : string) : String.prefix p (p +:+ rest) = true.
Proof.
  induction p as [|c p IH].
  - change ("" +:+ rest) with rest. by destruct rest.
  - rewrite append_cons. cbn. by destruct (ascii_dec c c).
Qed.

Lemma prefix_refl (p : string) : String.prefix p p = true.
Proof.
  induction p as [|c p IH]; [done|]. cbn. by destruct (ascii_dec c c).
Qed.

Lemma contains_unfold (sub s : string) :
  Str.contains sub s
  = String.prefix sub s
    || match s with
       | EmptyString => false
       | String _ s' => Str.contains sub s'
       end.
Proof. by destruct s. Qed.

Lemma prefix_contains (sub s : string) :
  String.prefix sub s = true -> Str.contains sub s = true.
Proof. intros H. by rewrite contains_unfold, H. Qed.

Lemma contains_tail (sub : string) (c : ascii) (s : string) :
  Str.contains sub s = true -> Str.contains sub (String c s) = true.
Proof.
  intros H. rewrite contains_unfold, H. apply orb_true_r.
Qed.

Lemma replace_scan_contains (old new s : string) :
  old <> "" ->
  Str.contains old s = true ->
  Str.contains new (Str.replace_scan old new 0 s) = true.
Proof.
  intros Hold. induction s as [|c s IH].
  - destruct old; [done|]. discriminate.
  - rewrite contains_unfold. cbn [Str.replace_scan].
    destruct (String.prefix old (String c s)) eqn:Hp.
    + intros _. apply prefix_contains, prefix_append.
    + cbn. intros H. apply contains_tail. auto.
Qed.

(** After [s.replace(old, new)] of an [old] that occurs in [s], [new]
    occurs in the result. *)
Lemma replace_contains (s old new : string) :
  Str.contains old s = true ->
  Str.contains new (Str.replace s old new) = true.
Proof.
  unfold Str.replace. destruct old as [|c old].
  - intros _. apply prefix_contains. destruct s as [|a s]; cbn.
    + apply prefix_refl.
    + apply prefix_append.
  - by apply replace_scan_contains.
Qed.

Lemma stacked_loop_break_rule self params mapping name w name' c :
  stacked_loop self params mapping name w = Ok (Break name' c) ->
  exists p wn sh,
    (p, wn, sh) ∈ mapping
    /\ call_shard c = Some sh
    /\ call_name c = name'
    /\ Str.contains p name' = true.
Proof.
  revert name. induction mapping as [|[[p wn] sh] rest IH]; intros name;
    cbn; [done|].
  assert (forall n, stacked_loop self params rest n w = Ok (Break name' c) ->
            exists p0 wn0 sh0,
              (p0, wn0, sh0) ∈ (p, wn, sh) :: rest
              /\ call_shard c = Some sh0
              /\ call_name c = name'
              /\ Str.contains p0 name' = true) as Hrest.
  { intros n Hn. destruct (IH n Hn) as (p0 & wn0 & sh0 & Hin & H).
    exists p0, wn0, sh0. split; [by apply list_elem_of_further|done]. }
  destruct (Str.contains wn name) eqn:Hm; cbn; [|apply Hrest].
  set (name1 := Str.replace name wn p).
  destruct (extra_bias params name1); [apply Hrest|].
  destruct (is_pp_missing_parameter name1 self); [apply Hrest|].
  unfold dict_get. destruct (params !! name1) as [param|]; [|done]. cbn.
  destruct (weight_loader param) as [l|]; [|done]. cbn.
  intros [= <- <-]. exists p, wn, sh. cbn.
  split; [apply list_elem_of_here|]. split; [done|]. split; [done|].
  by apply replace_contains.
Qed.

Lemma load_entry_shard_targets self params st entry st' :
  Forall shard_targets_fused (calls st) ->
  load_entry self params st entry = Ok st' ->
  Forall shard_targets_fused (calls st').
Proof.
  intros Hst. destruct entry as [name w].
  destruct (rotary_name name) eqn:Hrot.
  { rewrite load_entry_rotary by done. by intros [= <-]. }
  assert (forall c n, call_shard c = None ->
            Forall shard_targets_fused (calls (dispatch st c n))) as Hnone.
  { intros c n Hc. cbn. apply Forall_app. split; [done|].
    constructor; [|done]. unfold shard_targets_fused. by rewrite Hc. }
  destruct (mapping_input self params name) as [name1|] eqn:Hin.
  - rewrite (load_entry_mapping _ _ _ _ _ _ Hin), bind_ok_inv.
    intros ([name' c|name'] & Hloop & H).
    + injection H as <-. cbn. apply Forall_app. split; [done|].
      constructor; [|done].
      apply stacked_loop_break_rule in Hloop
        as (p & wn & sh & Hin' & Hsh & <- & Hc).
      unfold shard_targets_fused. rewrite Hsh. eauto.
    + destruct (extra_bias params name'); [by injection H as <-|].
      destruct (is_pp_missing_parameter name' self); [by injection H as <-|].
      apply bind_ok_inv in H as (param & _ & [= <-]). by apply Hnone.
  - unfold mapping_input in Hin. rewrite Hrot in Hin.
    unfold rotary_name in Hrot. unfold load_entry.
    destruct (Str.contains "rotary_emb.inv_freq" name); [done|].
    cbn in Hrot. rewrite Hrot.
    destruct (cache_scale_name self name) as [scale|].
    + rewrite bind_ok_inv. intros (param & _ & H).
      apply bind_ok_inv in H as (w' & _ & [= <-]). by apply Hnone.
    + rewrite Hin. by intros [= <-].
Qed.

(** X18. A tensor is handed to a weight loader together with a shard id
    only for a fused parameter: in every call that [load_weights] makes
    with a shard id, the parameter name contains the fused name of a rule
    with that shard id ([".qkv_proj"] for ["q"], ["k"], ["v"],
    [".gate_up_proj"] for [0], [1]). *)
Theorem sharded_calls_target_fused_names
    (self : DeciModel) (weights : list (string * Tensor)) (st : load_state) :
  DeciModel_load_weights_run self weights = Ok st ->
  forall c sh,
    c ∈ calls st -> call_shard c = Some sh ->
    exists p wn,
      (p, wn, sh) ∈ stacked_params_mapping
      /\ Str.contains p (call_name c) = true.
Proof.
  intros Hrun c sh Hc Hsh.
  assert (Forall shard_targets_fused (calls st)) as Hall.
  { unfold DeciModel_load_weights_run in Hrun.
    refine (for_each_invariant
              (fun s => Forall shard_targets_fused (calls s))
              _ _ _ _ _ _ Hrun).
    - intros s x s'. apply load_entry_shard_targets.
    - constructor. }
  rewrite Forall_forall in Hall. specialize (Hall c Hc).
  unfold shard_targets_fused in Hall. by rewrite Hsh in Hall.
Qed.

Lemma for_each_raise {A S : Type} (body : S -> A -> result S)
    (xs ys : list A) (x : A) (s s1 : S) (e : exn) :
  for_each body xs s = Ok s1 ->
  body s1 x = Raise e ->
  for_each body (xs ++ x :: ys) s = Raise e.
Proof.
  intros Hxs Hx. rewrite for_each_app, Hxs. cbn. by rewrite Hx.
Qed.

(** X19. A name that is not a parameter aborts the load. An entry that
    leaves the loop over the stacked mapping unmatched, with a name that
    is no parameter, does not end with [".bias"] and is not of another
    pipeline stage, raises the [KeyError] of that name; a kv-cache scale
    whose name is no parameter raises the [KeyError] of the scale name
    without any such guard; and [load_weights] as a whole raises what the
    first such entry raises, the entries after it not being looked at. *)
Theorem unknown_name_aborts_load
    (self : DeciModel) (ws1 ws2 : list (string * Tensor))
    (st1 : load_state) (name : string) (w : Tensor) (e : exn) :
  let params_dict := named_parameters self in
  DeciModel_load_weights_run self ws1 = Ok st1 ->
  (exists name1 name',
     mapping_input self params_dict name = Some name1
     /\ stacked_loop self params_dict stacked_params_mapping name1 w
        = Ok (Exhausted name')
     /\ Str.endswith name' ".bias" = false
     /\ is_pp_missing_parameter name' self = false
     /\ params_dict !! name' = None
     /\ e = KeyError name')
  \/ (exists scale,
        rotary_name name = false
        /\ cache_scale_name self name = Some scale
        /\ params_dict !! scale = None
        /\ e = KeyError scale) ->
  DeciModel_load_weights self (ws1 ++ (name, w) :: ws2) = Raise e.
Proof.
  intros params_dict Hrun1 Hentry.
  unfold DeciModel_load_weights, DeciModel_load_weights_run in *.
  rewrite (for_each_raise _ _ _ _ _ st1 e Hrun1); [done|].
  destruct Hentry as [(name1 & name' & Hin & Hloop & Hb & Hpp & Hp & ->)
                     |(scale & Hrot & Hscale & Hp & ->)].
  - rewrite (load_entry_mapping _ _ _ _ _ _ Hin), Hloop. cbn.
    unfold extra_bias. rewrite Hb, Hpp. cbn. unfold dict_get.
    by rewrite Hp.
  - unfold rotary_name in Hrot. unfold load_entry.
    destruct (Str.contains "rotary_emb.inv_freq" name); [done|].
    cbn in Hrot. rewrite Hrot, Hscale. cbv beta iota.
    unfold dict_get. subst params_dict. by rewrite Hp.
Qed.

(** X20. An entry whose name contains none of the shard names, and is a
    parameter of this pipeline stage, is loaded whole under its own
    (possibly scale-remapped) name: one call, without shard id, by the
    parameter's [weight_loader] when it has one and by
    [default_weight_loader] otherwise. *)
Theorem unstacked_parameter_loaded_whole
    (self : DeciModel) (st : load_state) (name name1 : string) (w : Tensor)
    (param : Param) :
  let params_dict := named_parameters self in
  mapping_input self params_dict name = Some name1 ->
  Forall (fun rule => Str.contains rule.1.2 name1 = false)
    stacked_params_mapping ->
  params_dict !! name1 = Some param ->
  is_pp_missing_parameter name1 self = false ->
  exists st',
    load_entry self params_dict st (name, w) = Ok st'
    /\ calls st'
       = (calls st ++ [ {| call_name := name1;
                           call_param := param;
                           call_loader :=
                             default default_weight_loader
                               (weight_loader param);
                           call_weight := w;
                           call_shard := None |} ])%list
    /\ loaded_params st' = loaded_params st ∪ {[ name1 ]}.
Proof.
  intros params_dict Hin Hno Hp Hpp.
  rewrite (load_entry_mapping _ _ _ _ _ _ Hin).
  rewrite stacked_loop_no_match by done. cbn.
  unfold extra_bias. rewrite Hp, andb_false_r, Hpp. unfold dict_get.
  rewrite Hp. cbn. eexists. split; [reflexivity|]. done.
Qed.

(** X21. A parameter reached through a rule of the stacked mapping must
    have a [weight_loader] of its own: where the first matching rule leads
    to a parameter without one, the entry raises [AttributeError], there
    being no fall-back to [default_weight_loader] on this path. *)
Theorem stacked_parameter_needs_weight_loader
    (self : DeciModel) (st : load_state) (name : string) (w : Tensor)
    (name1 : string) (pre post : list (string * string * shard_id))
    (p wn : string) (sh : shard_id) (param : Param) :
  let params_dict := named_parameters self in
  let target := Str.replace name1 wn p in
  mapping_input self params_dict name = Some name1 ->
  stacked_params_mapping = (pre ++ (p, wn, sh) :: post)%list ->
  Forall (fun rule => Str.contains rule.1.2 name1 = false) pre ->
  Str.contains wn name1 = true ->
  extra_bias params_dict target = false ->
  is_pp_missing_parameter target self = false ->
  params_dict !! target = Some param ->
  weight_loader param = None ->
  load_entry self params_dict st (name, w)
  = Raise (AttributeError "weight_loader").
Proof.
  intros params_dict target Hin Hmap Hpre Hm Hb Hpp Hp Hl.
  rewrite (load_entry_mapping _ _ _ _ _ _ Hin), Hmap.
  assert (stacked_loop self params_dict (pre ++ (p, wn, sh) :: post) name1 w
          = Raise (AttributeError "weight_loader")) as ->; [|done].
  clear Hmap. induction Hpre as [|[[p0 w0] s0] pre Hno _ IH]; cbn.
  - rewrite Hm. cbn. fold target. rewrite Hb, Hpp. unfold dict_get.
    rewrite Hp. cbn. by rewrite Hl.
  - cbn in Hno. rewrite Hno. cbn. exact IH.
Qed.

End LoadEdges.

(** ** Properties of [DeciLMForCausalLM] *)

Section CausalLMProperties.

Context `{RT : Runtime}.

Variable padding : Z.
Variable SamplingMetadata Logits : Type.
Variable processor_forward :
  LogitsProcessor -> option Tensor -> Tensor -> head_module ->
  SamplingMetadata -> result Logits.

Lemma DeciLMForCausalLM_init_inv pp config logit_scale qc prefix self :
  DeciLMForCausalLM_init padding pp config logit_scale qc prefix = Ok self ->
  DeciModel_init pp config qc (add_prefix prefix "model")
  = Ok (model (core self))
  /\ lm_config (core self) = config
  /\ (if is_last_rank pp
      then exists head,
             head_prefix head = add_prefix prefix "lm_head"
             /\ lm_head self
                = (if tie_word_embeddings config
                   then TiedHead head (embed_tokens (model (core self)))
                   else Head head)
             /\ logits_processor self
                = Some {| processor_arg0 := vocab_size config;
                          processor_arg1 := vocab_size config;
                          processor_arg2 :=
                            default (Py.double 1 0) logit_scale |}
      else lm_head self = HeadMissing /\ logits_processor self = None).
Proof.
  unfold DeciLMForCausalLM_init, _init_model. intros H.
  apply bind_ok_inv in H as (m & Hm & H).
  destruct (is_last_rank pp); injection H as <-; cbn.
  - split; [done|]. split; [done|]. eexists.
    split; [|split]; [|reflexivity|reflexivity]. reflexivity.
  - done.
Qed.

(** X22. [compute_logits] works on the last pipeline rank only. On a
    model built on any other rank it raises [AttributeError], the logits
    processor never having been set; on a model built on the last rank it
    is the call of the logits processor, without input ids, on the hidden
    states and a head that is not a [PPMissingLayer]. *)
Theorem compute_logits_needs_last_rank
    (pp : PPGroup) (config : LlamaConfig) (logit_scale : option spec_float)
    (qc : option QuantizationConfig) (prefix : string) (self : CausalLM)
    (hidden_states : Tensor) (metadata : SamplingMetadata) :
  DeciLMForCausalLM_init padding pp config logit_scale qc prefix = Ok self ->
  (is_last_rank pp = false ->
   compute_logits SamplingMetadata Logits processor_forward self
     hidden_states metadata
   = Raise (AttributeError "logits_processor"))
  /\ (is_last_rank pp = true ->
      exists processor,
        logits_processor self = Some processor
        /\ lm_head self <> HeadMissing
        /\ compute_logits SamplingMetadata Logits processor_forward self
             hidden_states metadata
           = processor_forward processor None hidden_states (lm_head self)
               metadata).
Proof.
  intros Hinit. apply DeciLMForCausalLM_init_inv in Hinit as (_ & _ & H).
  unfold compute_logits. split; intros Hlast; rewrite Hlast in H.
  - destruct H as [_ ->]. reflexivity.
  - destruct H as (head & _ & Hhead & Hproc). rewrite Hproc.
    eexists. split; [reflexivity|]. split; [|reflexivity].
    rewrite Hhead. by destruct (tie_word_embeddings config).
Qed.

(** X23. With tied word embeddings the head of the last rank is tied to
    an embedding that is there: [DeciModel] keeps [embed_tokens] on the
    last rank exactly for this case, so the module [tie_weights] receives
    is never a [PPMissingLayer]. *)
Theorem tied_head_has_embedding
    (pp : PPGroup) (config : LlamaConfig) (logit_scale : option spec_float)
    (qc : option QuantizationConfig) (prefix : string) (self : CausalLM) :
  DeciLMForCausalLM_init padding pp config logit_scale qc prefix = Ok self ->
  is_last_rank pp = true ->
  tie_word_embeddings config = true ->
  exists head emb,
    lm_head self = TiedHead head (Present emb)
    /\ embed_tokens (model (core self)) = Present emb.
Proof.
  intros Hinit Hlast Htie.
  apply DeciLMForCausalLM_init_inv in Hinit as (Hm & _ & H).
  rewrite Hlast, Htie in H. destruct H as (head & _ & Hhead & _).
  apply DeciModel_init_inv in Hm as (_ & Hemb & _).
  rewrite Hlast, Htie, orb_true_r in Hemb.
  rewrite Hhead, Hemb. eauto.
Qed.

Lemma append_assoc (a b c : string) : (a +:+ b) +:+ c = a +:+ (b +:+ c).
Proof. induction a as [|x a IH]; [done|]. rewrite !append_cons. by f_equal. Qed.

Lemma append_nonempty (a b : string) : a <> "" -> a +:+ b <> "".
Proof. destruct a; [done|]. rewrite append_cons. discriminate. Qed.

Lemma add_prefix_nonempty (name p : string) :
  joins_with_dot add_prefix -> p <> "" ->
  add_prefix name p = p +:+ "." +:+ name.
Proof.
  intros Hpfx Hp. rewrite Hpfx. destruct (String.eqb_spec p ""); done.
Qed.

(** X24. [DeciLMForCausalLM] hands its own prefix to [add_prefix] as the
    name and ["model"] (or ["lm_head"]) as the prefix. With an [add_prefix]
    that joins by a dot, the attention of layer [i] is therefore built
    under ["model.<prefix>.layers.<i>.self_attn"] and the head under
    ["lm_head.<prefix>"], for the empty prefix as well. *)
Theorem causal_lm_prefixes
    (pp : PPGroup) (config : LlamaConfig) (logit_scale : option spec_float)
    (qc : option QuantizationConfig) (prefix : string) (self : CausalLM) :
  joins_with_dot add_prefix ->
  DeciLMForCausalLM_init padding pp config logit_scale qc prefix = Ok self ->
  (forall (i : nat) layer sa,
     layers (model (core self)) !! i = Some layer ->
     self_attn layer = Some sa ->
     attn_prefix sa
     = "model." +:+ prefix +:+ ".layers." +:+ Str.of_int (Z.of_nat i)
       +:+ ".self_attn")
  /\ (is_last_rank pp = true ->
      exists head,
        (lm_head self = Head head \/ exists e, lm_head self = TiedHead head e)
        /\ head_prefix head = "lm_head." +:+ prefix).
Proof.
  intros Hpfx Hinit.
  apply DeciLMForCausalLM_init_inv in Hinit as (Hm & _ & H). split.
  - intros i layer sa Hi Hsa.
    apply DeciModel_init_inv in Hm as (Hls & _ & _).
    unfold make_layers, range in Hls.
    apply comprehension_ok in Hls as [_ Hith].
    destruct (Hith i layer Hi) as (idx & Hidx & Hget).
    apply lookup_seqZ in Hidx as [-> _]. rewrite Z.add_0_l in Hget.
    unfold get_layer in Hget.
    apply bind_ok_inv in Hget as (? & _ & Hget).
    apply bind_ok_inv in Hget as (? & _ & Hget).
    destruct (DeciLMDecoderLayer_init_attention _ _ _ _ _ _ _ Hget Hsa)
      as (t & -> & _).
    cbn [attn_prefix with_layer_arguments].
    rewrite (add_prefix_nonempty _ "model" Hpfx) by done.
    rewrite (add_prefix_nonempty "layers" _ Hpfx)
      by (by apply append_nonempty).
    rewrite (add_prefix_nonempty (Str.of_int _) _ Hpfx)
      by (by do 2 apply append_nonempty).
    rewrite (add_prefix_nonempty "self_attn" _ Hpfx)
      by (by do 3 apply append_nonempty).
    rewrite !append_assoc. reflexivity.
  - intros Hlast. rewrite Hlast in H. destruct H as (head & Hp & Hhead & _).
    exists head. split.
    + rewrite Hhead. destruct (tie_word_embeddings config); eauto.
    + rewrite Hp, (add_prefix_nonempty _ "lm_head" Hpfx) by done.
      reflexivity.
Qed.

(** X25. [DeciLMForCausalLM.get_input_embeddings] reaches an embedding
    only on the first pipeline rank and, with tied word embeddings, on the
    last: there it is the call of an embedding of [vocab_size] rows of
    width [hidden_size]. On a model built on any other rank it is the call
    of a [PPMissingLayer]. *)
Theorem input_embeddings_by_rank
    (pp : PPGroup) (config : LlamaConfig) (logit_scale : option spec_float)
    (qc : option QuantizationConfig) (prefix : string) (self : CausalLM)
    (input_ids : option Tensor) :
  DeciLMForCausalLM_init padding pp config logit_scale qc prefix = Ok self ->
  (is_first_rank pp = false ->
   tie_word_embeddings config && is_last_rank pp = false ->
   DeciLMForCausalLM_get_input_embeddings self input_ids
   = embedding_forward PPMissingLayer input_ids)
  /\ (is_first_rank pp || (tie_word_embeddings config && is_last_rank pp)
      = true ->
      exists emb,
        num_embeddings emb = vocab_size config
        /\ embedding_dim emb = hidden_size config
        /\ DeciLMForCausalLM_get_input_embeddings self input_ids
           = embedding_forward (Present emb) input_ids).
Proof.
  intros Hinit. apply DeciLMForCausalLM_init_inv in Hinit as (Hm & _ & _).
  apply DeciModel_init_inv in Hm as (_ & Hemb & _).
  unfold DeciLMForCausalLM_get_input_embeddings, get_input_embeddings.
  rewrite Hemb. split.
  - intros -> ->. reflexivity.
  - intros ->. eexists. split; [|split; [|reflexivity]]; cbn; [lia|done].
Qed.

End CausalLMProperties.

(** ** Properties of sampling *)

Section SamplingProperties.

Context `{RT : Runtime}.

Variable LogitsOutput : Type.
Variable next_token_logits : LogitsOutput -> Tensor.
Variable Event Grammar LogprobNums TokenIds : Type.

Local Abbreviation info := (SamplingBatchInfo Event Grammar).
Local Abbreviation batch := (ForwardBatch Event Grammar LogprobNums TokenIds).
Local Abbreviation nest := (logits_output LogitsOutput).
Local Abbreviation event :=
  (sample_event LogitsOutput Event Grammar LogprobNums TokenIds).

Variable sampler_forward :
  LogitsOutput -> info -> bool -> LogprobNums -> TokenIds -> Tensor.
Variable torch_stack : list Tensor -> Tensor.

Local Abbreviation run :=
  (sample LogitsOutput next_token_logits Event Grammar LogprobNums TokenIds
     sampler_forward torch_stack).

Local Abbreviation events_of :=
  (output_events LogitsOutput next_token_logits Event Grammar LogprobNums
     TokenIds).

Lemma logits_output_nested_ind (P : nest -> Prop) :
  (forall o, P (Single LogitsOutput o)) ->
  (forall values, Forall P values -> P (Many LogitsOutput values)) ->
  forall l, P l.
Proof.
  intros Hsingle Hmany.
  fix IH 1. intros [o|values]; [apply Hsingle|].
  apply Hmany. induction values as [|v values IHvalues]; constructor.
  - apply IH.
  - apply IHvalues.
Qed.

Lemma sample_trace (l : nest) (fb : batch) :
  (run l fb).2 = concat (map (events_of fb) (outputs LogitsOutput l)).
Proof.
  induction l as [o|values IH] using logits_output_nested_ind.
  - cbn. by rewrite app_nil_r.
  - cbn [sample outputs snd]. rewrite !map_map.
    induction IH as [|v values Hv _ IHvalues]; [done|].
    cbn [map concat]. rewrite Hv, IHvalues.
    by rewrite map_app, concat_app.
Qed.

(** X26. The calls [sample] makes depend on the outputs alone, not on how
    the tuples holding them are nested: they are the calls for each
    output (its preprocessing, then the sampler on it), output after
    output from left to right. *)
Theorem sample_calls_follow_outputs (l l' : nest) (fb : batch) :
  (run l fb).2 = concat (map (events_of fb) (outputs LogitsOutput l))
  /\ (outputs LogitsOutput l = outputs LogitsOutput l' ->
      (run l fb).2 = (run l' fb).2).
Proof.
  split; [apply sample_trace|].
  intros Hout. by rewrite !sample_trace, Hout.
Qed.

Local Abbreviation count :=
  (count_events LogitsOutput Event Grammar LogprobNums TokenIds).

Lemma count_events_app kind (a b : list event) :
  count kind (a ++ b) = (count kind a + count kind b)%nat.
Proof.
  unfold count_events. by rewrite List.filter_app, length_app.
Qed.

Lemma count_events_concat kind (f : LogitsOutput -> list event)
    (os : list LogitsOutput) (n : nat) :
  (forall o, count kind (f o) = n) ->
  count kind (concat (map f os)) = (length os * n)%nat.
Proof.
  intros Hf. induction os as [|o os IH]; [done|].
  cbn [map concat length]. rewrite count_events_app, Hf, IH. lia.
Qed.

(** X27. For every output [sample] applies the logits bias once and
    calls the sampler once. In normal mode ([sampling_info_done] is
    [None]) it updates the vocabulary mask once per output and never
    waits; in overlap mode it never updates the mask, and waits, once per
    output, only when there are grammars. *)
Theorem sample_call_counts (l : nest) (fb : batch) :
  let trace := (run l fb).2 in
  let n := length (outputs LogitsOutput l) in
  count (is_bias LogitsOutput Event Grammar LogprobNums TokenIds) trace = n
  /\ count (is_sampler LogitsOutput Event Grammar LogprobNums TokenIds) trace
     = n
  /\ (sampling_info_done Event Grammar
        (sampling_info Event Grammar LogprobNums TokenIds fb) = None ->
      count (is_update LogitsOutput Event Grammar LogprobNums TokenIds) trace
      = n
      /\ count (is_wait LogitsOutput Event Grammar LogprobNums TokenIds) trace
         = 0%nat)
  /\ (forall e,
        sampling_info_done Event Grammar
          (sampling_info Event Grammar LogprobNums TokenIds fb) = Some e ->
        count (is_update LogitsOutput Event Grammar LogprobNums TokenIds)
          trace = 0%nat
        /\ count (is_wait LogitsOutput Event Grammar LogprobNums TokenIds)
             trace
           = if truthy (grammars Event Grammar
                          (sampling_info Event Grammar LogprobNums TokenIds
                             fb))
             then n else 0%nat).
Proof.
  intros trace n. subst trace. rewrite sample_trace.
  assert (forall kind k,
            (forall o, count kind (events_of fb o) = k) ->
            count kind (concat (map (events_of fb) (outputs LogitsOutput l)))
            = (n * k)%nat) as Hcount.
  { intros kind k Hk. by apply count_events_concat. }
  split; [|split; [|split]].
  - rewrite (Hcount _ 1%nat); [lia|]. intros o.
    unfold output_events, _preprocess_logits.
    destruct (sampling_info_done _ _ _) as [e|]; [|done].
    by destruct (truthy _).
  - rewrite (Hcount _ 1%nat); [lia|]. intros o.
    unfold output_events, _preprocess_logits.
    destruct (sampling_info_done _ _ _) as [e|]; [|done].
    by destruct (truthy _).
  - intros Hdone. split.
    + rewrite (Hcount _ 1%nat); [lia|]. intros o.
      unfold output_events, _preprocess_logits. by rewrite Hdone.
    + rewrite (Hcount _ 0%nat); [lia|]. intros o.
      unfold output_events, _preprocess_logits. by rewrite Hdone.
  - intros e Hdone. split.
    + rewrite (Hcount _ 0%nat); [lia|]. intros o.
      unfold output_events, _preprocess_logits. rewrite Hdone.
      by destruct (truthy _).
    + destruct (truthy (grammars Event Grammar
                          (sampling_info Event Grammar LogprobNums TokenIds
                             fb))) eqn:Hg.
      * rewrite (Hcount _ 1%nat); [lia|]. intros o.
        unfold output_events, _preprocess_logits. by rewrite Hdone, Hg.
      * rewrite (Hcount _ 0%nat); [lia|]. intros o.
        unfold output_events, _preprocess_logits. by rewrite Hdone, Hg.
Qed.

End SamplingProperties.
(** ** The further properties on the example models *)

Section FurtherEvaluation.

Import Example Cases.

Lemma prefixed_joins_with_dot : joins_with_dot prefixed.
Proof. intros name p. reflexivity. Qed.

Lemma cfg_blocks_usable : Forall (usable_block cfg) (block_configs cfg).
Proof.
  unfold cfg at 2. unfold block_configs.
  constructor; [|constructor; [|constructor; [|constructor]]];
    (split; [intros Ha|intros Hf]); try discriminate.
  - exists 8. split; [reflexivity|lia].
  - eexists _, _. split; [reflexivity|]. vm_compute. reflexivity.
  - eexists _, _. split; [reflexivity|]. vm_compute. reflexivity.
Qed.

Lemma decoder_layer_init_returns_iff_witness :
  exists layer,
    DeciLMDecoderLayer_init prefixed cfg_short 1 None "layers.1" = Ok layer.
Proof.
  apply (proj2 (decoder_layer_init_returns_iff prefixed cfg_short 1 None
                  "layers.1")).
  eexists. split; [reflexivity|]. split; [discriminate|]. intros _.
  eexists _, _. split; [reflexivity|]. vm_compute. reflexivity.
Defined.

Lemma decoder_layer_init_raises_witness :
  DeciLMDecoderLayer_init prefixed cfg_broken 3 None "layers.3"
  = Raise IndexError
  /\ DeciLMDecoderLayer_init prefixed cfg_broken 0 None "layers.0"
     = Raise TypeError
  /\ DeciLMDecoderLayer_init prefixed cfg_broken 1 None "layers.1"
     = Raise ZeroDivisionError
  /\ DeciLMDecoderLayer_init prefixed cfg_broken (-1) None "layers.2"
     = Raise TypeError.
Proof.
  split; [|split; [|split]].
  - apply (proj1 (decoder_layer_init_raises prefixed cfg_broken 3 None
                    "layers.3")).
    right. cbn. lia.
  - apply (proj1 (proj1 (proj2 (decoder_layer_init_raises prefixed cfg_broken
                                  0 None "layers.0"))
                    (block false None true None) eq_refl eq_refl)).
    reflexivity.
  - apply (proj2 (proj1 (proj2 (decoder_layer_init_raises prefixed cfg_broken
                                  1 None "layers.1"))
                    (block false (Some 0) true None) eq_refl eq_refl)).
    reflexivity.
  - apply (proj2 (proj2 (decoder_layer_init_raises prefixed cfg_broken
                           (-1) None "layers.2"))
             (block true None false None) eq_refl);
      [discriminate|reflexivity|reflexivity].
Defined.

Lemma model_init_returns_iff_witness :
  exists self,
    DeciModel_init (RT := runtime) last_ cfg_short None "model" = Ok self.
Proof.
  apply (proj2 (model_init_returns_iff (RT := runtime) last_ cfg_short None
                  "model" prefixed_joins_with_dot)).
  split; [cbn; lia|].
  change (Forall (usable_block cfg) (take 2 (block_configs cfg))).
  apply Forall_take, cfg_blocks_usable.
Defined.

Lemma model_init_too_many_layers_witness :
  DeciModel_init (RT := runtime) single cfg_long None "" = Raise IndexError.
Proof.
  apply (model_init_too_many_layers (RT := runtime) single cfg_long None ""
           prefixed_joins_with_dot).
  - cbn. lia.
  - exact cfg_blocks_usable.
Defined.

Lemma model_attention_layer_arguments_witness :
  exists sa,
    self_attn full_layer = Some sa
    /\ layer_id sa = 0
    /\ attn_prefix sa = "layers.0.self_attn".
Proof.
  eexists. split; [reflexivity|].
  destruct (model_attention_layer_arguments (RT := runtime) single cfg None ""
              model build_single 0 0 full_layer full_layer _ _
              eq_refl eq_refl eq_refl eq_refl) as (Hid & Hprefix & _).
  split; [exact Hid|exact Hprefix].
Defined.

Lemma constructed_layer_forward_returns_witness :
  exists out,
    DeciLMDecoderLayer_forward (RT := runtime) full_layer tt (Scalar 1) None
      None = Ok out.
Proof.
  apply (constructed_layer_forward_returns (RT := runtime) prefixed cfg 0 None
           "layers.0").
  - vm_compute. reflexivity.
  - intros n x. eexists. reflexivity.
  - intros n x r. eexists. reflexivity.
  - intros a p x t. eexists. reflexivity.
  - intros m x. eexists. reflexivity.
  - intros [=].
Defined.

Lemma active_layer_returns_residual_witness :
  exists h r,
    DeciLMDecoderLayer_forward (RT := runtime) full_layer tt (Scalar 1) None
      None = Ok (h, r)
    /\ is_Some r.
Proof.
  eexists _, _. split; [reflexivity|].
  refine (proj1 (active_layer_returns_residual (RT := runtime) full_layer tt
                   (Scalar 1) None None _ _ (or_introl eq_refl) eq_refl)).
Defined.

Lemma pipeline_handover_witness :
  exists tensors,
    DeciModel_forward (RT := runtime) first model_first (Some (Scalar 1)) tt
      None None = Ok (OutIntermediate tensors).
Proof.
  destruct (pipeline_handover (RT := runtime) first last_ model_first
              model_last (Some (Scalar 1)) None tt tt None None None _
              eq_refl eq_refl eq_refl) as (t & _ & _ & _ & _ & Hout & _).
  exists t. rewrite <- Hout. reflexivity.
Defined.

Lemma load_weights_order_independent_witness :
  DeciModel_load_weights (RT := runtime) model
    [ ("layers.0.self_attn.q_proj.weight", Vector [1; 2]);
      ("norm.weight", Vector [6]) ]
  = Ok {[ "norm.weight"; "layers.0.self_attn.qkv_proj.weight" ]}.
Proof.
  apply (load_weights_order_independent (RT := runtime) model
           [ ("norm.weight", Vector [6]);
             ("layers.0.self_attn.q_proj.weight", Vector [1; 2]) ]).
  - apply Permutation_swap.
  - vm_compute. reflexivity.
Defined.

Lemma sharded_calls_target_fused_names_witness :
  exists p wn,
    (p, wn, ShardName "k") ∈ stacked_params_mapping
    /\ Str.contains p "layers.0.self_attn.qkv_proj.weight" = true.
Proof.
  refine (sharded_calls_target_fused_names (RT := runtime) model
            [ ("layers.0.self_attn.k_proj.weight", Vector [3]) ] _ eq_refl
            {| call_name := "layers.0.self_attn.qkv_proj.weight";
               call_param := Some "qkv_loader";
               call_loader := "qkv_loader";
               call_weight := Vector [3];
               call_shard := Some (ShardName "k") |}
            (ShardName "k") _ eq_refl).
  vm_compute. left.
Defined.

Lemma unknown_name_aborts_load_witness :
  DeciModel_load_weights (RT := runtime) model
    ([ ("norm.weight", Vector [6]) ]
     ++ ("lm_head.weight", Vector [7])
     :: [ ("layers.0.self_attn.q_proj.weight", Vector [1; 2]) ])%list
  = Raise (KeyError "lm_head.weight").
Proof.
  refine (unknown_name_aborts_load (RT := runtime) model
            [ ("norm.weight", Vector [6]) ]
            [ ("layers.0.self_attn.q_proj.weight", Vector [1; 2]) ]
            _ "lm_head.weight" (Vector [7]) _ eq_refl _).
  left. exists "lm_head.weight", "lm_head.weight".
  split; [vm_compute; reflexivity|].
  split; [vm_compute; reflexivity|].
  split; [vm_compute; reflexivity|].
  split; [vm_compute; reflexivity|].
  split; [vm_compute; reflexivity|reflexivity].
Defined.

Lemma unstacked_parameter_loaded_whole_witness :
  exists st',
    load_entry (RT := runtime) model (parameters model) empty_load_state
      ("norm.weight", Vector [6]) = Ok st'
    /\ loaded_params st' = loaded_params empty_load_state ∪ {[ "norm.weight" ]}.
Proof.
  destruct (unstacked_parameter_loaded_whole (RT := runtime) model
              empty_load_state "norm.weight" "norm.weight" (Vector [6]) None)
    as (st' & Hentry & _ & Hloaded).
  - vm_compute. reflexivity.
  - repeat constructor.
  - vm_compute. reflexivity.
  - vm_compute. reflexivity.
  - exists st'. split; [exact Hentry|exact Hloaded].
Defined.

Lemma stacked_parameter_needs_weight_loader_witness :
  load_entry (RT := bare_runtime) model
    (named_parameters (Runtime := bare_runtime) model) empty_load_state
    ("layers.0.self_attn.k_proj.weight", Vector [3])
  = Raise (AttributeError "weight_loader").
Proof.
  apply (stacked_parameter_needs_weight_loader (RT := bare_runtime) model
           empty_load_state "layers.0.self_attn.k_proj.weight" (Vector [3])
           "layers.0.self_attn.k_proj.weight"
           [ (".qkv_proj", ".q_proj", ShardName "q") ]
           [ (".qkv_proj", ".v_proj", ShardName "v");
             (".gate_up_proj", ".gate_proj", ShardIndex 0);
             (".gate_up_proj", ".up_proj", ShardIndex 1) ]
           ".qkv_proj" ".k_proj" (ShardName "k") None).
  - vm_compute. reflexivity.
  - reflexivity.
  - repeat constructor.
  - vm_compute. reflexivity.
  - vm_compute. reflexivity.
  - vm_compute. reflexivity.
  - vm_compute. reflexivity.
  - reflexivity.
Defined.

Lemma build_causal_first :
  DeciLMForCausalLM_init (RT := runtime) 64 first cfg None None ""
  = Ok causal_first.
Proof. vm_compute. reflexivity. Qed.

Lemma build_causal_tied :
  DeciLMForCausalLM_init (RT := runtime) 64 last_ cfg_tied None None ""
  = Ok causal_tied.
Proof. vm_compute. reflexivity. Qed.

Lemma build_causal_named :
  DeciLMForCausalLM_init (RT := runtime) 64 single cfg None None "decilm"
  = Ok causal_named.
Proof. vm_compute. reflexivity. Qed.

Lemma compute_logits_needs_last_rank_witness :
  compute_logits (RT := runtime) unit tensor processor_example causal_first
    (Scalar 1) tt
  = Raise (AttributeError "logits_processor").
Proof.
  apply (proj1 (compute_logits_needs_last_rank (RT := runtime) 64 unit tensor
                  processor_example first cfg None None "" causal_first
                  (Scalar 1) tt build_causal_first)).
  reflexivity.
Defined.

Lemma tied_head_has_embedding_witness :
  exists head emb, lm_head causal_tied = TiedHead head (Present emb).
Proof.
  destruct (tied_head_has_embedding (RT := runtime) 64 last_ cfg_tied None
              None "" causal_tied build_causal_tied eq_refl eq_refl)
    as (head & emb & Hhead & _).
  exists head, emb. exact Hhead.
Defined.

Lemma causal_lm_prefixes_witness :
  exists head,
    (lm_head causal_named = Head head
     \/ exists e, lm_head causal_named = TiedHead head e)
    /\ head_prefix head = "lm_head.decilm".
Proof.
  apply (proj2 (causal_lm_prefixes (RT := runtime) 64 single cfg None None
                  "decilm" causal_named prefixed_joins_with_dot
                  build_causal_named)).
  reflexivity.
Defined.

Lemma input_embeddings_by_rank_witness :
  exists emb,
    num_embeddings emb = 128256
    /\ embedding_dim emb = 8192
    /\ DeciLMForCausalLM_get_input_embeddings (RT := runtime) causal_first
         (Some (Scalar 3))
       = embedding_forward (Present emb) (Some (Scalar 3)).
Proof.
  apply (proj2 (input_embeddings_by_rank (RT := runtime) 64 first cfg None
                  None "" causal_first (Some (Scalar 3)) build_causal_first)).
  reflexivity.
Defined.

Lemma sample_calls_follow_outputs_witness :
  (sample (RT := runtime) Z Scalar unit unit unit unit sampler_example
     stack_example
     (Many Z [Single Z 1; Many Z [Single Z 2; Many Z []]])
     (batch_of None None)).2
  = (sample (RT := runtime) Z Scalar unit unit unit unit sampler_example
       stack_example (Many Z [Single Z 1; Single Z 2])
       (batch_of None None)).2.
Proof.
  apply (proj2 (sample_calls_follow_outputs (RT := runtime) Z Scalar unit unit
                  unit unit sampler_example stack_example _ _ _)).
  reflexivity.
Defined.

Lemma sample_call_counts_witness :
  count_events Z unit unit unit unit (is_wait Z unit unit unit unit)
    (sample (RT := runtime) Z Scalar unit unit unit unit sampler_example
       stack_example (Many Z [Single Z 1; Many Z [Single Z 2]])
       (batch_of (Some tt) (Some [tt]))).2
  = 2%nat.
Proof.
  destruct (sample_call_counts (RT := runtime) Z Scalar unit unit unit unit
              sampler_example stack_example
              (Many Z [Single Z 1; Many Z [Single Z 2]])
              (batch_of (Some tt) (Some [tt]))) as (_ & _ & _ & Hoverlap).
  exact (proj2 (Hoverlap tt eq_refl)).
Defined.

End FurtherEvaluation.
